(** * mqtt_connect: the MQTT connection latch controller

    A shallow embedding of [src/mqtt_connect.c]: the event handler
    [mqtt_event_handler], the blocking start-up [mqtt_start] and the
    teardown [mqtt_stop], over the three globals of the translation unit
    and the FreeRTOS event group they share. *)

From Stdlib Require Import ZArith List Bool Lia.
Import ListNotations.
Local Open Scope Z_scope.

(** ** Vendor constants

    The source takes these names from the headers of ESP-IDF it includes;
    the values are the ones those headers give them:
    - [esp_err.h]: ESP_OK 0, ESP_FAIL -1, ESP_ERR_INVALID_STATE 0x103,
      ESP_ERR_NOT_SUPPORTED 0x106;
    - esp-mqtt's [mqtt_client.h]: [enum esp_mqtt_error_type_t]
      { MQTT_ERROR_TYPE_NONE = 0, MQTT_ERROR_TYPE_TCP_TRANSPORT,
        MQTT_ERROR_TYPE_CONNECTION_REFUSED, ... }, hence 0, 1 and 2;
    - [esp_bit_defs.h]: BIT0 0x1, BIT1 0x2, BIT2 0x4;
    - FreeRTOS' [portmacro.h]: portMAX_DELAY 0xffffffff.
    [esp_err_t] is an [int], [EventBits_t] and [TickType_t] are unsigned
    32-bit integers; no operation of the program leaves their range. *)

Definition esp_err_t := Z.
Definition EventBits_t := Z.
Definition TickType_t := Z.

Definition ESP_OK : esp_err_t := 0.
Definition ESP_FAIL : esp_err_t := -1.
Definition ESP_ERR_INVALID_STATE : esp_err_t := 0x103.
Definition ESP_ERR_NOT_SUPPORTED : esp_err_t := 0x106.

(** The source assigns two values of [esp_mqtt_error_type_t] to the
    [esp_err_t] that [mqtt_start] returns (lines 181 and 185). *)
Definition MQTT_ERROR_TYPE_NONE : esp_err_t := 0.
Definition MQTT_ERROR_TYPE_CONNECTION_REFUSED : esp_err_t := 2.

Definition BIT0 : EventBits_t := 1.
Definition BIT1 : EventBits_t := 2.
Definition BIT2 : EventBits_t := 4.

Definition portMAX_DELAY : TickType_t := 0xffffffff.

(** ** Event group definitions (lines 61-63) *)

Definition MQTT_EVTGRP_CONNECTED_BIT : EventBits_t := BIT0.
Definition MQTT_EVTGRP_DISCONNECTED_BIT : EventBits_t := BIT1.
Definition MQTT_EVTGRP_ERROR_BIT : EventBits_t := BIT2.

(** The event ids of [esp_mqtt_event_id_t]; the handler has a case for
    seven of them and a default for the others. *)
Inductive esp_mqtt_event_id_t : Type :=
  | MQTT_EVENT_ANY
  | MQTT_EVENT_ERROR
  | MQTT_EVENT_CONNECTED
  | MQTT_EVENT_DISCONNECTED
  | MQTT_EVENT_SUBSCRIBED
  | MQTT_EVENT_UNSUBSCRIBED
  | MQTT_EVENT_PUBLISHED
  | MQTT_EVENT_DATA
  | MQTT_EVENT_BEFORE_CONNECT
  | MQTT_EVENT_DELETED
  | MQTT_USER_EVENT.

(** ** Program state

    The three globals of the translation unit.  [s_mqtt_evtgrp_hdl] is
    either NULL ([None]) or refers to a live event group, represented by
    the group's current bits; the program never holds two groups at once.
    [lifecycle] is instrumentation: the calls [mqtt_start] and [mqtt_stop]
    have issued to their collaborators, oldest first. *)

Definition esp_mqtt_client_handle_t := option nat.

Inductive call : Type :=
  | xEventGroupCreate_call
  | esp_mqtt_client_init_call
  | esp_mqtt_client_register_event_call
  | esp_mqtt_client_start_call
  | esp_mqtt_client_disconnect_call
  | esp_mqtt_client_stop_call
  | esp_mqtt_client_unregister_event_call
  | esp_mqtt_client_destroy_call
  | free_call.

Record state : Type := mkState {
  s_mqtt_evtgrp_hdl : option EventBits_t;
  mqtt_connected : bool;
  mqtt_client_hdl : esp_mqtt_client_handle_t;
  lifecycle : list call
}.

(** Values of the globals at program start (lines 69-73). *)
Definition initial_state : state :=
  mkState None false None [].

(** What the collaborators answer during one run: the allocation results
    and the [esp_err_t] of each esp-mqtt call. *)
Record vendor : Type := mkVendor {
  xEventGroupCreate_ok : bool;
  esp_mqtt_client_init : esp_mqtt_client_handle_t;
  esp_mqtt_client_register_event : esp_err_t;
  esp_mqtt_client_start : esp_err_t;
  esp_mqtt_client_disconnect : esp_err_t;
  esp_mqtt_client_stop : esp_err_t;
  esp_mqtt_client_unregister_event : esp_err_t
}.

(** ** A small monad for the C control flow

    A computation either goes on with a value ([Next]), leaves the
    enclosing C function with a return code ([Return]), stays blocked in
    a FreeRTOS wait for ever ([Block]) or trips a FreeRTOS assertion on a
    NULL event group ([Abort]). *)

Inductive step (A : Type) : Type :=
  | Next (a : A) (st : state)
  | Return (r : esp_err_t) (st : state)
  | Block (st : state)
  | Abort.

Arguments Next {A} a st.
Arguments Return {A} r st.
Arguments Block {A} st.
Arguments Abort {A}.

Definition ctl (A : Type) : Type := state -> step A.

Definition ret {A} (a : A) : ctl A := fun st => Next a st.

Definition bind {A B} (m : ctl A) (f : A -> ctl B) : ctl B :=
  fun st =>
    match m st with
    | Next a st' => f a st'
    | Return r st' => Return r st'
    | Block st' => Block st'
    | Abort => Abort
    end.

Declare Scope ctl_scope.
Delimit Scope ctl_scope with ctl.
Notation "x <- m ;; k" := (bind m (fun x => k))
  (at level 61, m at next level, right associativity) : ctl_scope.
Notation "m ;; k" := (bind m (fun _ => k))
  (at level 61, right associativity) : ctl_scope.
Local Open Scope ctl_scope.

(** [return r;] *)
Definition leave {A} (r : esp_err_t) : ctl A := fun st => Return r st.

(** Assignments to the globals, and the instrumentation. *)
Definition with_s_mqtt_evtgrp_hdl (h : option EventBits_t) (st : state) : state :=
  mkState h (mqtt_connected st) (mqtt_client_hdl st) (lifecycle st).

Definition with_mqtt_connected (b : bool) (st : state) : state :=
  mkState (s_mqtt_evtgrp_hdl st) b (mqtt_client_hdl st) (lifecycle st).

Definition with_mqtt_client_hdl (h : esp_mqtt_client_handle_t) (st : state) : state :=
  mkState (s_mqtt_evtgrp_hdl st) (mqtt_connected st) h (lifecycle st).

Definition with_call (c : call) (st : state) : state :=
  mkState (s_mqtt_evtgrp_hdl st) (mqtt_connected st) (mqtt_client_hdl st)
          (lifecycle st ++ [c]).

Definition set_s_mqtt_evtgrp_hdl (h : option EventBits_t) : ctl unit :=
  fun st => Next tt (with_s_mqtt_evtgrp_hdl h st).

Definition set_mqtt_connected (b : bool) : ctl unit :=
  fun st => Next tt (with_mqtt_connected b st).

Definition set_mqtt_client_hdl (h : esp_mqtt_client_handle_t) : ctl unit :=
  fun st => Next tt (with_mqtt_client_hdl h st).

(** A call to a collaborator, with the answer it gives on this run. *)
Definition issue {A} (c : call) (answer : A) : ctl A :=
  fun st => Next answer (with_call c st).

(** A pointer in a C condition: true when it is not NULL. *)
Definition non_null {A} (p : option A) : bool :=
  match p with Some _ => true | None => false end.

(** The macros of [esp_check.h]. *)
Definition ESP_RETURN_ON_ERROR (x : ctl esp_err_t) : ctl unit :=
  err_rc_ <- x ;; if err_rc_ =? ESP_OK then ret tt else leave err_rc_.

Definition ESP_RETURN_ON_FALSE (a : bool) (err_code : esp_err_t) : ctl unit :=
  if a then ret tt else leave err_code.

(** A C function's result: the value it returns, or that it never does. *)
Inductive result : Type :=
  | Returned (r : esp_err_t) (st : state)
  | Blocked (st : state)
  | Aborted.

Definition run (body : ctl esp_err_t) (st : state) : result :=
  match body st with
  | Next r st' => Returned r st'
  | Return r st' => Returned r st'
  | Block st' => Blocked st'
  | Abort => Aborted
  end.

(** ** FreeRTOS event groups

    [xEventGroupSetBits] and [xEventGroupClearBits] update the bits of the
    group; both assert that the handle is not NULL. *)

Definition xEventGroupSetBits (uxBitsToSet : EventBits_t) : ctl EventBits_t :=
  fun st =>
    match s_mqtt_evtgrp_hdl st with
    | None => Abort
    | Some uxEventBits =>
        let bits := Z.lor uxEventBits uxBitsToSet in
        Next bits (with_s_mqtt_evtgrp_hdl (Some bits) st)
    end.

Definition xEventGroupClearBits (uxBitsToClear : EventBits_t) : ctl EventBits_t :=
  fun st =>
    match s_mqtt_evtgrp_hdl st with
    | None => Abort
    | Some uxEventBits =>
        Next uxEventBits
          (with_s_mqtt_evtgrp_hdl (Some (Z.ldiff uxEventBits uxBitsToClear)) st)
    end.

(** [prvTestWaitCondition]: any of the bits, or all of them. *)
Definition prvTestWaitCondition (uxCurrentEventBits uxBitsToWaitFor : EventBits_t)
    (xWaitForAllBits : bool) : bool :=
  if xWaitForAllBits
  then Z.land uxCurrentEventBits uxBitsToWaitFor =? uxBitsToWaitFor
  else negb (Z.land uxCurrentEventBits uxBitsToWaitFor =? 0).

(** ** The event handler (lines 84-136)

    Logging apart, only three event ids act: on the event group. *)

Definition mqtt_event_handler (event_id : esp_mqtt_event_id_t) : ctl unit :=
  match event_id with
  | MQTT_EVENT_CONNECTED =>
      xEventGroupSetBits MQTT_EVTGRP_CONNECTED_BIT ;;
      xEventGroupClearBits MQTT_EVTGRP_DISCONNECTED_BIT ;;
      ret tt
  | MQTT_EVENT_DISCONNECTED =>
      xEventGroupSetBits MQTT_EVTGRP_DISCONNECTED_BIT ;;
      xEventGroupClearBits MQTT_EVTGRP_CONNECTED_BIT ;;
      ret tt
  | MQTT_EVENT_SUBSCRIBED => ret tt
  | MQTT_EVENT_UNSUBSCRIBED => ret tt
  | MQTT_EVENT_PUBLISHED => ret tt
  | MQTT_EVENT_DATA => ret tt
  | MQTT_EVENT_ERROR =>
      xEventGroupSetBits MQTT_EVTGRP_ERROR_BIT ;;
      ret tt
  | _ => ret tt
  end.

(** The MQTT task runs the handler once per event, one after the other. *)
Fixpoint dispatch (events : list esp_mqtt_event_id_t) : ctl unit :=
  match events with
  | [] => ret tt
  | event_id :: rest => mqtt_event_handler event_id ;; dispatch rest
  end.

(** What goes on in the system while a task is blocked: the MQTT task
    delivers an event to the handler, or a tick of the RTOS passes. *)
Inductive activity : Type :=
  | Deliver (event_id : esp_mqtt_event_id_t)
  | Tick.

(** [xEventGroupWaitBits] on [s_mqtt_evtgrp_hdl].  The call returns at once
    when the wait condition holds or the block time is zero; otherwise the
    caller is blocked until a handler run makes the condition hold, or the
    block time has elapsed.  With [portMAX_DELAY] the block time never
    elapses (INCLUDE_vTaskSuspend is 1 in ESP-IDF).  A waiter whose
    condition never holds and whose time never elapses stays blocked. *)
Fixpoint xEventGroupWaitBits (uxBitsToWaitFor : EventBits_t)
    (xClearOnExit xWaitForAllBits : bool) (xTicksToWait : TickType_t)
    (world : list activity) : ctl EventBits_t :=
  fun st =>
    match s_mqtt_evtgrp_hdl st with
    | None => Abort
    | Some uxCurrentEventBits =>
        if prvTestWaitCondition uxCurrentEventBits uxBitsToWaitFor xWaitForAllBits
        then
          (if xClearOnExit
           then (xEventGroupClearBits uxBitsToWaitFor ;; ret uxCurrentEventBits) st
           else Next uxCurrentEventBits st)
        else if xTicksToWait =? 0 then Next uxCurrentEventBits st
        else
          match world with
          | [] => Block st
          | Deliver event_id :: world' =>
              (mqtt_event_handler event_id ;;
               xEventGroupWaitBits uxBitsToWaitFor xClearOnExit xWaitForAllBits
                 xTicksToWait world') st
          | Tick :: world' =>
              xEventGroupWaitBits uxBitsToWaitFor xClearOnExit xWaitForAllBits
                (if xTicksToWait =? portMAX_DELAY then xTicksToWait else xTicksToWait - 1)
                world' st
          end
    end.

(** ** mqtt_start (lines 139-193) *)

(** Lines 140-163: create the event group and the client, register the
    handler, start the client.  The client configuration is a constant of
    the build; a new event group has no bit set. *)
Definition mqtt_start_setup (v : vendor) : ctl unit :=
  hdl <- issue xEventGroupCreate_call
           (if xEventGroupCreate_ok v then Some 0 else None) ;;
  set_s_mqtt_evtgrp_hdl hdl ;;
  ESP_RETURN_ON_FALSE (non_null hdl) ESP_ERR_INVALID_STATE ;;
  client <- issue esp_mqtt_client_init_call (esp_mqtt_client_init v) ;;
  set_mqtt_client_hdl client ;;
  ESP_RETURN_ON_FALSE (non_null client) ESP_ERR_INVALID_STATE ;;
  ESP_RETURN_ON_ERROR
    (issue esp_mqtt_client_register_event_call (esp_mqtt_client_register_event v)) ;;
  ESP_RETURN_ON_ERROR
    (issue esp_mqtt_client_start_call (esp_mqtt_client_start v)).

(** Lines 166-170: wait for any of the three bits, clearing none, with no
    bound on the block time. *)
Definition mqtt_start_wait_mask : EventBits_t :=
  Z.lor (Z.lor MQTT_EVTGRP_CONNECTED_BIT MQTT_EVTGRP_DISCONNECTED_BIT)
        MQTT_EVTGRP_ERROR_BIT.

Definition mqtt_start_wait (world : list activity) : ctl EventBits_t :=
  xEventGroupWaitBits mqtt_start_wait_mask false false portMAX_DELAY world.

(** Lines 174-192: the test of [mqtt_link_bits]; a C condition holds when
    its value is not zero. *)
Definition mqtt_start_link_bits (mqtt_link_bits : EventBits_t) : ctl esp_err_t :=
  if negb (Z.land mqtt_link_bits MQTT_EVTGRP_CONNECTED_BIT =? 0) then
    set_mqtt_connected true ;; ret ESP_OK
  else if negb (Z.land mqtt_link_bits MQTT_EVTGRP_DISCONNECTED_BIT =? 0) then
    set_mqtt_connected false ;; ret MQTT_ERROR_TYPE_CONNECTION_REFUSED
  else if negb (Z.land mqtt_link_bits MQTT_EVTGRP_ERROR_BIT =? 0) then
    set_mqtt_connected false ;; ret MQTT_ERROR_TYPE_NONE
  else
    set_mqtt_connected false ;; ret ESP_ERR_NOT_SUPPORTED.

(** The whole function.  [pre] are the events the MQTT task has handled
    between the start of the client and the caller's arrival at the wait;
    [world] is what happens while the caller is blocked in it. *)
Definition mqtt_start (v : vendor) (pre : list esp_mqtt_event_id_t)
    (world : list activity) : ctl esp_err_t :=
  mqtt_start_setup v ;;
  dispatch pre ;;
  mqtt_link_bits <- mqtt_start_wait world ;;
  mqtt_start_link_bits mqtt_link_bits.

(** ** mqtt_stop (lines 195-212) *)

Definition mqtt_stop (v : vendor) : ctl esp_err_t :=
  ESP_RETURN_ON_ERROR
    (issue esp_mqtt_client_disconnect_call (esp_mqtt_client_disconnect v)) ;;
  ESP_RETURN_ON_ERROR
    (issue esp_mqtt_client_stop_call (esp_mqtt_client_stop v)) ;;
  ESP_RETURN_ON_ERROR
    (issue esp_mqtt_client_unregister_event_call (esp_mqtt_client_unregister_event v)) ;;
  issue esp_mqtt_client_destroy_call tt ;;
  set_mqtt_client_hdl None ;;
  issue free_call tt ;;
  set_s_mqtt_evtgrp_hdl None ;;
  ret ESP_OK.

(** ** Sample runs

    A run in which every collaborator succeeds, one in which the client
    cannot be initialised, one in which the client refuses to stop; the
    calls of a complete setup; an event group just created; the state
    [mqtt_start] returns in after a Connected event. *)
Definition all_ok : vendor :=
  mkVendor true (Some 1%nat) ESP_OK ESP_OK ESP_OK ESP_OK ESP_OK.

Definition no_client : vendor :=
  mkVendor true None ESP_OK ESP_OK ESP_OK ESP_OK ESP_OK.

Definition stop_fails : vendor :=
  mkVendor true (Some 1%nat) ESP_OK ESP_OK ESP_OK ESP_FAIL ESP_OK.

Definition setup_calls : list call :=
  [xEventGroupCreate_call; esp_mqtt_client_init_call;
   esp_mqtt_client_register_event_call; esp_mqtt_client_start_call].

Definition fresh_group : state :=
  mkState (Some 0) false (Some 1%nat) [].

Definition started : state :=
  mkState (Some MQTT_EVTGRP_CONNECTED_BIT) true (Some 1%nat) setup_calls.

(** ** Vocabulary of the properties *)

(** What one handler run does to the bits of the event group. *)
Definition latch_after (event_id : esp_mqtt_event_id_t) (bits : EventBits_t) : EventBits_t :=
  match event_id with
  | MQTT_EVENT_CONNECTED =>
      Z.ldiff (Z.lor bits MQTT_EVTGRP_CONNECTED_BIT) MQTT_EVTGRP_DISCONNECTED_BIT
  | MQTT_EVENT_DISCONNECTED =>
      Z.ldiff (Z.lor bits MQTT_EVTGRP_DISCONNECTED_BIT) MQTT_EVTGRP_CONNECTED_BIT
  | MQTT_EVENT_ERROR => Z.lor bits MQTT_EVTGRP_ERROR_BIT
  | _ => bits
  end.

Definition latch_after_all (events : list esp_mqtt_event_id_t) (bits : EventBits_t)
    : EventBits_t :=
  fold_left (fun b event_id => latch_after event_id b) events bits.

(** The connect/disconnect-class events, and the last one of a sequence. *)
Definition is_link_event (event_id : esp_mqtt_event_id_t) : bool :=
  match event_id with
  | MQTT_EVENT_CONNECTED | MQTT_EVENT_DISCONNECTED => true
  | _ => false
  end.

Definition last_link_event (events : list esp_mqtt_event_id_t)
    : option esp_mqtt_event_id_t :=
  fold_left (fun seen event_id => if is_link_event event_id then Some event_id else seen)
            events None.

(** The events among the activity of the system. *)
Fixpoint delivered (world : list activity) : list esp_mqtt_event_id_t :=
  match world with
  | [] => []
  | Deliver event_id :: world' => event_id :: delivered world'
  | Tick :: world' => delivered world'
  end.

(** The outcome mapping in the words of the specification: the three
    outcome bits in their priority order, the first one that is set, and
    the connected state and return value that go with it. *)
Inductive outcome_bit : Type := Connected | Disconnected | Error.

Definition outcome_mask (o : outcome_bit) : EventBits_t :=
  match o with
  | Connected => MQTT_EVTGRP_CONNECTED_BIT
  | Disconnected => MQTT_EVTGRP_DISCONNECTED_BIT
  | Error => MQTT_EVTGRP_ERROR_BIT
  end.

Definition is_set (bits : EventBits_t) (o : outcome_bit) : bool :=
  negb (Z.land bits (outcome_mask o) =? 0).

Definition spec_priority_order : list outcome_bit := [Connected; Disconnected; Error].

Definition spec_first_satisfied (bits : EventBits_t) : option outcome_bit :=
  find (is_set bits) spec_priority_order.

Definition spec_connected_state (o : option outcome_bit) : bool :=
  match o with Some Connected => true | _ => false end.

Definition spec_return_value (o : option outcome_bit) : esp_err_t :=
  match o with
  | Some Connected => ESP_OK
  | Some Disconnected => MQTT_ERROR_TYPE_CONNECTION_REFUSED
  | Some Error => MQTT_ERROR_TYPE_NONE
  | None => ESP_ERR_NOT_SUPPORTED
  end.

(** The part of [mqtt_start] up to the return of its wait. *)
Definition mqtt_start_until_wait (v : vendor) (pre : list esp_mqtt_event_id_t)
    (world : list activity) : ctl EventBits_t :=
  mqtt_start_setup v ;; dispatch pre ;; mqtt_start_wait world.

(** The setup of [mqtt_start] goes through. *)
Definition setup_succeeds (v : vendor) : Prop :=
  xEventGroupCreate_ok v = true /\ esp_mqtt_client_init v <> None /\
  esp_mqtt_client_register_event v = ESP_OK /\ esp_mqtt_client_start v = ESP_OK.

(** The events that set an outcome bit, and the bits the wait of
    [mqtt_start] is released with when the event group holds [bits] and
    [world] follows: none when the condition of the wait never holds. *)
Definition is_outcome_event (event_id : esp_mqtt_event_id_t) : bool :=
  match event_id with
  | MQTT_EVENT_CONNECTED | MQTT_EVENT_DISCONNECTED | MQTT_EVENT_ERROR => true
  | _ => false
  end.

Fixpoint released_with (world : list activity) (bits : EventBits_t)
    : option EventBits_t :=
  if prvTestWaitCondition bits mqtt_start_wait_mask false then Some bits
  else match world with
       | [] => None
       | Deliver event_id :: world' => released_with world' (latch_after event_id bits)
       | Tick :: world' => released_with world' bits
       end.

(** The calls of a complete teardown, and the values an event group of
    [mqtt_start] can hold. *)
Definition teardown_calls : list call :=
  [esp_mqtt_client_disconnect_call; esp_mqtt_client_stop_call;
   esp_mqtt_client_unregister_event_call; esp_mqtt_client_destroy_call; free_call].

Definition latch_value (bits : EventBits_t) : Prop :=
  bits = 0 \/ bits = 1 \/ bits = 2 \/ bits = 4 \/ bits = 5 \/ bits = 6.

(** ** The two tasks, one FreeRTOS call at a time

    [mqtt_start] above lets the caller see every handler run as one step,
    and return at the instant of its release.  In the program the handler
    runs on the MQTT task, as two separate calls of FreeRTOS for a
    Connected or a Disconnected event (lines 94-95 and 100-101), and the
    caller of [mqtt_start] is scheduled between any two of them.  The
    definitions below take the run of [mqtt_start] after its setup one
    call of the handler and one move of the caller at a time. *)

Inductive rtos_call : Type :=
  | SetBits (uxBitsToSet : EventBits_t)
  | ClearBits (uxBitsToClear : EventBits_t).

(** The calls of the handler on the event group, in their order (lines
    94-95, 100-101 and 130). *)
Definition handler_calls (event_id : esp_mqtt_event_id_t) : list rtos_call :=
  match event_id with
  | MQTT_EVENT_CONNECTED =>
      [SetBits MQTT_EVTGRP_CONNECTED_BIT; ClearBits MQTT_EVTGRP_DISCONNECTED_BIT]
  | MQTT_EVENT_DISCONNECTED =>
      [SetBits MQTT_EVTGRP_DISCONNECTED_BIT; ClearBits MQTT_EVTGRP_CONNECTED_BIT]
  | MQTT_EVENT_ERROR => [SetBits MQTT_EVTGRP_ERROR_BIT]
  | _ => []
  end.

Definition perform (c : rtos_call) : ctl EventBits_t :=
  match c with
  | SetBits uxBitsToSet => xEventGroupSetBits uxBitsToSet
  | ClearBits uxBitsToClear => xEventGroupClearBits uxBitsToClear
  end.

Fixpoint perform_all (calls : list rtos_call) : ctl unit :=
  match calls with
  | [] => ret tt
  | c :: rest => perform c ;; perform_all rest
  end.

(** Where the caller of [mqtt_start] stands once the setup is done: it has
    not yet called [xEventGroupWaitBits]; it is on the list of the tasks
    waiting for the group; the wait has its return value, by finding the
    condition met at the call or by a release, and the test of the bits is
    still to run; [mqtt_start] has returned, with its value and the state
    at that moment. *)
Inductive caller : Type :=
  | Arriving
  | Waiting
  | Holding (mqtt_link_bits : EventBits_t)
  | Finished (r : esp_err_t) (st : state).

(** [releases] counts the times a call of [xEventGroupSetBits] has taken
    the caller off the list of waiting tasks. *)
Record system : Type := mkSystem {
  globals : state;
  position : caller;
  releases : nat
}.

Inductive action : Type :=
  | Handler (c : rtos_call)
  | Caller.

(** One move.  [xEventGroupSetBits] tests the condition of a waiting task
    against the bits it has just set, and hands them to the task it
    releases; [xEventGroupClearBits] releases nobody.  The caller, when it
    is scheduled, calls [xEventGroupWaitBits] (which returns at once or
    puts it on the list), does nothing while it waits, and runs the test
    of the bits once the wait has its value. *)
Definition advance (a : action) (sys : system) : option system :=
  match a with
  | Handler c =>
      match perform c (globals sys) with
      | Next bits st' =>
          match c, position sys with
          | SetBits _, Waiting =>
              if prvTestWaitCondition bits mqtt_start_wait_mask false
              then Some (mkSystem st' (Holding bits) (S (releases sys)))
              else Some (mkSystem st' Waiting (releases sys))
          | _, _ => Some (mkSystem st' (position sys) (releases sys))
          end
      | _ => None
      end
  | Caller =>
      match position sys with
      | Arriving =>
          match mqtt_start_wait [] (globals sys) with
          | Next bits st' => Some (mkSystem st' (Holding bits) (releases sys))
          | Block st' => Some (mkSystem st' Waiting (releases sys))
          | _ => None
          end
      | Waiting => Some sys
      | Holding mqtt_link_bits =>
          match mqtt_start_link_bits mqtt_link_bits (globals sys) with
          | Next r st' => Some (mkSystem st' (Finished r st') (releases sys))
          | _ => None
          end
      | Finished _ _ => Some sys
      end
  end.

Fixpoint exec (schedule : list action) (sys : system) : option system :=
  match schedule with
  | [] => Some sys
  | a :: rest =>
      match advance a sys with
      | Some sys' => exec rest sys'
      | None => None
      end
  end.

(** [mqtt_start] with the two tasks interleaved as [schedule] says. *)
Definition mqtt_start_tasks (v : vendor) (schedule : list action) (st : state)
    : option system :=
  match mqtt_start_setup v st with
  | Next _ st1 => exec schedule (mkSystem st1 Arriving 0)
  | Return r st1 => Some (mkSystem st1 (Finished r st1) 0)
  | _ => None
  end.

(** The calls of the handler in a schedule; a schedule delivers [events]
    when they are the calls of the handler runs on these events. *)
Fixpoint calls_of (schedule : list action) : list rtos_call :=
  match schedule with
  | [] => []
  | Handler c :: rest => c :: calls_of rest
  | Caller :: rest => calls_of rest
  end.

Definition delivers (schedule : list action) (events : list esp_mqtt_event_id_t)
    : Prop :=
  calls_of schedule = flat_map handler_calls events.

(** The schedule of [mqtt_start]: the handler runs of [pre] without
    interruption, the caller's call of the wait, then every handler run
    of [world] followed by the caller. *)
Definition uninterrupted (events : list esp_mqtt_event_id_t) : list action :=
  map Handler (flat_map handler_calls events).

Definition caller_after_each (world : list activity) : list action :=
  flat_map (fun a => match a with
                     | Deliver event_id => uninterrupted [event_id] ++ [Caller]
                     | Tick => [Caller]
                     end) world.

Definition atomic_schedule (pre : list esp_mqtt_event_id_t) (world : list activity)
    : list action :=
  uninterrupted pre ++ [Caller; Caller] ++ caller_after_each world.

(** What a call does to the bits, and the values of three bits. *)
Definition call_after (c : rtos_call) (bits : EventBits_t) : EventBits_t :=
  match c with
  | SetBits uxBitsToSet => Z.lor bits uxBitsToSet
  | ClearBits uxBitsToClear => Z.ldiff bits uxBitsToClear
  end.

Definition three_bits (bits : EventBits_t) : Prop :=
  bits = 0 \/ bits = 1 \/ bits = 2 \/ bits = 3 \/
  bits = 4 \/ bits = 5 \/ bits = 6 \/ bits = 7.

Definition is_set_call (c : rtos_call) : bool :=
  match c with SetBits _ => true | ClearBits _ => false end.

(** The calls the handler can make, the bits of the first
    [xEventGroupSetBits] among some calls, and the positions of a caller
    that is past its wait. *)
Definition handler_call (c : rtos_call) : Prop :=
  In c [SetBits MQTT_EVTGRP_CONNECTED_BIT; ClearBits MQTT_EVTGRP_DISCONNECTED_BIT;
        SetBits MQTT_EVTGRP_DISCONNECTED_BIT; ClearBits MQTT_EVTGRP_CONNECTED_BIT;
        SetBits MQTT_EVTGRP_ERROR_BIT].

Fixpoint first_set_call (calls : list rtos_call) : option EventBits_t :=
  match calls with
  | [] => None
  | SetBits uxBitsToSet :: _ => Some uxBitsToSet
  | ClearBits _ :: rest => first_set_call rest
  end.

Definition past_wait (p : caller) : Prop :=
  match p with
  | Holding _ | Finished _ _ => True
  | Arriving | Waiting => False
  end.

(** * Properties *)

(** ** Bits *)

Lemma land_pow2_eqb (a n : Z) :
  0 <= n -> (Z.land a (2 ^ n) =? 0) = negb (Z.testbit a n).
Proof.
  intros Hn.
  destruct (Z.testbit a n) eqn:Hbit; simpl.
  - apply Z.eqb_neq. intros H0.
    assert (Hb : Z.testbit (Z.land a (2 ^ n)) n = true).
    { rewrite Z.land_spec, Hbit, Z.pow2_bits_true by assumption. reflexivity. }
    rewrite H0, Z.bits_0 in Hb. discriminate.
  - apply Z.eqb_eq. apply Z.bits_inj'. intros m Hm.
    rewrite Z.land_spec, Z.bits_0, Z.pow2_bits_eqb by assumption.
    destruct (Z.eqb_spec n m) as [->|_].
    + rewrite Hbit. reflexivity.
    + apply andb_false_r.
Qed.

Lemma connected_bit_test (a : Z) :
  (Z.land a MQTT_EVTGRP_CONNECTED_BIT =? 0) = negb (Z.testbit a 0).
Proof. apply (land_pow2_eqb a 0). lia. Qed.

Lemma disconnected_bit_test (a : Z) :
  (Z.land a MQTT_EVTGRP_DISCONNECTED_BIT =? 0) = negb (Z.testbit a 1).
Proof. apply (land_pow2_eqb a 1). lia. Qed.

Lemma error_bit_test (a : Z) :
  (Z.land a MQTT_EVTGRP_ERROR_BIT =? 0) = negb (Z.testbit a 2).
Proof. apply (land_pow2_eqb a 2). lia. Qed.

Lemma lor_eqb_0 (x y : Z) : (Z.lor x y =? 0) = (x =? 0) && (y =? 0).
Proof.
  destruct (Z.eqb_spec x 0) as [->|Hx]; simpl.
  - reflexivity.
  - apply Z.eqb_neq. rewrite Z.lor_eq_0_iff. tauto.
Qed.

Lemma wait_mask_test (a : Z) :
  (Z.land a mqtt_start_wait_mask =? 0)
  = negb (Z.testbit a 0 || Z.testbit a 1 || Z.testbit a 2).
Proof.
  unfold mqtt_start_wait_mask.
  rewrite !Z.land_lor_distr_r, !lor_eqb_0.
  rewrite connected_bit_test, disconnected_bit_test, error_bit_test.
  rewrite !negb_orb. reflexivity.
Qed.

(** The bits of the three masks, as a rewrite base. *)
Lemma outcome_mask_bits :
  (Z.testbit MQTT_EVTGRP_CONNECTED_BIT 0 = true /\
   Z.testbit MQTT_EVTGRP_CONNECTED_BIT 1 = false /\
   Z.testbit MQTT_EVTGRP_CONNECTED_BIT 2 = false) /\
  (Z.testbit MQTT_EVTGRP_DISCONNECTED_BIT 0 = false /\
   Z.testbit MQTT_EVTGRP_DISCONNECTED_BIT 1 = true /\
   Z.testbit MQTT_EVTGRP_DISCONNECTED_BIT 2 = false) /\
  (Z.testbit MQTT_EVTGRP_ERROR_BIT 0 = false /\
   Z.testbit MQTT_EVTGRP_ERROR_BIT 1 = false /\
   Z.testbit MQTT_EVTGRP_ERROR_BIT 2 = true).
Proof. repeat split; reflexivity. Qed.

Ltac mask_bits :=
  destruct outcome_mask_bits as [[?Hc0 [?Hc1 ?Hc2]] [[?Hd0 [?Hd1 ?Hd2]] [?He0 [?He1 ?He2]]]];
  rewrite ?Z.ldiff_spec, ?Z.lor_spec, ?Hc0, ?Hc1, ?Hc2, ?Hd0, ?Hd1, ?Hd2, ?He0, ?He1, ?He2;
  cbn [negb andb orb];
  rewrite ?orb_true_r, ?andb_false_r, ?orb_false_r, ?andb_true_r.

(** Bits 0, 1 and 2 after a handler run. *)
Lemma latch_after_bit0 (e : esp_mqtt_event_id_t) (bits : Z) :
  Z.testbit (latch_after e bits) 0 =
  match e with
  | MQTT_EVENT_CONNECTED => true
  | MQTT_EVENT_DISCONNECTED => false
  | _ => Z.testbit bits 0
  end.
Proof. destruct e; cbn [latch_after]; try reflexivity; mask_bits; reflexivity. Qed.

Lemma latch_after_bit1 (e : esp_mqtt_event_id_t) (bits : Z) :
  Z.testbit (latch_after e bits) 1 =
  match e with
  | MQTT_EVENT_CONNECTED => false
  | MQTT_EVENT_DISCONNECTED => true
  | _ => Z.testbit bits 1
  end.
Proof. destruct e; cbn [latch_after]; try reflexivity; mask_bits; reflexivity. Qed.

Lemma latch_after_bit2 (e : esp_mqtt_event_id_t) (bits : Z) :
  Z.testbit (latch_after e bits) 2 =
  match e with
  | MQTT_EVENT_ERROR => true
  | _ => Z.testbit bits 2
  end.
Proof. destruct e; cbn [latch_after]; try reflexivity; mask_bits; reflexivity. Qed.

(** ** The handler and the dispatch of a sequence of events *)

Lemma with_s_mqtt_evtgrp_hdl_same (st : state) (bits : EventBits_t) :
  s_mqtt_evtgrp_hdl st = Some bits -> with_s_mqtt_evtgrp_hdl (Some bits) st = st.
Proof. destruct st; simpl; intros ->; reflexivity. Qed.

Lemma mqtt_event_handler_live (e : esp_mqtt_event_id_t) (st : state) (bits : EventBits_t) :
  s_mqtt_evtgrp_hdl st = Some bits ->
  mqtt_event_handler e st
  = Next tt (with_s_mqtt_evtgrp_hdl (Some (latch_after e bits)) st).
Proof.
  intros Hh.
  destruct e; cbn [mqtt_event_handler latch_after];
    try (unfold ret; rewrite with_s_mqtt_evtgrp_hdl_same by assumption; reflexivity);
    unfold bind, xEventGroupSetBits, xEventGroupClearBits, ret;
    rewrite Hh; reflexivity.
Qed.

Lemma dispatch_live (events : list esp_mqtt_event_id_t) :
  forall (st : state) (bits : EventBits_t),
    s_mqtt_evtgrp_hdl st = Some bits ->
    dispatch events st
    = Next tt (with_s_mqtt_evtgrp_hdl (Some (latch_after_all events bits)) st).
Proof.
  induction events as [|e events IH]; intros st bits Hh.
  - cbn [dispatch latch_after_all fold_left]. unfold ret.
    rewrite with_s_mqtt_evtgrp_hdl_same by assumption. reflexivity.
  - cbn [dispatch]. unfold bind.
    rewrite (mqtt_event_handler_live e st bits Hh).
    rewrite (IH _ (latch_after e bits)) by reflexivity.
    reflexivity.
Qed.

Lemma latch_after_all_app (l1 l2 : list esp_mqtt_event_id_t) (bits : EventBits_t) :
  latch_after_all (l1 ++ l2) bits = latch_after_all l2 (latch_after_all l1 bits).
Proof. unfold latch_after_all. apply fold_left_app. Qed.

Lemma last_link_event_snoc (l : list esp_mqtt_event_id_t) (e : esp_mqtt_event_id_t) :
  last_link_event (l ++ [e])
  = if is_link_event e then Some e else last_link_event l.
Proof. unfold last_link_event. rewrite fold_left_app. reflexivity. Qed.

(** The link bits follow the last connect/disconnect-class event. *)
Lemma latch_follows_last_link_event (events : list esp_mqtt_event_id_t) (bits : EventBits_t) :
  match last_link_event events with
  | Some MQTT_EVENT_CONNECTED =>
      Z.testbit (latch_after_all events bits) 0 = true /\
      Z.testbit (latch_after_all events bits) 1 = false
  | Some MQTT_EVENT_DISCONNECTED =>
      Z.testbit (latch_after_all events bits) 0 = false /\
      Z.testbit (latch_after_all events bits) 1 = true
  | _ =>
      Z.testbit (latch_after_all events bits) 0 = Z.testbit bits 0 /\
      Z.testbit (latch_after_all events bits) 1 = Z.testbit bits 1
  end.
Proof.
  induction events as [|e l IH] using rev_ind.
  - cbn. split; reflexivity.
  - rewrite last_link_event_snoc, latch_after_all_app.
    cbn [latch_after_all fold_left].
    fold (latch_after_all l bits) in *.
    rewrite latch_after_bit0, latch_after_bit1.
    destruct e; cbn [is_link_event]; try (split; reflexivity); exact IH.
Qed.

(** Once an outcome bit is set, some outcome bit stays set. *)
Lemma wait_condition_stable (e : esp_mqtt_event_id_t) (bits : EventBits_t) :
  prvTestWaitCondition bits mqtt_start_wait_mask false = true ->
  prvTestWaitCondition (latch_after e bits) mqtt_start_wait_mask false = true.
Proof.
  unfold prvTestWaitCondition.
  rewrite !wait_mask_test, !negb_involutive.
  rewrite latch_after_bit0, latch_after_bit1, latch_after_bit2.
  destruct e, (Z.testbit bits 0), (Z.testbit bits 1), (Z.testbit bits 2);
    simpl; congruence.
Qed.

Lemma latch_after_idempotent (e : esp_mqtt_event_id_t) (bits : EventBits_t) :
  latch_after e (latch_after e bits) = latch_after e bits.
Proof.
  destruct e; cbn [latch_after]; try reflexivity;
    apply Z.bits_inj'; intros n Hn;
    repeat (rewrite Z.ldiff_spec || rewrite Z.lor_spec);
    destruct (Z.testbit bits n),
             (Z.testbit MQTT_EVTGRP_CONNECTED_BIT n) eqn:Hc,
             (Z.testbit MQTT_EVTGRP_DISCONNECTED_BIT n) eqn:Hd,
             (Z.testbit MQTT_EVTGRP_ERROR_BIT n); reflexivity.
Qed.

(** ** The wait of mqtt_start *)

Lemma mqtt_start_wait_unfold (world : list activity) (st : state) :
  mqtt_start_wait world st =
  match s_mqtt_evtgrp_hdl st with
  | None => Abort
  | Some bits =>
      if prvTestWaitCondition bits mqtt_start_wait_mask false then Next bits st
      else match world with
           | [] => Block st
           | Deliver e :: world' => (mqtt_event_handler e ;; mqtt_start_wait world') st
           | Tick :: world' => mqtt_start_wait world' st
           end
  end.
Proof. destruct world as [|[e|] world']; reflexivity. Qed.

Lemma mqtt_start_wait_at_once (world : list activity) (st : state) (bits : EventBits_t) :
  s_mqtt_evtgrp_hdl st = Some bits ->
  prvTestWaitCondition bits mqtt_start_wait_mask false = true ->
  mqtt_start_wait world st = Next bits st.
Proof. intros Hh Hc. rewrite mqtt_start_wait_unfold, Hh, Hc. reflexivity. Qed.

(** The wait returns the bits of the group as a prefix of the delivered
    events left them, with the wait condition met, or it never returns. *)
Lemma mqtt_start_wait_cases (world : list activity) :
  forall (st : state) (bits : EventBits_t),
    s_mqtt_evtgrp_hdl st = Some bits ->
    (exists evs rest,
        delivered world = evs ++ rest /\
        prvTestWaitCondition (latch_after_all evs bits) mqtt_start_wait_mask false = true /\
        mqtt_start_wait world st
        = Next (latch_after_all evs bits)
               (with_s_mqtt_evtgrp_hdl (Some (latch_after_all evs bits)) st))
    \/ (prvTestWaitCondition (latch_after_all (delivered world) bits)
                             mqtt_start_wait_mask false = false /\
        mqtt_start_wait world st
        = Block (with_s_mqtt_evtgrp_hdl
                   (Some (latch_after_all (delivered world) bits)) st)).
Proof.
  induction world as [|a world IH]; intros st bits Hh;
    rewrite mqtt_start_wait_unfold, Hh;
    destruct (prvTestWaitCondition bits mqtt_start_wait_mask false) eqn:Hc.
  - left. exists [], []. rewrite with_s_mqtt_evtgrp_hdl_same by assumption. auto.
  - right. cbn. rewrite with_s_mqtt_evtgrp_hdl_same by assumption. auto.
  - left. exists [], (delivered (a :: world)).
    rewrite with_s_mqtt_evtgrp_hdl_same by assumption. auto.
  - destruct a as [e|].
    + unfold bind. rewrite (mqtt_event_handler_live e st bits Hh).
      destruct (IH (with_s_mqtt_evtgrp_hdl (Some (latch_after e bits)) st)
                   (latch_after e bits) eq_refl)
        as [(evs & rest & Hd & Hmet & Hw) | (Hnot & Hw)].
      * left. exists (e :: evs), rest. cbn [delivered]. rewrite Hd.
        split; [reflexivity|]. split; [exact Hmet|]. exact Hw.
      * right. split; [exact Hnot|]. exact Hw.
    + destruct (IH st bits Hh) as [(evs & rest & Hd & Hmet & Hw) | (Hnot & Hw)].
      * left. exists evs, rest. auto.
      * right. auto.
Qed.

(** ** The setup of mqtt_start *)

Lemma mqtt_start_setup_cases (v : vendor) (st : state) :
  match mqtt_start_setup v st with
  | Next _ st1 =>
      setup_succeeds v /\
      s_mqtt_evtgrp_hdl st1 = Some 0 /\
      mqtt_client_hdl st1 = esp_mqtt_client_init v /\
      mqtt_connected st1 = mqtt_connected st
  | Return r st1 =>
      ~ setup_succeeds v /\ r <> ESP_OK /\
      (r = ESP_ERR_INVALID_STATE \/ r = esp_mqtt_client_register_event v
       \/ r = esp_mqtt_client_start v) /\
      s_mqtt_evtgrp_hdl st1 = (if xEventGroupCreate_ok v then Some 0 else None) /\
      mqtt_client_hdl st1
      = (if xEventGroupCreate_ok v then esp_mqtt_client_init v else mqtt_client_hdl st) /\
      mqtt_connected st1 = mqtt_connected st
  | Block _ | Abort => False
  end.
Proof.
  destruct v as [create init reg start disc stop unreg].
  unfold mqtt_start_setup, setup_succeeds, bind, issue, set_s_mqtt_evtgrp_hdl,
    set_mqtt_client_hdl, ESP_RETURN_ON_FALSE, ESP_RETURN_ON_ERROR, bind, issue, ret, leave.
  cbn [xEventGroupCreate_ok esp_mqtt_client_init esp_mqtt_client_register_event
       esp_mqtt_client_start].
  destruct create; cbn [non_null].
  2: { cbn. intuition discriminate. }
  destruct init as [c|]; cbn [non_null].
  2: { cbn. intuition (discriminate || congruence). }
  destruct (Z.eqb_spec reg ESP_OK) as [Hr|Hr].
  2: { cbn. intuition (discriminate || congruence). }
  destruct (Z.eqb_spec start ESP_OK) as [Hs|Hs].
  2: { cbn. intuition (discriminate || congruence). }
  cbn. intuition (discriminate || congruence).
Qed.

Lemma mqtt_start_from_wait (v : vendor) (pre : list esp_mqtt_event_id_t)
    (world : list activity) (st0 st : state) (bits : EventBits_t) :
  mqtt_start_until_wait v pre world st0 = Next bits st ->
  mqtt_start v pre world st0 = mqtt_start_link_bits bits st.
Proof.
  unfold mqtt_start_until_wait, mqtt_start, bind.
  destruct (mqtt_start_setup v st0) as [[] st1| | |]; try discriminate.
  destruct (dispatch pre st1) as [[] st2| | |]; try discriminate.
  destruct (mqtt_start_wait world st2); try discriminate.
  intros H; inversion H; subst. reflexivity.
Qed.

(** When the setup goes through, the caller reaches the wait with the
    bits the events handled so far have left in the fresh event group. *)
Lemma mqtt_start_reaches_wait (v : vendor) (pre : list esp_mqtt_event_id_t)
    (world : list activity) (st0 : state) :
  setup_succeeds v ->
  exists st1,
    mqtt_start_setup v st0 = Next tt st1 /\
    s_mqtt_evtgrp_hdl st1 = Some 0 /\
    mqtt_client_hdl st1 = esp_mqtt_client_init v /\
    mqtt_connected st1 = mqtt_connected st0 /\
    mqtt_start_until_wait v pre world st0
    = mqtt_start_wait world
        (with_s_mqtt_evtgrp_hdl (Some (latch_after_all pre 0)) st1).
Proof.
  intros Hok.
  pose proof (mqtt_start_setup_cases v st0) as Hc.
  unfold mqtt_start_until_wait, bind.
  destruct (mqtt_start_setup v st0) as [[] st1|r st1|st1|].
  - destruct Hc as (_ & Hh & Hcl & Hf).
    exists st1. rewrite (dispatch_live pre st1 0 Hh). auto.
  - destruct Hc as (Hno & _). contradiction.
  - contradiction.
  - contradiction.
Qed.

(** ** The test of the link bits *)

Lemma mqtt_start_link_bits_eq (bits : EventBits_t) (st : state) :
  mqtt_start_link_bits bits st
  = Next (spec_return_value (spec_first_satisfied bits))
         (with_mqtt_connected (spec_connected_state (spec_first_satisfied bits)) st).
Proof.
  unfold mqtt_start_link_bits, spec_first_satisfied, spec_priority_order.
  cbn [find]. unfold is_set. cbn [outcome_mask].
  destruct (Z.land bits MQTT_EVTGRP_CONNECTED_BIT =? 0); cbn [negb]; [|reflexivity].
  destruct (Z.land bits MQTT_EVTGRP_DISCONNECTED_BIT =? 0); cbn [negb]; [|reflexivity].
  destruct (Z.land bits MQTT_EVTGRP_ERROR_BIT =? 0); reflexivity.
Qed.

(** C1: whatever bits the wait of [mqtt_start] returns, the outcome is
    the one of the first set bit in the order Connected, Disconnected,
    Error; with the Connected bit among them [mqtt_start] returns ESP_OK
    and sets [mqtt_connected], whatever the other bits are. *)
Theorem mqtt_start_priority_order (bits : EventBits_t) (st : state) :
  mqtt_start_link_bits bits st
  = Next (spec_return_value (spec_first_satisfied bits))
         (with_mqtt_connected (spec_connected_state (spec_first_satisfied bits)) st)
  /\ (Z.land bits MQTT_EVTGRP_CONNECTED_BIT <> 0 ->
      mqtt_start_link_bits bits st = Next ESP_OK (with_mqtt_connected true st))
  /\ (forall v pre world st0,
        mqtt_start_until_wait v pre world st0 = Next bits st ->
        run (mqtt_start v pre world) st0
        = Returned (spec_return_value (spec_first_satisfied bits))
            (with_mqtt_connected (spec_connected_state (spec_first_satisfied bits)) st)).
Proof.
  split; [apply mqtt_start_link_bits_eq|]. split.
  - intros Hc. unfold mqtt_start_link_bits.
    apply Z.eqb_neq in Hc. rewrite Hc. reflexivity.
  - intros v pre world st0 Hw. unfold run.
    rewrite (mqtt_start_from_wait _ _ _ _ _ _ Hw), mqtt_start_link_bits_eq.
    reflexivity.
Qed.

Lemma mqtt_start_priority_order_witness :
  (Z.land 7 MQTT_EVTGRP_CONNECTED_BIT <> 0 /\
   mqtt_start_link_bits 7 initial_state
   = Next ESP_OK (with_mqtt_connected true initial_state))
  /\ (mqtt_start_until_wait all_ok [MQTT_EVENT_ERROR; MQTT_EVENT_CONNECTED] [] initial_state
      = Next 5 (mkState (Some 5) false (Some 1%nat) setup_calls)
      /\ run (mqtt_start all_ok [MQTT_EVENT_ERROR; MQTT_EVENT_CONNECTED] []) initial_state
         = Returned ESP_OK (mkState (Some 5) true (Some 1%nat) setup_calls)).
Proof.
  split.
  - split; [discriminate|].
    apply (proj1 (proj2 (mqtt_start_priority_order 7 initial_state))). discriminate.
  - split; [reflexivity|].
    apply (proj2 (proj2 (mqtt_start_priority_order 5
             (mkState (Some 5) false (Some 1%nat) setup_calls)))
             all_ok [MQTT_EVENT_ERROR; MQTT_EVENT_CONNECTED] [] initial_state).
    reflexivity.
Defined.

(** C2: with only the Error bit delivered, [mqtt_start] clears
    [mqtt_connected] and returns MQTT_ERROR_TYPE_NONE, whose value is the
    one of ESP_OK: the caller receives the success code. *)
Theorem mqtt_start_error_only_returns_ESP_OK :
  run (mqtt_start all_ok [] [Deliver MQTT_EVENT_ERROR]) initial_state
  = Returned ESP_OK
      (mkState (Some MQTT_EVTGRP_ERROR_BIT) false (Some 1%nat) setup_calls)
  /\ (forall st : state,
        mqtt_start_link_bits MQTT_EVTGRP_ERROR_BIT st
        = Next MQTT_ERROR_TYPE_NONE (with_mqtt_connected false st))
  /\ MQTT_ERROR_TYPE_NONE = ESP_OK.
Proof. repeat split. Qed.

(** ** mqtt_start and mqtt_stop as a whole *)

Lemma mqtt_start_unfold (v : vendor) (pre : list esp_mqtt_event_id_t)
    (world : list activity) (st0 : state) :
  mqtt_start v pre world st0 =
  match mqtt_start_until_wait v pre world st0 with
  | Next bits st => mqtt_start_link_bits bits st
  | Return r st => Return r st
  | Block st => Block st
  | Abort => Abort
  end.
Proof.
  unfold mqtt_start_until_wait, mqtt_start, bind.
  destruct (mqtt_start_setup v st0) as [[] st1| | |]; try reflexivity;
    destruct (dispatch pre st1) as [[] st2| | |]; try reflexivity;
    destruct (mqtt_start_wait world st2); reflexivity.
Qed.

Lemma mqtt_start_until_wait_cases (v : vendor) (pre : list esp_mqtt_event_id_t)
    (world : list activity) (st0 : state) :
  match mqtt_start_until_wait v pre world st0 with
  | Next bits st =>
      setup_succeeds v /\
      s_mqtt_evtgrp_hdl st = Some bits /\
      prvTestWaitCondition bits mqtt_start_wait_mask false = true /\
      mqtt_client_hdl st = esp_mqtt_client_init v /\
      mqtt_connected st = mqtt_connected st0 /\
      exists evs rest,
        pre ++ delivered world = evs ++ rest /\ bits = latch_after_all evs 0
  | Return r st =>
      ~ setup_succeeds v /\ mqtt_start_setup v st0 = Return r st
  | Block st =>
      setup_succeeds v /\
      s_mqtt_evtgrp_hdl st = Some (latch_after_all (pre ++ delivered world) 0) /\
      prvTestWaitCondition (latch_after_all (pre ++ delivered world) 0)
        mqtt_start_wait_mask false = false /\
      mqtt_client_hdl st = esp_mqtt_client_init v /\
      mqtt_connected st = mqtt_connected st0
  | Abort => False
  end.
Proof.
  pose proof (mqtt_start_setup_cases v st0) as Hs.
  unfold mqtt_start_until_wait, bind.
  destruct (mqtt_start_setup v st0) as [[] st1|r st1|st1|]; try contradiction.
  - destruct Hs as (Hok & Hh & Hcl & Hf).
    rewrite (dispatch_live pre st1 0 Hh).
    destruct (mqtt_start_wait_cases world
                (with_s_mqtt_evtgrp_hdl (Some (latch_after_all pre 0)) st1)
                (latch_after_all pre 0) eq_refl)
      as [(evs & rest & Hd & Hmet & Hw) | (Hnot & Hw)]; rewrite Hw.
    + rewrite <- latch_after_all_app in Hmet |- *.
      split; [exact Hok|]. split; [reflexivity|]. split; [exact Hmet|].
      split; [exact Hcl|]. split; [exact Hf|].
      exists (pre ++ evs), rest. rewrite Hd, app_assoc. auto.
    + rewrite <- latch_after_all_app in Hnot |- *.
      split; [exact Hok|]. split; [reflexivity|]. split; [exact Hnot|].
      split; [exact Hcl|exact Hf].
  - destruct Hs as (Hno & _). auto.
Qed.

Lemma mqtt_stop_eq (v : vendor) (st : state) :
  run (mqtt_stop v) st =
  if esp_mqtt_client_disconnect v =? ESP_OK then
    if esp_mqtt_client_stop v =? ESP_OK then
      if esp_mqtt_client_unregister_event v =? ESP_OK then
        Returned ESP_OK
          (mkState None (mqtt_connected st) None
             (lifecycle st ++
                [esp_mqtt_client_disconnect_call; esp_mqtt_client_stop_call;
                 esp_mqtt_client_unregister_event_call;
                 esp_mqtt_client_destroy_call; free_call]))
      else
        Returned (esp_mqtt_client_unregister_event v)
          (mkState (s_mqtt_evtgrp_hdl st) (mqtt_connected st) (mqtt_client_hdl st)
             (lifecycle st ++
                [esp_mqtt_client_disconnect_call; esp_mqtt_client_stop_call;
                 esp_mqtt_client_unregister_event_call]))
    else
      Returned (esp_mqtt_client_stop v)
        (mkState (s_mqtt_evtgrp_hdl st) (mqtt_connected st) (mqtt_client_hdl st)
           (lifecycle st ++
              [esp_mqtt_client_disconnect_call; esp_mqtt_client_stop_call]))
  else
    Returned (esp_mqtt_client_disconnect v)
      (mkState (s_mqtt_evtgrp_hdl st) (mqtt_connected st) (mqtt_client_hdl st)
         (lifecycle st ++ [esp_mqtt_client_disconnect_call])).
Proof.
  unfold run, mqtt_stop, ESP_RETURN_ON_ERROR, bind, issue, ret, leave,
    set_mqtt_client_hdl, set_s_mqtt_evtgrp_hdl, with_call,
    with_mqtt_client_hdl, with_s_mqtt_evtgrp_hdl.
  destruct (esp_mqtt_client_disconnect v =? ESP_OK); [|reflexivity].
  destruct (esp_mqtt_client_stop v =? ESP_OK);
    [destruct (esp_mqtt_client_unregister_event v =? ESP_OK)|];
    cbn [s_mqtt_evtgrp_hdl mqtt_connected mqtt_client_hdl lifecycle];
    rewrite <- !app_assoc; reflexivity.
Qed.

Lemma mqtt_event_handler_flag (e : esp_mqtt_event_id_t) (st st' : state) :
  mqtt_event_handler e st = Next tt st' -> mqtt_connected st' = mqtt_connected st.
Proof.
  destruct (s_mqtt_evtgrp_hdl st) as [bits|] eqn:Hh.
  - rewrite (mqtt_event_handler_live e st bits Hh).
    intros H; inversion H; reflexivity.
  - destruct e; cbn [mqtt_event_handler];
      unfold bind, xEventGroupSetBits, xEventGroupClearBits, ret;
      rewrite ?Hh; intros H; inversion H; reflexivity.
Qed.

Lemma link_bits_flag (bits : EventBits_t) :
  spec_connected_state (spec_first_satisfied bits)
  = negb (Z.land bits MQTT_EVTGRP_CONNECTED_BIT =? 0).
Proof.
  unfold spec_first_satisfied, spec_priority_order. cbn [find].
  unfold is_set. cbn [outcome_mask].
  destruct (Z.land bits MQTT_EVTGRP_CONNECTED_BIT =? 0); cbn [negb]; [|reflexivity].
  destruct (negb (Z.land bits MQTT_EVTGRP_DISCONNECTED_BIT =? 0)); [reflexivity|].
  destruct (negb (Z.land bits MQTT_EVTGRP_ERROR_BIT =? 0)); reflexivity.
Qed.

(** C3, as the claim has it, fails: from the initial state [mqtt_start]
    itself turns [mqtt_connected] from false to true, and the Disconnected
    event handled after its return changes the bits of the event group
    and leaves [mqtt_connected] true. *)
Lemma disconnect_after_start_keeps_mqtt_connected :
  mqtt_connected initial_state = false /\
  run (mqtt_start all_ok [] [Deliver MQTT_EVENT_CONNECTED]) initial_state
  = Returned ESP_OK started /\
  mqtt_connected started = true /\
  mqtt_event_handler MQTT_EVENT_DISCONNECTED started
  = Next tt (with_s_mqtt_evtgrp_hdl (Some MQTT_EVTGRP_DISCONNECTED_BIT) started) /\
  mqtt_connected
    (with_s_mqtt_evtgrp_hdl (Some MQTT_EVTGRP_DISCONNECTED_BIT) started) <> false.
Proof. repeat split. discriminate. Qed.


(** ** Tests of single bits, as propositions *)

Lemma wait_condition_iff (bits : EventBits_t) :
  prvTestWaitCondition bits mqtt_start_wait_mask false = true
  <-> Z.land bits mqtt_start_wait_mask <> 0.
Proof.
  unfold prvTestWaitCondition. rewrite negb_true_iff. apply Z.eqb_neq.
Qed.

Lemma connected_bit_set_iff (bits : EventBits_t) :
  Z.land bits MQTT_EVTGRP_CONNECTED_BIT <> 0 <-> Z.testbit bits 0 = true.
Proof.
  rewrite <- Z.eqb_neq, connected_bit_test, negb_false_iff. reflexivity.
Qed.

Lemma disconnected_bit_set_iff (bits : EventBits_t) :
  Z.land bits MQTT_EVTGRP_DISCONNECTED_BIT <> 0 <-> Z.testbit bits 1 = true.
Proof.
  rewrite <- Z.eqb_neq, disconnected_bit_test, negb_false_iff. reflexivity.
Qed.

Lemma connected_bit_clear_iff (bits : EventBits_t) :
  Z.land bits MQTT_EVTGRP_CONNECTED_BIT = 0 <-> Z.testbit bits 0 = false.
Proof.
  rewrite <- Z.eqb_eq, connected_bit_test, negb_true_iff. reflexivity.
Qed.

Lemma disconnected_bit_clear_iff (bits : EventBits_t) :
  Z.land bits MQTT_EVTGRP_DISCONNECTED_BIT = 0 <-> Z.testbit bits 1 = false.
Proof.
  rewrite <- Z.eqb_eq, disconnected_bit_test, negb_true_iff. reflexivity.
Qed.

Lemma outcome_bits_iff (bits : EventBits_t) :
  Z.land bits mqtt_start_wait_mask <> 0
  <-> (Z.land bits MQTT_EVTGRP_CONNECTED_BIT <> 0 \/
       Z.land bits MQTT_EVTGRP_DISCONNECTED_BIT <> 0 \/
       Z.land bits MQTT_EVTGRP_ERROR_BIT <> 0).
Proof.
  rewrite <- !Z.eqb_neq.
  rewrite wait_mask_test, connected_bit_test, disconnected_bit_test, error_bit_test.
  destruct (Z.testbit bits 0), (Z.testbit bits 1), (Z.testbit bits 2);
    simpl; intuition congruence.
Qed.

Lemma mqtt_start_link_bits_connected (bits : EventBits_t) (st : state) :
  Z.land bits MQTT_EVTGRP_CONNECTED_BIT <> 0 ->
  mqtt_start_link_bits bits st = Next ESP_OK (with_mqtt_connected true st).
Proof.
  intros Hc. unfold mqtt_start_link_bits.
  apply Z.eqb_neq in Hc. rewrite Hc. reflexivity.
Qed.

(** C4: when the handler has run on a sequence of events before the caller
    of [mqtt_start] reaches the wait, and the last connect/disconnect-class
    event of the sequence is Connected, [mqtt_start] returns ESP_OK and
    [mqtt_connected] is true. *)
Theorem connected_last_gives_success (v : vendor) (pre : list esp_mqtt_event_id_t)
    (world : list activity) (st0 : state) :
  setup_succeeds v ->
  last_link_event pre = Some MQTT_EVENT_CONNECTED ->
  exists st',
    run (mqtt_start v pre world) st0 = Returned ESP_OK st' /\
    mqtt_connected st' = true.
Proof.
  intros Hok Hlast.
  destruct (mqtt_start_reaches_wait v pre world st0 Hok)
    as (st1 & _ & _ & _ & _ & Hw).
  pose proof (latch_follows_last_link_event pre 0) as Hbits.
  rewrite Hlast in Hbits. destruct Hbits as [Hb0 _].
  assert (Hc : Z.land (latch_after_all pre 0) MQTT_EVTGRP_CONNECTED_BIT <> 0)
    by (apply connected_bit_set_iff; exact Hb0).
  assert (Hmet : prvTestWaitCondition (latch_after_all pre 0)
                   mqtt_start_wait_mask false = true).
  { apply wait_condition_iff, outcome_bits_iff. left. exact Hc. }
  rewrite (mqtt_start_wait_at_once world
             (with_s_mqtt_evtgrp_hdl (Some (latch_after_all pre 0)) st1)
             (latch_after_all pre 0) eq_refl Hmet) in Hw.
  unfold run. rewrite mqtt_start_unfold, Hw.
  rewrite (mqtt_start_link_bits_connected _ _ Hc).
  eexists. split; reflexivity.
Qed.

Lemma connected_last_gives_success_witness :
  setup_succeeds all_ok /\
  last_link_event [MQTT_EVENT_DISCONNECTED; MQTT_EVENT_ERROR;
                   MQTT_EVENT_CONNECTED; MQTT_EVENT_DATA]
  = Some MQTT_EVENT_CONNECTED /\
  exists st',
    run (mqtt_start all_ok
           [MQTT_EVENT_DISCONNECTED; MQTT_EVENT_ERROR;
            MQTT_EVENT_CONNECTED; MQTT_EVENT_DATA]
           [Tick; Deliver MQTT_EVENT_DISCONNECTED]) initial_state
    = Returned ESP_OK st' /\
    mqtt_connected st' = true.
Proof.
  assert (Hok : setup_succeeds all_ok).
  { unfold setup_succeeds. repeat split. discriminate. }
  split; [exact Hok|]. split; [reflexivity|].
  apply (connected_last_gives_success all_ok
           [MQTT_EVENT_DISCONNECTED; MQTT_EVENT_ERROR;
            MQTT_EVENT_CONNECTED; MQTT_EVENT_DATA]
           [Tick; Deliver MQTT_EVENT_DISCONNECTED] initial_state Hok).
  reflexivity.
Defined.

(** C5: after any sequence of handler runs on a live event group, at most
    one of the Connected and Disconnected bits is set (given that at most
    one was before, as in a fresh group), and it is the one of the last
    connect/disconnect-class event: a Connected event sets the Connected
    bit and clears the Disconnected bit, a Disconnected event does the
    converse. *)
Theorem link_bits_follow_last_event (events : list esp_mqtt_event_id_t)
    (st : state) (bits0 : EventBits_t) :
  s_mqtt_evtgrp_hdl st = Some bits0 ->
  (mqtt_event_handler MQTT_EVENT_CONNECTED st
   = Next tt (with_s_mqtt_evtgrp_hdl
                (Some (Z.ldiff (Z.lor bits0 MQTT_EVTGRP_CONNECTED_BIT)
                               MQTT_EVTGRP_DISCONNECTED_BIT)) st)) /\
  (mqtt_event_handler MQTT_EVENT_DISCONNECTED st
   = Next tt (with_s_mqtt_evtgrp_hdl
                (Some (Z.ldiff (Z.lor bits0 MQTT_EVTGRP_DISCONNECTED_BIT)
                               MQTT_EVTGRP_CONNECTED_BIT)) st)) /\
  exists bits,
    dispatch events st = Next tt (with_s_mqtt_evtgrp_hdl (Some bits) st) /\
    ((Z.land bits0 MQTT_EVTGRP_CONNECTED_BIT = 0 \/
      Z.land bits0 MQTT_EVTGRP_DISCONNECTED_BIT = 0) ->
     (Z.land bits MQTT_EVTGRP_CONNECTED_BIT = 0 \/
      Z.land bits MQTT_EVTGRP_DISCONNECTED_BIT = 0)) /\
    (last_link_event events = Some MQTT_EVENT_CONNECTED ->
     Z.land bits MQTT_EVTGRP_CONNECTED_BIT <> 0 /\
     Z.land bits MQTT_EVTGRP_DISCONNECTED_BIT = 0) /\
    (last_link_event events = Some MQTT_EVENT_DISCONNECTED ->
     Z.land bits MQTT_EVTGRP_DISCONNECTED_BIT <> 0 /\
     Z.land bits MQTT_EVTGRP_CONNECTED_BIT = 0).
Proof.
  intros Hh.
  split; [apply (mqtt_event_handler_live MQTT_EVENT_CONNECTED st bits0 Hh)|].
  split; [apply (mqtt_event_handler_live MQTT_EVENT_DISCONNECTED st bits0 Hh)|].
  exists (latch_after_all events bits0).
  split; [apply dispatch_live; exact Hh|].
  pose proof (latch_follows_last_link_event events bits0) as Hbits.
  rewrite connected_bit_set_iff, disconnected_bit_set_iff,
    !connected_bit_clear_iff, !disconnected_bit_clear_iff.
  destruct (last_link_event events) as [[]|]; destruct Hbits as [H0 H1];
    rewrite H0, H1; repeat split; auto; try discriminate.
Qed.

Lemma link_bits_follow_last_event_witness :
  s_mqtt_evtgrp_hdl fresh_group = Some 0 /\
  (Z.land 0 MQTT_EVTGRP_CONNECTED_BIT = 0 \/
   Z.land 0 MQTT_EVTGRP_DISCONNECTED_BIT = 0) /\
  last_link_event [MQTT_EVENT_CONNECTED; MQTT_EVENT_ERROR; MQTT_EVENT_DISCONNECTED]
  = Some MQTT_EVENT_DISCONNECTED /\
  dispatch [MQTT_EVENT_CONNECTED; MQTT_EVENT_ERROR; MQTT_EVENT_DISCONNECTED] fresh_group
  = Next tt (with_s_mqtt_evtgrp_hdl (Some 6) fresh_group) /\
  exists bits,
    dispatch [MQTT_EVENT_CONNECTED; MQTT_EVENT_ERROR; MQTT_EVENT_DISCONNECTED]
      fresh_group
    = Next tt (with_s_mqtt_evtgrp_hdl (Some bits) fresh_group) /\
    Z.land bits MQTT_EVTGRP_DISCONNECTED_BIT <> 0 /\
    Z.land bits MQTT_EVTGRP_CONNECTED_BIT = 0.
Proof.
  split; [reflexivity|]. split; [left; reflexivity|]. split; [reflexivity|].
  split; [reflexivity|].
  destruct (link_bits_follow_last_event
              [MQTT_EVENT_CONNECTED; MQTT_EVENT_ERROR; MQTT_EVENT_DISCONNECTED]
              fresh_group 0 eq_refl)
    as (_ & _ & bits & Hd & _ & _ & Hlast).
  exists bits. split; [exact Hd|]. apply Hlast. reflexivity.
Defined.

(** C6, as the claim has it, fails: [mqtt_start] returns an error with the
    event group still referenced when the client cannot be initialised,
    and with both references set when the broker disconnects. *)
Lemma failed_start_keeps_references :
  (run (mqtt_start no_client [] []) initial_state
   = Returned ESP_ERR_INVALID_STATE
       (mkState (Some 0) false None
          [xEventGroupCreate_call; esp_mqtt_client_init_call]) /\
   ESP_ERR_INVALID_STATE <> ESP_OK /\
   s_mqtt_evtgrp_hdl
     (mkState (Some 0) false None
        [xEventGroupCreate_call; esp_mqtt_client_init_call]) <> None)
  /\ (run (mqtt_start all_ok [] [Deliver MQTT_EVENT_DISCONNECTED]) initial_state
      = Returned MQTT_ERROR_TYPE_CONNECTION_REFUSED
          (mkState (Some MQTT_EVTGRP_DISCONNECTED_BIT) false (Some 1%nat) setup_calls) /\
      MQTT_ERROR_TYPE_CONNECTION_REFUSED <> ESP_OK /\
      s_mqtt_evtgrp_hdl
        (mkState (Some MQTT_EVTGRP_DISCONNECTED_BIT) false (Some 1%nat) setup_calls)
      <> None /\
      mqtt_client_hdl
        (mkState (Some MQTT_EVTGRP_DISCONNECTED_BIT) false (Some 1%nat) setup_calls)
      <> None).
Proof. repeat split; discriminate. Qed.

(** C6, amended: the event group is referenced from its creation in
    [mqtt_start] on, whatever [mqtt_start] then returns, and the client
    from its initialisation on; both references are set after a return
    of ESP_OK.  [mqtt_stop] always returns; it clears both references when
    it returns ESP_OK and leaves both as they were when it returns an
    error. *)
Theorem references_lifecycle :
  (forall v pre world st r st',
      mqtt_client_hdl st = None ->
      run (mqtt_start v pre world) st = Returned r st' ->
      (s_mqtt_evtgrp_hdl st' <> None <-> xEventGroupCreate_ok v = true) /\
      (mqtt_client_hdl st' <> None
       <-> xEventGroupCreate_ok v = true /\ esp_mqtt_client_init v <> None) /\
      (r = ESP_OK -> s_mqtt_evtgrp_hdl st' <> None /\ mqtt_client_hdl st' <> None))
  /\ (forall v st,
        exists r st',
          run (mqtt_stop v) st = Returned r st' /\
          (r = ESP_OK -> s_mqtt_evtgrp_hdl st' = None /\ mqtt_client_hdl st' = None) /\
          (r <> ESP_OK ->
           s_mqtt_evtgrp_hdl st' = s_mqtt_evtgrp_hdl st /\
           mqtt_client_hdl st' = mqtt_client_hdl st)).
Proof.
  split.
  - intros v pre world st r st' Hnull. unfold run. rewrite mqtt_start_unfold.
    pose proof (mqtt_start_until_wait_cases v pre world st) as Hc.
    destruct (mqtt_start_until_wait v pre world st) as [bits st1|r1 st1|st1|];
      try discriminate.
    + destruct Hc as ((Hcr & Hin & _ & _) & Hh & _ & Hcl & _).
      rewrite mqtt_start_link_bits_eq. intros H; inversion H; subst.
      cbn [with_mqtt_connected s_mqtt_evtgrp_hdl mqtt_client_hdl].
      rewrite Hh, Hcl. repeat split; auto; discriminate.
    + destruct Hc as (Hno & Hs).
      pose proof (mqtt_start_setup_cases v st) as Hsc. rewrite Hs in Hsc.
      destruct Hsc as (_ & Hr & _ & Hh & Hcl & _).
      intros H; inversion H; subst. rewrite Hh, Hcl, Hnull.
      destruct (xEventGroupCreate_ok v); repeat split; intros;
        try discriminate; try contradiction; try tauto;
        match goal with H : false = true /\ _ |- _ => destruct H; discriminate end.
  - intros v st. rewrite mqtt_stop_eq.
    destruct (Z.eqb_spec (esp_mqtt_client_disconnect v) ESP_OK) as [Hd|Hd];
      [destruct (Z.eqb_spec (esp_mqtt_client_stop v) ESP_OK) as [Hs|Hs];
       [destruct (Z.eqb_spec (esp_mqtt_client_unregister_event v) ESP_OK) as [Hu|Hu]|]|];
      eexists; eexists; (split; [reflexivity|]); split; intros; auto; contradiction.
Qed.

Lemma references_lifecycle_witness :
  mqtt_client_hdl initial_state = None /\
  run (mqtt_start no_client [] []) initial_state
  = Returned ESP_ERR_INVALID_STATE
      (mkState (Some 0) false None
         [xEventGroupCreate_call; esp_mqtt_client_init_call]) /\
  (s_mqtt_evtgrp_hdl
     (mkState (Some 0) false None
        [xEventGroupCreate_call; esp_mqtt_client_init_call]) <> None
   <-> xEventGroupCreate_ok no_client = true) /\
  (mqtt_client_hdl
     (mkState (Some 0) false None
        [xEventGroupCreate_call; esp_mqtt_client_init_call]) <> None
   <-> xEventGroupCreate_ok no_client = true /\ esp_mqtt_client_init no_client <> None).
Proof.
  split; [reflexivity|]. split; [reflexivity|].
  destruct (proj1 references_lifecycle no_client [] []
              initial_state ESP_ERR_INVALID_STATE
              (mkState (Some 0) false None
                 [xEventGroupCreate_call; esp_mqtt_client_init_call])
              eq_refl eq_refl) as (H1 & H2 & _).
  split; [exact H1|exact H2].
Defined.

(** ** Duplicate events *)

Lemma mqtt_event_handler_twice (e : esp_mqtt_event_id_t) (st st1 : state) :
  mqtt_event_handler e st = Next tt st1 -> mqtt_event_handler e st1 = Next tt st1.
Proof.
  destruct (s_mqtt_evtgrp_hdl st) as [bits|] eqn:Hh.
  - rewrite (mqtt_event_handler_live e st bits Hh).
    intros H; inversion H; subst.
    rewrite (mqtt_event_handler_live e
               (with_s_mqtt_evtgrp_hdl (Some (latch_after e bits)) st)
               (latch_after e bits) eq_refl).
    unfold with_s_mqtt_evtgrp_hdl; cbn [mqtt_connected mqtt_client_hdl lifecycle].
    rewrite latch_after_idempotent. reflexivity.
  - destruct e; cbn [mqtt_event_handler];
      unfold bind, xEventGroupSetBits, xEventGroupClearBits, ret;
      rewrite ?Hh; intros H; inversion H; subst; reflexivity.
Qed.



(** C8: [mqtt_stop] calls disconnect, stop, unregister, destroy and free
    in this order; the first of disconnect, stop and unregister that
    fails ends the function with its error code, nothing further being
    called and both references left as they were; when the three succeed,
    both references are NULL and ESP_OK is returned. *)
Theorem mqtt_stop_teardown_order (v : vendor) (st : state) :
  (esp_mqtt_client_disconnect v <> ESP_OK ->
   run (mqtt_stop v) st
   = Returned (esp_mqtt_client_disconnect v)
       (mkState (s_mqtt_evtgrp_hdl st) (mqtt_connected st) (mqtt_client_hdl st)
          (lifecycle st ++ [esp_mqtt_client_disconnect_call])))
  /\ (esp_mqtt_client_disconnect v = ESP_OK ->
      esp_mqtt_client_stop v <> ESP_OK ->
      run (mqtt_stop v) st
      = Returned (esp_mqtt_client_stop v)
          (mkState (s_mqtt_evtgrp_hdl st) (mqtt_connected st) (mqtt_client_hdl st)
             (lifecycle st ++
                [esp_mqtt_client_disconnect_call; esp_mqtt_client_stop_call])))
  /\ (esp_mqtt_client_disconnect v = ESP_OK ->
      esp_mqtt_client_stop v = ESP_OK ->
      esp_mqtt_client_unregister_event v <> ESP_OK ->
      run (mqtt_stop v) st
      = Returned (esp_mqtt_client_unregister_event v)
          (mkState (s_mqtt_evtgrp_hdl st) (mqtt_connected st) (mqtt_client_hdl st)
             (lifecycle st ++
                [esp_mqtt_client_disconnect_call; esp_mqtt_client_stop_call;
                 esp_mqtt_client_unregister_event_call])))
  /\ (esp_mqtt_client_disconnect v = ESP_OK ->
      esp_mqtt_client_stop v = ESP_OK ->
      esp_mqtt_client_unregister_event v = ESP_OK ->
      run (mqtt_stop v) st
      = Returned ESP_OK
          (mkState None (mqtt_connected st) None
             (lifecycle st ++
                [esp_mqtt_client_disconnect_call; esp_mqtt_client_stop_call;
                 esp_mqtt_client_unregister_event_call;
                 esp_mqtt_client_destroy_call; free_call]))).
Proof.
  rewrite mqtt_stop_eq.
  repeat split; intros;
    repeat match goal with
           | H : _ = ESP_OK |- _ => apply Z.eqb_eq in H; rewrite H; clear H
           | H : _ <> ESP_OK |- _ => apply Z.eqb_neq in H; rewrite H; clear H
           end;
    reflexivity.
Qed.

Lemma mqtt_stop_teardown_order_witness :
  (esp_mqtt_client_disconnect all_ok = ESP_OK /\
   esp_mqtt_client_stop all_ok = ESP_OK /\
   esp_mqtt_client_unregister_event all_ok = ESP_OK /\
   run (mqtt_stop all_ok) started
   = Returned ESP_OK
       (mkState None true None
          (setup_calls ++
           [esp_mqtt_client_disconnect_call; esp_mqtt_client_stop_call;
            esp_mqtt_client_unregister_event_call;
            esp_mqtt_client_destroy_call; free_call])))
  /\ (esp_mqtt_client_disconnect stop_fails = ESP_OK /\
      esp_mqtt_client_stop stop_fails <> ESP_OK /\
      run (mqtt_stop stop_fails) started
      = Returned ESP_FAIL
          (mkState (Some MQTT_EVTGRP_CONNECTED_BIT) true (Some 1%nat)
             (setup_calls ++
              [esp_mqtt_client_disconnect_call; esp_mqtt_client_stop_call]))).
Proof.
  split.
  - split; [reflexivity|]. split; [reflexivity|]. split; [reflexivity|].
    apply (proj2 (proj2 (proj2 (mqtt_stop_teardown_order all_ok started))));
      reflexivity.
  - split; [reflexivity|]. split; [discriminate|].
    apply (proj1 (proj2 (mqtt_stop_teardown_order stop_fails started)));
      [reflexivity|discriminate].
Defined.

(** ** What the wait returns *)

Lemma mqtt_start_wait_returns (world : list activity) (st st' : state)
    (bits : EventBits_t) :
  mqtt_start_wait world st = Next bits st' ->
  s_mqtt_evtgrp_hdl st' = Some bits /\
  prvTestWaitCondition bits mqtt_start_wait_mask false = true /\
  exists evs rest,
    delivered world = evs ++ rest /\ dispatch evs st = Next tt st'.
Proof.
  destruct (s_mqtt_evtgrp_hdl st) as [bits0|] eqn:Hh.
  - destruct (mqtt_start_wait_cases world st bits0 Hh)
      as [(evs & rest & Hd & Hmet & Hw) | (_ & Hw)]; rewrite Hw; [|discriminate].
    intros H; inversion H; subst.
    split; [reflexivity|]. split; [exact Hmet|].
    exists evs, rest. split; [exact Hd|]. apply dispatch_live. exact Hh.
  - rewrite mqtt_start_wait_unfold, Hh. discriminate.
Qed.

(** C9: with its unbounded block time the wait of [mqtt_start] returns
    only bits among which one of the three outcome bits is set, so the test
    of the bits never reaches its last branch: the result is never the one
    of the fall-through, and a return of ESP_ERR_NOT_SUPPORTED can only be
    the code of a failed registration or client start. *)
Theorem fall_through_unreachable :
  (forall world st bits st',
      mqtt_start_wait world st = Next bits st' ->
      Z.land bits MQTT_EVTGRP_CONNECTED_BIT <> 0 \/
      Z.land bits MQTT_EVTGRP_DISCONNECTED_BIT <> 0 \/
      Z.land bits MQTT_EVTGRP_ERROR_BIT <> 0)
  /\ (forall v pre world st bits st',
        mqtt_start_until_wait v pre world st = Next bits st' ->
        mqtt_start v pre world st
        <> (set_mqtt_connected false ;; ret ESP_ERR_NOT_SUPPORTED) st')
  /\ (forall v pre world st r st',
        run (mqtt_start v pre world) st = Returned r st' ->
        r = ESP_ERR_NOT_SUPPORTED ->
        esp_mqtt_client_register_event v = ESP_ERR_NOT_SUPPORTED \/
        esp_mqtt_client_start v = ESP_ERR_NOT_SUPPORTED).
Proof.
  split; [|split].
  - intros world st bits st' Hw.
    apply mqtt_start_wait_returns in Hw. destruct Hw as (_ & Hmet & _).
    apply outcome_bits_iff, wait_condition_iff, Hmet.
  - intros v pre world st bits st' Hw.
    rewrite (mqtt_start_from_wait _ _ _ _ _ _ Hw), mqtt_start_link_bits_eq.
    pose proof (mqtt_start_until_wait_cases v pre world st) as Hc.
    rewrite Hw in Hc. destruct Hc as (_ & _ & Hmet & _).
    apply wait_condition_iff in Hmet.
    unfold spec_first_satisfied, spec_priority_order. cbn [find].
    unfold is_set. cbn [outcome_mask].
    apply outcome_bits_iff in Hmet. rewrite <- !Z.eqb_neq in Hmet.
    destruct (Z.land bits MQTT_EVTGRP_CONNECTED_BIT =? 0);
      destruct (Z.land bits MQTT_EVTGRP_DISCONNECTED_BIT =? 0);
      destruct (Z.land bits MQTT_EVTGRP_ERROR_BIT =? 0);
      cbn; try discriminate.
    destruct Hmet as [H|[H|H]]; discriminate.
  - intros v pre world st r st'. unfold run. rewrite mqtt_start_unfold.
    pose proof (mqtt_start_until_wait_cases v pre world st) as Hc.
    destruct (mqtt_start_until_wait v pre world st) as [bits st1|r1 st1|st1|];
      try discriminate.
    + rewrite mqtt_start_link_bits_eq.
      destruct Hc as (_ & _ & Hmet & _).
      apply wait_condition_iff, outcome_bits_iff in Hmet.
      rewrite <- !Z.eqb_neq in Hmet.
      unfold spec_first_satisfied, spec_priority_order. cbn [find].
      unfold is_set. cbn [outcome_mask].
      destruct (Z.land bits MQTT_EVTGRP_CONNECTED_BIT =? 0);
        destruct (Z.land bits MQTT_EVTGRP_DISCONNECTED_BIT =? 0);
        destruct (Z.land bits MQTT_EVTGRP_ERROR_BIT =? 0);
        cbn; intros H; inversion H; subst; try discriminate.
      destruct Hmet as [H0|[H0|H0]]; discriminate.
    + destruct Hc as (_ & Hs).
      pose proof (mqtt_start_setup_cases v st) as Hsc. rewrite Hs in Hsc.
      destruct Hsc as (_ & _ & [Hr|[Hr|Hr]] & _);
        intros H; inversion H; subst; intros Hns.
      * discriminate.
      * left. exact Hns.
      * right. exact Hns.
Qed.

Lemma fall_through_unreachable_witness :
  mqtt_start_wait [Tick; Deliver MQTT_EVENT_DATA; Deliver MQTT_EVENT_ERROR; Tick]
    fresh_group
  = Next MQTT_EVTGRP_ERROR_BIT
      (with_s_mqtt_evtgrp_hdl (Some MQTT_EVTGRP_ERROR_BIT) fresh_group) /\
  (Z.land MQTT_EVTGRP_ERROR_BIT MQTT_EVTGRP_CONNECTED_BIT <> 0 \/
   Z.land MQTT_EVTGRP_ERROR_BIT MQTT_EVTGRP_DISCONNECTED_BIT <> 0 \/
   Z.land MQTT_EVTGRP_ERROR_BIT MQTT_EVTGRP_ERROR_BIT <> 0) /\
  (mqtt_start_until_wait all_ok [] [Deliver MQTT_EVENT_ERROR] initial_state
   = Next MQTT_EVTGRP_ERROR_BIT
       (mkState (Some MQTT_EVTGRP_ERROR_BIT) false (Some 1%nat) setup_calls) /\
   mqtt_start all_ok [] [Deliver MQTT_EVENT_ERROR] initial_state
   <> (set_mqtt_connected false ;; ret ESP_ERR_NOT_SUPPORTED)
        (mkState (Some MQTT_EVTGRP_ERROR_BIT) false (Some 1%nat) setup_calls)) /\
  (run (mqtt_start (mkVendor true (Some 1%nat) ESP_ERR_NOT_SUPPORTED ESP_OK
                      ESP_OK ESP_OK ESP_OK) [] []) initial_state
   = Returned ESP_ERR_NOT_SUPPORTED
       (mkState (Some 0) false (Some 1%nat)
          [xEventGroupCreate_call; esp_mqtt_client_init_call;
           esp_mqtt_client_register_event_call]) /\
   (esp_mqtt_client_register_event
      (mkVendor true (Some 1%nat) ESP_ERR_NOT_SUPPORTED ESP_OK ESP_OK ESP_OK ESP_OK)
    = ESP_ERR_NOT_SUPPORTED \/
    esp_mqtt_client_start
      (mkVendor true (Some 1%nat) ESP_ERR_NOT_SUPPORTED ESP_OK ESP_OK ESP_OK ESP_OK)
    = ESP_ERR_NOT_SUPPORTED)).
Proof.
  destruct fall_through_unreachable as (Hbits & Hbranch & Hcode).
  split; [reflexivity|]. split.
  - apply (Hbits [Tick; Deliver MQTT_EVENT_DATA; Deliver MQTT_EVENT_ERROR; Tick]
             fresh_group MQTT_EVTGRP_ERROR_BIT
             (with_s_mqtt_evtgrp_hdl (Some MQTT_EVTGRP_ERROR_BIT) fresh_group)).
    reflexivity.
  - split.
    + split; [reflexivity|].
      apply (Hbranch all_ok [] [Deliver MQTT_EVENT_ERROR] initial_state
               MQTT_EVTGRP_ERROR_BIT).
      reflexivity.
    + split; [reflexivity|].
      apply (Hcode (mkVendor true (Some 1%nat) ESP_ERR_NOT_SUPPORTED ESP_OK
                      ESP_OK ESP_OK ESP_OK) [] [] initial_state
               ESP_ERR_NOT_SUPPORTED
               (mkState (Some 0) false (Some 1%nat)
                  [xEventGroupCreate_call; esp_mqtt_client_init_call;
                   esp_mqtt_client_register_event_call]));
        reflexivity.
Defined.



(** ** The other settings of the wait

    For comparison: with a bounded block time the wait returns without any
    outcome bit once the time has elapsed, and the test of the bits then
    takes its last branch; with clear-on-exit the returned bits are gone
    from the group; with wait-for-all one bit does not release. *)

Example bounded_wait_times_out :
  xEventGroupWaitBits mqtt_start_wait_mask false false 2
    [Tick; Tick; Deliver MQTT_EVENT_CONNECTED] fresh_group = Next 0 fresh_group /\
  mqtt_start_link_bits 0 fresh_group = Next ESP_ERR_NOT_SUPPORTED fresh_group /\
  mqtt_start_wait [Tick; Tick; Deliver MQTT_EVENT_CONNECTED] fresh_group
  = Next MQTT_EVTGRP_CONNECTED_BIT
      (with_s_mqtt_evtgrp_hdl (Some MQTT_EVTGRP_CONNECTED_BIT) fresh_group).
Proof. repeat split. Qed.

Example clear_on_exit_clears :
  xEventGroupWaitBits mqtt_start_wait_mask true false portMAX_DELAY
    [Deliver MQTT_EVENT_ERROR] fresh_group
  = Next MQTT_EVTGRP_ERROR_BIT fresh_group.
Proof. reflexivity. Qed.

Example wait_for_all_blocks :
  xEventGroupWaitBits mqtt_start_wait_mask false true portMAX_DELAY
    [Deliver MQTT_EVENT_ERROR] fresh_group
  = Block (with_s_mqtt_evtgrp_hdl (Some MQTT_EVTGRP_ERROR_BIT) fresh_group).
Proof. reflexivity. Qed.

(** A waiter is released by the call of [xEventGroupSetBits] that makes its
    condition hold, before the handler goes on to clear the complementary
    bit; the bits at that moment are the ones the handler leaves. *)
Lemma release_value_is_final (bits : EventBits_t) :
  Z.land bits mqtt_start_wait_mask = 0 ->
  latch_after MQTT_EVENT_CONNECTED bits = Z.lor bits MQTT_EVTGRP_CONNECTED_BIT /\
  latch_after MQTT_EVENT_DISCONNECTED bits = Z.lor bits MQTT_EVTGRP_DISCONNECTED_BIT.
Proof.
  intros Hnone. apply Z.eqb_eq in Hnone.
  rewrite wait_mask_test, negb_true_iff in Hnone.
  apply orb_false_elim in Hnone. destruct Hnone as [H01 _].
  apply orb_false_elim in H01. destruct H01 as [H0 H1].
  apply disconnected_bit_clear_iff in H1. apply connected_bit_clear_iff in H0.
  cbn [latch_after]. split.
  - rewrite Z.ldiff_land, Z.land_lor_distr_l.
    rewrite <- !Z.ldiff_land.
    replace (Z.ldiff MQTT_EVTGRP_CONNECTED_BIT MQTT_EVTGRP_DISCONNECTED_BIT)
      with MQTT_EVTGRP_CONNECTED_BIT by reflexivity.
    f_equal. apply Z.bits_inj'. intros n Hn.
    rewrite Z.ldiff_spec.
    assert (Hz : Z.testbit (Z.land bits MQTT_EVTGRP_DISCONNECTED_BIT) n = false)
      by (rewrite H1; apply Z.bits_0).
    rewrite Z.land_spec in Hz.
    destruct (Z.testbit bits n), (Z.testbit MQTT_EVTGRP_DISCONNECTED_BIT n);
      simpl in *; congruence.
  - rewrite Z.ldiff_land, Z.land_lor_distr_l.
    rewrite <- !Z.ldiff_land.
    replace (Z.ldiff MQTT_EVTGRP_DISCONNECTED_BIT MQTT_EVTGRP_CONNECTED_BIT)
      with MQTT_EVTGRP_DISCONNECTED_BIT by reflexivity.
    f_equal. apply Z.bits_inj'. intros n Hn.
    rewrite Z.ldiff_spec.
    assert (Hz : Z.testbit (Z.land bits MQTT_EVTGRP_CONNECTED_BIT) n = false)
      by (rewrite H0; apply Z.bits_0).
    rewrite Z.land_spec in Hz.
    destruct (Z.testbit bits n), (Z.testbit MQTT_EVTGRP_CONNECTED_BIT n);
      simpl in *; congruence.
Qed.

(** * Further properties of the three functions *)

(** ** Closed forms *)

Lemma wait_condition_after (e : esp_mqtt_event_id_t) (bits : EventBits_t) :
  prvTestWaitCondition (latch_after e bits) mqtt_start_wait_mask false
  = prvTestWaitCondition bits mqtt_start_wait_mask false || is_outcome_event e.
Proof.
  unfold prvTestWaitCondition.
  rewrite !wait_mask_test, !negb_involutive.
  rewrite latch_after_bit0, latch_after_bit1, latch_after_bit2.
  destruct e, (Z.testbit bits 0), (Z.testbit bits 1), (Z.testbit bits 2);
    reflexivity.
Qed.

Lemma wait_condition_after_all (events : list esp_mqtt_event_id_t) :
  forall bits : EventBits_t,
    prvTestWaitCondition (latch_after_all events bits) mqtt_start_wait_mask false
    = prvTestWaitCondition bits mqtt_start_wait_mask false
      || existsb is_outcome_event events.
Proof.
  induction events as [|e events IH]; intros bits.
  - cbn. rewrite orb_false_r. reflexivity.
  - cbn [latch_after_all fold_left existsb].
    fold (latch_after_all events (latch_after e bits)).
    rewrite IH, wait_condition_after, orb_assoc. reflexivity.
Qed.

Lemma latch_after_no_outcome (e : esp_mqtt_event_id_t) (bits : EventBits_t) :
  is_outcome_event e = false -> latch_after e bits = bits.
Proof. destruct e; cbn; intros H; try discriminate; reflexivity. Qed.

Lemma mqtt_start_wait_released (world : list activity) :
  forall (st : state) (bits : EventBits_t),
    s_mqtt_evtgrp_hdl st = Some bits ->
    mqtt_start_wait world st =
    match released_with world bits with
    | Some b => Next b (with_s_mqtt_evtgrp_hdl (Some b) st)
    | None =>
        Block (with_s_mqtt_evtgrp_hdl
                 (Some (latch_after_all (delivered world) bits)) st)
    end.
Proof.
  induction world as [|a world IH]; intros st bits Hh;
    rewrite mqtt_start_wait_unfold, Hh; cbn [released_with];
    destruct (prvTestWaitCondition bits mqtt_start_wait_mask false);
    try (rewrite with_s_mqtt_evtgrp_hdl_same by assumption; reflexivity).
  destruct a as [e|]; cbn [delivered].
  - unfold bind. rewrite (mqtt_event_handler_live e st bits Hh).
    rewrite (IH (with_s_mqtt_evtgrp_hdl (Some (latch_after e bits)) st)
                (latch_after e bits) eq_refl).
    destruct (released_with world (latch_after e bits)); reflexivity.
  - apply IH. exact Hh.
Qed.

Lemma mqtt_start_setup_eq (v : vendor) (st : state) :
  mqtt_start_setup v st =
  if xEventGroupCreate_ok v then
    match esp_mqtt_client_init v with
    | Some c =>
        if esp_mqtt_client_register_event v =? ESP_OK then
          if esp_mqtt_client_start v =? ESP_OK then
            Next tt (mkState (Some 0) (mqtt_connected st) (Some c)
                       (lifecycle st ++ setup_calls))
          else
            Return (esp_mqtt_client_start v)
              (mkState (Some 0) (mqtt_connected st) (Some c)
                 (lifecycle st ++ setup_calls))
        else
          Return (esp_mqtt_client_register_event v)
            (mkState (Some 0) (mqtt_connected st) (Some c)
               (lifecycle st ++
                  [xEventGroupCreate_call; esp_mqtt_client_init_call;
                   esp_mqtt_client_register_event_call]))
    | None =>
        Return ESP_ERR_INVALID_STATE
          (mkState (Some 0) (mqtt_connected st) None
             (lifecycle st ++ [xEventGroupCreate_call; esp_mqtt_client_init_call]))
    end
  else
    Return ESP_ERR_INVALID_STATE
      (mkState None (mqtt_connected st) (mqtt_client_hdl st)
         (lifecycle st ++ [xEventGroupCreate_call])).
Proof.
  unfold mqtt_start_setup, ESP_RETURN_ON_FALSE, ESP_RETURN_ON_ERROR, bind, issue,
    ret, leave, set_mqtt_client_hdl, set_s_mqtt_evtgrp_hdl, with_call,
    with_mqtt_client_hdl, with_s_mqtt_evtgrp_hdl, setup_calls.
  destruct (xEventGroupCreate_ok v); cbn [non_null]; [|reflexivity].
  destruct (esp_mqtt_client_init v) as [c|]; cbn [non_null];
    [|cbn [s_mqtt_evtgrp_hdl mqtt_connected mqtt_client_hdl lifecycle];
      rewrite <- !app_assoc; reflexivity].
  destruct (esp_mqtt_client_register_event v =? ESP_OK);
    [destruct (esp_mqtt_client_start v =? ESP_OK)|];
    cbn [s_mqtt_evtgrp_hdl mqtt_connected mqtt_client_hdl lifecycle];
    rewrite <- !app_assoc; reflexivity.
Qed.

(** What [mqtt_start] does when its setup goes through, in one equation. *)
Lemma mqtt_start_eq (v : vendor) (pre : list esp_mqtt_event_id_t)
    (world : list activity) (st : state) :
  setup_succeeds v ->
  run (mqtt_start v pre world) st =
  match released_with world (latch_after_all pre 0) with
  | Some b =>
      Returned (spec_return_value (spec_first_satisfied b))
        (mkState (Some b) (spec_connected_state (spec_first_satisfied b))
           (esp_mqtt_client_init v) (lifecycle st ++ setup_calls))
  | None =>
      Blocked
        (mkState (Some (latch_after_all (pre ++ delivered world) 0))
           (mqtt_connected st) (esp_mqtt_client_init v)
           (lifecycle st ++ setup_calls))
  end.
Proof.
  intros (Hc & Hi & Hr & Hs).
  unfold run, mqtt_start, bind.
  rewrite mqtt_start_setup_eq, Hc, Hr, Hs.
  destruct (esp_mqtt_client_init v) as [c|] eqn:Hinit; [|contradiction].
  change (ESP_OK =? ESP_OK) with true. cbn iota.
  set (st1 := mkState (Some 0) (mqtt_connected st) (Some c)
                (lifecycle st ++ setup_calls)).
  rewrite (dispatch_live pre st1 0 eq_refl).
  rewrite (mqtt_start_wait_released world
             (with_s_mqtt_evtgrp_hdl (Some (latch_after_all pre 0)) st1)
             (latch_after_all pre 0) eq_refl).
  rewrite latch_after_all_app.
  destruct (released_with world (latch_after_all pre 0)) as [b|]; [|reflexivity].
  rewrite mqtt_start_link_bits_eq. reflexivity.
Qed.

Lemma released_at_once (world : list activity) (bits : EventBits_t) :
  prvTestWaitCondition bits mqtt_start_wait_mask false = true ->
  released_with world bits = Some bits.
Proof. intros Hc. destruct world; cbn [released_with]; rewrite Hc; reflexivity. Qed.

Lemma released_none_iff (world : list activity) :
  forall bits : EventBits_t,
    released_with world bits = None
    <-> prvTestWaitCondition (latch_after_all (delivered world) bits)
          mqtt_start_wait_mask false = false.
Proof.
  induction world as [|a world IH]; intros bits; cbn [released_with delivered].
  - cbn [latch_after_all fold_left].
    destruct (prvTestWaitCondition bits mqtt_start_wait_mask false);
      split; intros H; try discriminate; reflexivity.
  - destruct (prvTestWaitCondition bits mqtt_start_wait_mask false) eqn:Hc.
    + split; [discriminate|]. intros H.
      destruct a; rewrite wait_condition_after_all, Hc in H; discriminate.
    + destruct a as [e|]; [|apply IH].
      cbn [latch_after_all fold_left]. apply IH.
Qed.

Lemma latch_after_all_no_outcome (events : list esp_mqtt_event_id_t) :
  forall bits : EventBits_t,
    existsb is_outcome_event events = false -> latch_after_all events bits = bits.
Proof.
  induction events as [|e events IH]; intros bits H; [reflexivity|].
  cbn [existsb] in H. apply orb_false_elim in H. destruct H as [He Hrest].
  cbn [latch_after_all fold_left]. rewrite (latch_after_no_outcome e bits He).
  apply IH. exact Hrest.
Qed.

Lemma released_first (world : list activity) (e : esp_mqtt_event_id_t) :
  find is_outcome_event (delivered world) = Some e ->
  released_with world 0 = Some (latch_after e 0).
Proof.
  induction world as [|a world IH]; cbn [delivered find]; [discriminate|].
  cbn [released_with].
  change (prvTestWaitCondition 0 mqtt_start_wait_mask false) with false. cbn iota.
  destruct a as [a|]; [|exact IH].
  cbn [find]. destruct (is_outcome_event a) eqn:Ha.
  - intros H; inversion H; subst. apply released_at_once.
    rewrite wait_condition_after, Ha. apply orb_true_r.
  - rewrite (latch_after_no_outcome a 0 Ha). exact IH.
Qed.

(** ** Setup failures *)

(** X1: a failure of the setup ends [mqtt_start] at once with the code of
    the failed step (ESP_ERR_INVALID_STATE for the two allocations), after
    the calls made so far and no other; the caller never waits, and
    [mqtt_connected] is not written.  A failed creation also overwrites the
    event group reference with NULL. *)
Theorem setup_failure_propagates (v : vendor) (pre : list esp_mqtt_event_id_t)
    (world : list activity) (st : state) :
  (xEventGroupCreate_ok v = false ->
   run (mqtt_start v pre world) st
   = Returned ESP_ERR_INVALID_STATE
       (mkState None (mqtt_connected st) (mqtt_client_hdl st)
          (lifecycle st ++ [xEventGroupCreate_call])))
  /\ (xEventGroupCreate_ok v = true -> esp_mqtt_client_init v = None ->
      run (mqtt_start v pre world) st
      = Returned ESP_ERR_INVALID_STATE
          (mkState (Some 0) (mqtt_connected st) None
             (lifecycle st ++ [xEventGroupCreate_call; esp_mqtt_client_init_call])))
  /\ (xEventGroupCreate_ok v = true -> esp_mqtt_client_init v <> None ->
      esp_mqtt_client_register_event v <> ESP_OK ->
      run (mqtt_start v pre world) st
      = Returned (esp_mqtt_client_register_event v)
          (mkState (Some 0) (mqtt_connected st) (esp_mqtt_client_init v)
             (lifecycle st ++
                [xEventGroupCreate_call; esp_mqtt_client_init_call;
                 esp_mqtt_client_register_event_call])))
  /\ (xEventGroupCreate_ok v = true -> esp_mqtt_client_init v <> None ->
      esp_mqtt_client_register_event v = ESP_OK ->
      esp_mqtt_client_start v <> ESP_OK ->
      run (mqtt_start v pre world) st
      = Returned (esp_mqtt_client_start v)
          (mkState (Some 0) (mqtt_connected st) (esp_mqtt_client_init v)
             (lifecycle st ++ setup_calls))).
Proof.
  unfold run, mqtt_start, bind. rewrite mqtt_start_setup_eq.
  repeat split.
  - intros ->. reflexivity.
  - intros -> ->. reflexivity.
  - intros -> Hi Hr. destruct (esp_mqtt_client_init v); [|contradiction].
    apply Z.eqb_neq in Hr. rewrite Hr. reflexivity.
  - intros -> Hi Hr Hs. destruct (esp_mqtt_client_init v); [|contradiction].
    apply Z.eqb_neq in Hs. rewrite Hr, Hs. reflexivity.
Qed.

Lemma setup_failure_propagates_witness :
  (xEventGroupCreate_ok (mkVendor false (Some 1%nat) ESP_OK ESP_OK ESP_OK ESP_OK ESP_OK)
   = false /\
   run (mqtt_start (mkVendor false (Some 1%nat) ESP_OK ESP_OK ESP_OK ESP_OK ESP_OK)
          [MQTT_EVENT_CONNECTED] []) started
   = Returned ESP_ERR_INVALID_STATE
       (mkState None true (Some 1%nat) (setup_calls ++ [xEventGroupCreate_call])))
  /\ (xEventGroupCreate_ok no_client = true /\ esp_mqtt_client_init no_client = None /\
      run (mqtt_start no_client [] [Deliver MQTT_EVENT_CONNECTED]) initial_state
      = Returned ESP_ERR_INVALID_STATE
          (mkState (Some 0) false None
             [xEventGroupCreate_call; esp_mqtt_client_init_call]))
  /\ (esp_mqtt_client_register_event
        (mkVendor true (Some 1%nat) ESP_FAIL ESP_OK ESP_OK ESP_OK ESP_OK) <> ESP_OK /\
      run (mqtt_start (mkVendor true (Some 1%nat) ESP_FAIL ESP_OK ESP_OK ESP_OK ESP_OK)
             [] []) initial_state
      = Returned ESP_FAIL
          (mkState (Some 0) false (Some 1%nat)
             [xEventGroupCreate_call; esp_mqtt_client_init_call;
              esp_mqtt_client_register_event_call]))
  /\ (esp_mqtt_client_start
        (mkVendor true (Some 1%nat) ESP_OK ESP_FAIL ESP_OK ESP_OK ESP_OK) <> ESP_OK /\
      run (mqtt_start (mkVendor true (Some 1%nat) ESP_OK ESP_FAIL ESP_OK ESP_OK ESP_OK)
             [] []) initial_state
      = Returned ESP_FAIL (mkState (Some 0) false (Some 1%nat) setup_calls)).
Proof.
  split; [|split; [|split]].
  - split; [reflexivity|].
    apply (proj1 (setup_failure_propagates
             (mkVendor false (Some 1%nat) ESP_OK ESP_OK ESP_OK ESP_OK ESP_OK)
             [MQTT_EVENT_CONNECTED] [] started)).
    reflexivity.
  - split; [reflexivity|]. split; [reflexivity|].
    apply (proj1 (proj2 (setup_failure_propagates no_client []
             [Deliver MQTT_EVENT_CONNECTED] initial_state))); reflexivity.
  - split; [discriminate|].
    apply (proj1 (proj2 (proj2 (setup_failure_propagates
             (mkVendor true (Some 1%nat) ESP_FAIL ESP_OK ESP_OK ESP_OK ESP_OK)
             [] [] initial_state))));
      [reflexivity|discriminate|discriminate].
  - split; [discriminate|].
    apply (proj2 (proj2 (proj2 (setup_failure_propagates
             (mkVendor true (Some 1%nat) ESP_OK ESP_FAIL ESP_OK ESP_OK ESP_OK)
             [] [] initial_state))));
      [reflexivity|discriminate|reflexivity|discriminate].
Defined.


(** ** Outcomes of the wait *)

(** X3: once its setup has gone through, [mqtt_start] returns exactly when
    a Connected, Disconnected or Error event is handled, before or during
    the wait; without one the caller stays blocked for ever, however many
    ticks pass and whatever other events arrive, with the event group
    empty and [mqtt_connected] unwritten. *)
Theorem mqtt_start_returns_iff_outcome_event (v : vendor)
    (pre : list esp_mqtt_event_id_t) (world : list activity) (st : state) :
  setup_succeeds v ->
  (existsb is_outcome_event (pre ++ delivered world) = true ->
   exists r st', run (mqtt_start v pre world) st = Returned r st')
  /\ (existsb is_outcome_event (pre ++ delivered world) = false ->
      run (mqtt_start v pre world) st
      = Blocked (mkState (Some 0) (mqtt_connected st) (esp_mqtt_client_init v)
                   (lifecycle st ++ setup_calls))).
Proof.
  intros Hok. rewrite (mqtt_start_eq v pre world st Hok).
  pose proof (released_none_iff world (latch_after_all pre 0)) as Hnone.
  rewrite <- latch_after_all_app, wait_condition_after_all in Hnone.
  change (prvTestWaitCondition 0 mqtt_start_wait_mask false) with false in Hnone.
  cbn [orb] in Hnone.
  split; intros Hev.
  - destruct (released_with world (latch_after_all pre 0)) as [b|].
    + eexists. eexists. reflexivity.
    + rewrite (proj1 Hnone eq_refl) in Hev. discriminate.
  - rewrite (proj2 Hnone Hev).
    rewrite (latch_after_all_no_outcome _ 0 Hev). reflexivity.
Qed.

Lemma mqtt_start_returns_iff_outcome_event_witness :
  setup_succeeds all_ok /\
  (existsb is_outcome_event
     ([MQTT_EVENT_DATA] ++ delivered [Tick; Deliver MQTT_EVENT_ERROR]) = true /\
   exists r st',
     run (mqtt_start all_ok [MQTT_EVENT_DATA] [Tick; Deliver MQTT_EVENT_ERROR])
       initial_state = Returned r st')
  /\ (existsb is_outcome_event
        ([MQTT_EVENT_BEFORE_CONNECT] ++
         delivered [Tick; Deliver MQTT_EVENT_SUBSCRIBED; Tick]) = false /\
      run (mqtt_start all_ok [MQTT_EVENT_BEFORE_CONNECT]
             [Tick; Deliver MQTT_EVENT_SUBSCRIBED; Tick]) initial_state
      = Blocked (mkState (Some 0) false (Some 1%nat) setup_calls)).
Proof.
  assert (Hok : setup_succeeds all_ok).
  { unfold setup_succeeds. repeat split. discriminate. }
  split; [exact Hok|]. split.
  - split; [reflexivity|].
    apply (proj1 (mqtt_start_returns_iff_outcome_event all_ok [MQTT_EVENT_DATA]
                    [Tick; Deliver MQTT_EVENT_ERROR] initial_state Hok)).
    reflexivity.
  - split; [reflexivity|].
    apply (proj2 (mqtt_start_returns_iff_outcome_event all_ok
                    [MQTT_EVENT_BEFORE_CONNECT]
                    [Tick; Deliver MQTT_EVENT_SUBSCRIBED; Tick] initial_state Hok)).
    reflexivity.
Defined.


(** X5: [mqtt_start] never trips the assertion of FreeRTOS on a NULL event
    group, from any state and for any answers of its collaborators: the
    handler and the wait run only once the group has been created. *)
Theorem mqtt_start_never_aborts (v : vendor) (pre : list esp_mqtt_event_id_t)
    (world : list activity) (st : state) :
  run (mqtt_start v pre world) st <> Aborted.
Proof.
  unfold run. rewrite mqtt_start_unfold.
  pose proof (mqtt_start_until_wait_cases v pre world st) as Hc.
  destruct (mqtt_start_until_wait v pre world st) as [bits st1|r1 st1|st1|];
    try discriminate; [|contradiction].
  rewrite mqtt_start_link_bits_eq. discriminate.
Qed.

(** ** What the handler leaves alone *)

Lemma mask_high_bits (n : Z) :
  3 <= n ->
  Z.testbit MQTT_EVTGRP_CONNECTED_BIT n = false /\
  Z.testbit MQTT_EVTGRP_DISCONNECTED_BIT n = false /\
  Z.testbit MQTT_EVTGRP_ERROR_BIT n = false.
Proof.
  intros Hn. split; [|split].
  - apply (Z.pow2_bits_false 0 n). lia.
  - apply (Z.pow2_bits_false 1 n). lia.
  - apply (Z.pow2_bits_false 2 n). lia.
Qed.

Lemma latch_after_high_bits (e : esp_mqtt_event_id_t) (bits : EventBits_t) (n : Z) :
  3 <= n -> Z.testbit (latch_after e bits) n = Z.testbit bits n.
Proof.
  intros Hn. destruct (mask_high_bits n Hn) as (Hc & Hd & He).
  destruct e; cbn [latch_after]; try reflexivity;
    rewrite ?Z.ldiff_spec, ?Z.lor_spec, ?Hc, ?Hd, ?He;
    cbn [negb]; rewrite ?orb_false_r, ?andb_true_r; reflexivity.
Qed.

(** X6: a handler run changes nothing but the three outcome bits of the
    event group: the client handle and the record of calls are as before,
    a NULL event group reference stays NULL and a live one stays live,
    and every bit of the group from bit 3 up keeps its value. *)
Theorem mqtt_event_handler_frame (e : esp_mqtt_event_id_t) (st st' : state) :
  mqtt_event_handler e st = Next tt st' ->
  mqtt_client_hdl st' = mqtt_client_hdl st /\
  lifecycle st' = lifecycle st /\
  (s_mqtt_evtgrp_hdl st' = None <-> s_mqtt_evtgrp_hdl st = None) /\
  (forall bits bits' n,
      s_mqtt_evtgrp_hdl st = Some bits ->
      s_mqtt_evtgrp_hdl st' = Some bits' ->
      3 <= n -> Z.testbit bits' n = Z.testbit bits n).
Proof.
  destruct (s_mqtt_evtgrp_hdl st) as [bits0|] eqn:Hh.
  - rewrite (mqtt_event_handler_live e st bits0 Hh).
    intros H; inversion H; subst; clear H.
    cbn [with_s_mqtt_evtgrp_hdl mqtt_client_hdl lifecycle s_mqtt_evtgrp_hdl].
    split; [reflexivity|]. split; [reflexivity|]. split.
    + split; discriminate.
    + intros bits bits' n Hb Hb' Hn. inversion Hb; inversion Hb'; subst.
      apply latch_after_high_bits. exact Hn.
  - destruct e; cbn [mqtt_event_handler];
      unfold bind, xEventGroupSetBits, xEventGroupClearBits, ret;
      rewrite ?Hh; intros H; inversion H; subst;
      (split; [reflexivity|]); (split; [reflexivity|]);
      (split; [rewrite Hh; tauto|]); intros bits bits' n Hb; discriminate.
Qed.

Lemma mqtt_event_handler_frame_witness :
  mqtt_event_handler MQTT_EVENT_DISCONNECTED
    (mkState (Some 0xff01) true (Some 7%nat) setup_calls)
  = Next tt (mkState (Some 0xff02) true (Some 7%nat) setup_calls) /\
  mqtt_client_hdl (mkState (Some 0xff02) true (Some 7%nat) setup_calls)
  = mqtt_client_hdl (mkState (Some 0xff01) true (Some 7%nat) setup_calls) /\
  lifecycle (mkState (Some 0xff02) true (Some 7%nat) setup_calls)
  = lifecycle (mkState (Some 0xff01) true (Some 7%nat) setup_calls) /\
  (3 <= 9 -> Z.testbit 0xff02 9 = Z.testbit 0xff01 9).
Proof.
  split; [reflexivity|].
  destruct (mqtt_event_handler_frame MQTT_EVENT_DISCONNECTED
              (mkState (Some 0xff01) true (Some 7%nat) setup_calls)
              (mkState (Some 0xff02) true (Some 7%nat) setup_calls) eq_refl)
    as (Hcl & Hlc & _ & Hbits).
  split; [exact Hcl|]. split; [exact Hlc|].
  apply (Hbits 0xff01 0xff02 9); reflexivity.
Defined.

Lemma error_bit_after_all (events : list esp_mqtt_event_id_t) :
  forall bits : EventBits_t,
    Z.testbit (latch_after_all events bits) 2 = true
    <-> Z.testbit bits 2 = true \/ In MQTT_EVENT_ERROR events.
Proof.
  induction events as [|e events IH]; intros bits.
  - cbn. tauto.
  - cbn [latch_after_all fold_left].
    fold (latch_after_all events (latch_after e bits)).
    rewrite IH, latch_after_bit2. cbn [In].
    destruct e; intuition (discriminate || auto).
Qed.

(** X7: the handler never clears the Error bit: after any sequence of
    events on a live event group, the Error bit is set exactly when it was
    set before or an Error event is in the sequence, whatever Connected
    and Disconnected events come before or after it. *)
Theorem error_bit_is_sticky (events : list esp_mqtt_event_id_t) (st : state)
    (bits : EventBits_t) :
  s_mqtt_evtgrp_hdl st = Some bits ->
  exists bits',
    dispatch events st = Next tt (with_s_mqtt_evtgrp_hdl (Some bits') st) /\
    (Z.land bits' MQTT_EVTGRP_ERROR_BIT <> 0
     <-> Z.land bits MQTT_EVTGRP_ERROR_BIT <> 0 \/ In MQTT_EVENT_ERROR events).
Proof.
  intros Hh. exists (latch_after_all events bits).
  split; [apply dispatch_live; exact Hh|].
  rewrite <- !Z.eqb_neq, !error_bit_test, !negb_false_iff.
  apply error_bit_after_all.
Qed.

Lemma error_bit_is_sticky_witness :
  s_mqtt_evtgrp_hdl fresh_group = Some 0 /\
  exists bits',
    dispatch [MQTT_EVENT_ERROR; MQTT_EVENT_CONNECTED; MQTT_EVENT_DISCONNECTED]
      fresh_group
    = Next tt (with_s_mqtt_evtgrp_hdl (Some bits') fresh_group) /\
    (Z.land bits' MQTT_EVTGRP_ERROR_BIT <> 0
     <-> Z.land 0 MQTT_EVTGRP_ERROR_BIT <> 0 \/
         In MQTT_EVENT_ERROR
            [MQTT_EVENT_ERROR; MQTT_EVENT_CONNECTED; MQTT_EVENT_DISCONNECTED]).
Proof.
  split; [reflexivity|].
  apply (error_bit_is_sticky
           [MQTT_EVENT_ERROR; MQTT_EVENT_CONNECTED; MQTT_EVENT_DISCONNECTED]
           fresh_group 0).
  reflexivity.
Defined.

(** ** A new cycle owes nothing to the previous one *)

(** X8: [mqtt_start] begins every cycle with a new, empty event group: the
    value it returns and the bits it leaves in the group do not depend on
    the state it is called in, in particular not on the bits, the flag or
    the handles a previous cycle has left; the client handle does not
    either once the group is created, nor [mqtt_connected] once the setup
    has gone through. *)
Theorem mqtt_start_ignores_previous_cycle (v : vendor)
    (pre : list esp_mqtt_event_id_t) (world : list activity)
    (st1 st2 st1' : state) (r : esp_err_t) :
  run (mqtt_start v pre world) st1 = Returned r st1' ->
  exists st2',
    run (mqtt_start v pre world) st2 = Returned r st2' /\
    s_mqtt_evtgrp_hdl st2' = s_mqtt_evtgrp_hdl st1' /\
    (xEventGroupCreate_ok v = true -> mqtt_client_hdl st2' = mqtt_client_hdl st1') /\
    (setup_succeeds v -> mqtt_connected st2' = mqtt_connected st1').
Proof.
  destruct (xEventGroupCreate_ok v) eqn:Hc;
    [destruct (esp_mqtt_client_init v) as [c|] eqn:Hi;
     [destruct (esp_mqtt_client_register_event v =? ESP_OK) eqn:Hr;
      [destruct (esp_mqtt_client_start v =? ESP_OK) eqn:Hs|]|]|].
  - assert (Hok : setup_succeeds v).
    { unfold setup_succeeds. rewrite Hc, Hi.
      apply Z.eqb_eq in Hr. apply Z.eqb_eq in Hs.
      repeat split; auto. discriminate. }
    rewrite (mqtt_start_eq v pre world st1 Hok), (mqtt_start_eq v pre world st2 Hok).
    destruct (released_with world (latch_after_all pre 0)); [|discriminate].
    intros H; inversion H; subst. eexists. split; [reflexivity|].
    repeat split.
  - unfold run, mqtt_start, bind. rewrite !mqtt_start_setup_eq, Hc, Hi, Hr, Hs.
    intros H; inversion H; subst. eexists. split; [reflexivity|].
    split; [reflexivity|]. split; [reflexivity|].
    intros (_ & _ & _ & Hs'). apply Z.eqb_neq in Hs. contradiction.
  - unfold run, mqtt_start, bind. rewrite !mqtt_start_setup_eq, Hc, Hi, Hr.
    intros H; inversion H; subst. eexists. split; [reflexivity|].
    split; [reflexivity|]. split; [reflexivity|].
    intros (_ & _ & Hr' & _). apply Z.eqb_neq in Hr. contradiction.
  - unfold run, mqtt_start, bind. rewrite !mqtt_start_setup_eq, Hc, Hi.
    intros H; inversion H; subst. eexists. split; [reflexivity|].
    split; [reflexivity|]. split; [reflexivity|].
    intros (_ & Hi' & _). rewrite Hi in Hi'. contradiction.
  - unfold run, mqtt_start, bind. rewrite !mqtt_start_setup_eq, Hc.
    intros H; inversion H; subst. eexists. split; [reflexivity|].
    split; [reflexivity|]. split; [discriminate|].
    intros (Hc' & _). rewrite Hc in Hc'. discriminate.
Qed.

Lemma mqtt_start_ignores_previous_cycle_witness :
  run (mqtt_start all_ok [] [Deliver MQTT_EVENT_DISCONNECTED]) initial_state
  = Returned MQTT_ERROR_TYPE_CONNECTION_REFUSED
      (mkState (Some MQTT_EVTGRP_DISCONNECTED_BIT) false (Some 1%nat) setup_calls) /\
  exists st2',
    run (mqtt_start all_ok [] [Deliver MQTT_EVENT_DISCONNECTED])
      (mkState (Some 5) true (Some 9%nat) teardown_calls)
    = Returned MQTT_ERROR_TYPE_CONNECTION_REFUSED st2' /\
    s_mqtt_evtgrp_hdl st2' = Some MQTT_EVTGRP_DISCONNECTED_BIT.
Proof.
  split; [reflexivity|].
  destruct (mqtt_start_ignores_previous_cycle all_ok []
              [Deliver MQTT_EVENT_DISCONNECTED] initial_state
              (mkState (Some 5) true (Some 9%nat) teardown_calls)
              (mkState (Some MQTT_EVTGRP_DISCONNECTED_BIT) false (Some 1%nat) setup_calls)
              MQTT_ERROR_TYPE_CONNECTION_REFUSED eq_refl)
    as (st2' & Hrun & Hh & _).
  exists st2'. split; [exact Hrun|exact Hh].
Defined.


(** ** Time *)

Lemma mqtt_start_wait_tick (world : list activity) (st : state) :
  mqtt_start_wait (Tick :: world) st = mqtt_start_wait world st.
Proof.
  rewrite (mqtt_start_wait_unfold (Tick :: world) st).
  destruct (s_mqtt_evtgrp_hdl st) as [bits|] eqn:Hh.
  - destruct (prvTestWaitCondition bits mqtt_start_wait_mask false) eqn:Hc;
      [|reflexivity].
    symmetry. apply mqtt_start_wait_at_once; assumption.
  - rewrite (mqtt_start_wait_unfold world st), Hh. reflexivity.
Qed.

Lemma mqtt_start_wait_without_ticks (world : list activity) :
  forall st : state,
    mqtt_start_wait world st = mqtt_start_wait (map Deliver (delivered world)) st.
Proof.
  induction world as [|a world IH]; intros st; [reflexivity|].
  destruct a as [e|]; cbn [delivered map].
  - rewrite (mqtt_start_wait_unfold (Deliver e :: world) st).
    rewrite (mqtt_start_wait_unfold (Deliver e :: map Deliver (delivered world)) st).
    destruct (s_mqtt_evtgrp_hdl st) as [bits|]; [|reflexivity].
    destruct (prvTestWaitCondition bits mqtt_start_wait_mask false); [reflexivity|].
    unfold bind. destruct (mqtt_event_handler e st) as [[] st1| | |]; try reflexivity.
    apply IH.
  - rewrite mqtt_start_wait_tick. apply IH.
Qed.

(** X10: the wait of [mqtt_start] has no time-out: the ticks that pass
    while the caller is blocked play no part, and [mqtt_start] does the
    same with and without them, whether it returns or stays blocked. *)
Theorem ticks_play_no_part (v : vendor) (pre : list esp_mqtt_event_id_t)
    (world : list activity) (st : state) :
  run (mqtt_start v pre world) st
  = run (mqtt_start v pre (map Deliver (delivered world))) st.
Proof.
  unfold run, mqtt_start, bind.
  destruct (mqtt_start_setup v st) as [[] st1| | |]; try reflexivity.
  destruct (dispatch pre st1) as [[] st2| | |]; try reflexivity.
  rewrite (mqtt_start_wait_without_ticks world st2). reflexivity.
Qed.



(** ** A whole cycle *)

(** X12: a cycle made of a [mqtt_start] whose setup goes through and that
    returns, whatever its outcome, followed by a [mqtt_stop] whose three
    first steps succeed, issues the four setup calls and the five teardown
    calls in this order and ends with both references NULL; [mqtt_stop]
    leaves [mqtt_connected] as [mqtt_start] set it, true after a
    connection. *)
Theorem start_then_stop (v : vendor) (pre : list esp_mqtt_event_id_t)
    (world : list activity) (st st1 : state) (r : esp_err_t) :
  setup_succeeds v ->
  run (mqtt_start v pre world) st = Returned r st1 ->
  esp_mqtt_client_disconnect v = ESP_OK ->
  esp_mqtt_client_stop v = ESP_OK ->
  esp_mqtt_client_unregister_event v = ESP_OK ->
  run (mqtt_stop v) st1
  = Returned ESP_OK
      (mkState None (mqtt_connected st1) None
         (lifecycle st ++ setup_calls ++ teardown_calls)).
Proof.
  intros Hok Hrun Hd Hs Hu.
  rewrite (mqtt_start_eq v pre world st Hok) in Hrun.
  destruct (released_with world (latch_after_all pre 0)); [|discriminate].
  inversion Hrun; subst; clear Hrun.
  rewrite mqtt_stop_eq, Hd, Hs, Hu.
  change (ESP_OK =? ESP_OK) with true. cbn iota.
  cbn [mqtt_connected lifecycle]. rewrite <- app_assoc. reflexivity.
Qed.

Lemma start_then_stop_witness :
  setup_succeeds all_ok /\
  run (mqtt_start all_ok [] [Deliver MQTT_EVENT_CONNECTED]) initial_state
  = Returned ESP_OK started /\
  run (mqtt_stop all_ok) started
  = Returned ESP_OK
      (mkState None (mqtt_connected started) None
         (lifecycle initial_state ++ setup_calls ++ teardown_calls)) /\
  mqtt_connected started = true.
Proof.
  assert (Hok : setup_succeeds all_ok).
  { unfold setup_succeeds. repeat split. discriminate. }
  split; [exact Hok|]. split; [reflexivity|]. split; [|reflexivity].
  apply (start_then_stop all_ok [] [Deliver MQTT_EVENT_CONNECTED] initial_state
           started ESP_OK Hok); reflexivity.
Defined.

(** ** How handler runs compose *)

Lemma latch_after_override (e1 e2 : esp_mqtt_event_id_t) (bits : EventBits_t) :
  is_link_event e1 = true -> is_link_event e2 = true ->
  latch_after e2 (latch_after e1 bits) = latch_after e2 bits.
Proof.
  intros H1 H2.
  destruct e1; try discriminate H1; destruct e2; try discriminate H2;
    cbn [latch_after]; apply Z.bits_inj'; intros n Hn;
    repeat (rewrite Z.ldiff_spec || rewrite Z.lor_spec);
    destruct (Z.testbit bits n),
             (Z.testbit MQTT_EVTGRP_CONNECTED_BIT n),
             (Z.testbit MQTT_EVTGRP_DISCONNECTED_BIT n); reflexivity.
Qed.

Lemma latch_after_error_commutes (e : esp_mqtt_event_id_t) (bits : EventBits_t) :
  latch_after MQTT_EVENT_ERROR (latch_after e bits)
  = latch_after e (latch_after MQTT_EVENT_ERROR bits).
Proof.
  destruct e; cbn [latch_after]; try reflexivity;
    apply Z.bits_inj'; intros n Hn;
    repeat (rewrite Z.ldiff_spec || rewrite Z.lor_spec);
    change MQTT_EVTGRP_CONNECTED_BIT with (2 ^ 0);
    change MQTT_EVTGRP_DISCONNECTED_BIT with (2 ^ 1);
    change MQTT_EVTGRP_ERROR_BIT with (2 ^ 2);
    rewrite ?(Z.pow2_bits_eqb 0 n), ?(Z.pow2_bits_eqb 1 n), ?(Z.pow2_bits_eqb 2 n)
      by lia;
    destruct (Z.eqb_spec 0 n), (Z.eqb_spec 1 n), (Z.eqb_spec 2 n);
    try lia; destruct (Z.testbit bits n); reflexivity.
Qed.

Lemma dispatch_pair (e1 e2 : esp_mqtt_event_id_t) (st : state) (bits : EventBits_t) :
  s_mqtt_evtgrp_hdl st = Some bits ->
  dispatch [e1; e2] st
  = Next tt (with_s_mqtt_evtgrp_hdl (Some (latch_after e2 (latch_after e1 bits))) st).
Proof. intros Hh. apply (dispatch_live [e1; e2] st bits Hh). Qed.

(** X13: a connect/disconnect-class event overrides the one handled just
    before it: handling a Connected or Disconnected event and then another
    leaves the state the second one alone would have left, so no trace of
    the first remains in the event group. *)
Theorem link_event_overrides_previous (e1 e2 : esp_mqtt_event_id_t) (st : state) :
  is_link_event e1 = true -> is_link_event e2 = true ->
  dispatch [e1; e2] st = dispatch [e2] st.
Proof.
  intros H1 H2.
  destruct (s_mqtt_evtgrp_hdl st) as [bits|] eqn:Hh.
  - rewrite (dispatch_pair e1 e2 st bits Hh), (dispatch_live [e2] st bits Hh).
    cbn [latch_after_all fold_left].
    rewrite (latch_after_override e1 e2 bits H1 H2). reflexivity.
  - destruct e1; try discriminate H1; destruct e2; try discriminate H2;
      cbn [dispatch mqtt_event_handler];
      unfold bind, xEventGroupSetBits; rewrite Hh; reflexivity.
Qed.

Lemma link_event_overrides_previous_witness :
  is_link_event MQTT_EVENT_CONNECTED = true /\
  is_link_event MQTT_EVENT_DISCONNECTED = true /\
  dispatch [MQTT_EVENT_CONNECTED; MQTT_EVENT_DISCONNECTED]
    (mkState (Some 5) true (Some 1%nat) setup_calls)
  = dispatch [MQTT_EVENT_DISCONNECTED]
      (mkState (Some 5) true (Some 1%nat) setup_calls) /\
  dispatch [MQTT_EVENT_DISCONNECTED]
    (mkState (Some 5) true (Some 1%nat) setup_calls)
  = Next tt (mkState (Some 6) true (Some 1%nat) setup_calls).
Proof.
  split; [reflexivity|]. split; [reflexivity|]. split; [|reflexivity].
  apply (link_event_overrides_previous MQTT_EVENT_CONNECTED MQTT_EVENT_DISCONNECTED);
    reflexivity.
Defined.

(** X14: an Error event commutes with every other event: handled before or
    after it, the two leave the same state, with or without a live event
    group; the Error bit keeps no record of its order with respect to a
    connection or disconnection. *)
Theorem error_event_commutes (e : esp_mqtt_event_id_t) (st : state) :
  dispatch [MQTT_EVENT_ERROR; e] st = dispatch [e; MQTT_EVENT_ERROR] st.
Proof.
  destruct (s_mqtt_evtgrp_hdl st) as [bits|] eqn:Hh.
  - rewrite (dispatch_pair MQTT_EVENT_ERROR e st bits Hh).
    rewrite (dispatch_pair e MQTT_EVENT_ERROR st bits Hh).
    rewrite latch_after_error_commutes. reflexivity.
  - destruct e; cbn [dispatch mqtt_event_handler];
      unfold bind, xEventGroupSetBits, ret; rewrite ?Hh; reflexivity.
Qed.

(** ** The values of the event group *)

Lemma latch_after_value (e : esp_mqtt_event_id_t) (bits : EventBits_t) :
  latch_value bits -> latch_value (latch_after e bits).
Proof.
  unfold latch_value.
  intros [H|[H|[H|[H|[H|H]]]]]; subst bits; destruct e; vm_compute; tauto.
Qed.

Lemma latch_after_all_value (events : list esp_mqtt_event_id_t) :
  forall bits : EventBits_t,
    latch_value bits -> latch_value (latch_after_all events bits).
Proof.
  induction events as [|e events IH]; intros bits Hv; [exact Hv|].
  cbn [latch_after_all fold_left]. apply IH, latch_after_value, Hv.
Qed.

Lemma released_with_value (world : list activity) :
  forall bits b : EventBits_t,
    latch_value bits -> released_with world bits = Some b ->
    latch_value b /\ b <> 0.
Proof.
  induction world as [|a world IH]; intros bits b Hv; cbn [released_with];
    destruct (prvTestWaitCondition bits mqtt_start_wait_mask false) eqn:Hc;
    try discriminate;
    try (intros H; inversion H; subst; split; [exact Hv|];
         intros ->; discriminate Hc).
  destruct a as [e|].
  - apply IH, latch_after_value, Hv.
  - apply IH, Hv.
Qed.


(** * The two tasks interleaved *)

(** ** Single moves *)

Lemma handler_calls_agree (e : esp_mqtt_event_id_t) (st : state) :
  mqtt_event_handler e st = perform_all (handler_calls e) st.
Proof. destruct e; reflexivity. Qed.

Lemma call_after_handler (e : esp_mqtt_event_id_t) (bits : EventBits_t) :
  fold_left (fun b c => call_after c b) (handler_calls e) bits = latch_after e bits.
Proof. destruct e; reflexivity. Qed.

Lemma handler_calls_are_handler_calls (events : list esp_mqtt_event_id_t) :
  Forall handler_call (flat_map handler_calls events).
Proof.
  induction events as [|e events IH]; [constructor|].
  cbn [flat_map]. apply Forall_app. split; [|exact IH].
  destruct e; cbn [handler_calls]; repeat constructor;
    unfold handler_call; cbn [In]; tauto.
Qed.

Lemma handler_call_cases (c : rtos_call) :
  handler_call c ->
  c = SetBits 1 \/ c = ClearBits 2 \/ c = SetBits 2 \/ c = ClearBits 1 \/ c = SetBits 4.
Proof.
  unfold handler_call. cbn [In].
  intros [H|[H|[H|[H|[H|[]]]]]]; subst c; tauto.
Qed.

Lemma call_after_three_bits (c : rtos_call) (bits : EventBits_t) :
  handler_call c -> three_bits bits -> three_bits (call_after c bits).
Proof.
  intros Hc Hb. apply handler_call_cases in Hc. unfold three_bits in *.
  destruct Hc as [H|[H|[H|[H|H]]]]; subst c;
    destruct Hb as [H|[H|[H|[H|[H|[H|[H|H]]]]]]]; subst bits;
    vm_compute; tauto.
Qed.

Lemma set_call_meets_condition (b bits : EventBits_t) :
  handler_call (SetBits b) -> three_bits bits ->
  prvTestWaitCondition (Z.lor bits b) mqtt_start_wait_mask false = true.
Proof.
  intros Hc Hb. apply handler_call_cases in Hc. unfold three_bits in *.
  destruct Hc as [H|[H|[H|[H|H]]]]; inversion H; subst b;
    destruct Hb as [H0|[H0|[H0|[H0|[H0|[H0|[H0|H0]]]]]]]; subst bits;
    reflexivity.
Qed.

Lemma perform_live (c : rtos_call) (st : state) (bits : EventBits_t) :
  s_mqtt_evtgrp_hdl st = Some bits ->
  perform c st
  = Next (match c with SetBits _ => call_after c bits | ClearBits _ => bits end)
         (with_s_mqtt_evtgrp_hdl (Some (call_after c bits)) st).
Proof.
  intros Hh. destruct c; cbn [perform call_after];
    unfold xEventGroupSetBits, xEventGroupClearBits; rewrite Hh; reflexivity.
Qed.

Lemma advance_handler (c : rtos_call) (sys : system) (bits : EventBits_t) :
  s_mqtt_evtgrp_hdl (globals sys) = Some bits ->
  advance (Handler c) sys =
  Some (match c, position sys with
        | SetBits _, Waiting =>
            if prvTestWaitCondition (call_after c bits) mqtt_start_wait_mask false
            then mkSystem (with_s_mqtt_evtgrp_hdl (Some (call_after c bits)) (globals sys))
                   (Holding (call_after c bits)) (S (releases sys))
            else mkSystem (with_s_mqtt_evtgrp_hdl (Some (call_after c bits)) (globals sys))
                   Waiting (releases sys)
        | _, p =>
            mkSystem (with_s_mqtt_evtgrp_hdl (Some (call_after c bits)) (globals sys))
              p (releases sys)
        end).
Proof.
  intros Hh. unfold advance. rewrite (perform_live c _ bits Hh).
  destruct c; [|reflexivity].
  destruct (position sys); try reflexivity.
  destruct (prvTestWaitCondition _ _ _); reflexivity.
Qed.

Lemma advance_caller (sys : system) (bits : EventBits_t) :
  s_mqtt_evtgrp_hdl (globals sys) = Some bits ->
  advance Caller sys =
  Some (match position sys with
        | Arriving =>
            if prvTestWaitCondition bits mqtt_start_wait_mask false
            then mkSystem (globals sys) (Holding bits) (releases sys)
            else mkSystem (globals sys) Waiting (releases sys)
        | Holding b =>
            mkSystem
              (with_mqtt_connected (spec_connected_state (spec_first_satisfied b))
                 (globals sys))
              (Finished (spec_return_value (spec_first_satisfied b))
                 (with_mqtt_connected (spec_connected_state (spec_first_satisfied b))
                    (globals sys)))
              (releases sys)
        | _ => sys
        end).
Proof.
  intros Hh. unfold advance. destruct (position sys) as [| |b|r st'].
  - rewrite mqtt_start_wait_unfold, Hh.
    destruct (prvTestWaitCondition bits mqtt_start_wait_mask false); reflexivity.
  - reflexivity.
  - rewrite mqtt_start_link_bits_eq. reflexivity.
  - reflexivity.
Qed.

Lemma exec_app (s1 s2 : list action) (sys : system) :
  exec (s1 ++ s2) sys =
  match exec s1 sys with
  | Some sys' => exec s2 sys'
  | None => None
  end.
Proof.
  revert sys. induction s1 as [|a s1 IH]; intros sys; [reflexivity|].
  cbn [app exec]. destruct (advance a sys); [apply IH|reflexivity].
Qed.

Lemma calls_of_app (s1 s2 : list action) :
  calls_of (s1 ++ s2) = calls_of s1 ++ calls_of s2.
Proof.
  induction s1 as [|[c|] s1 IH]; cbn [app calls_of]; [reflexivity| |exact IH].
  rewrite IH. reflexivity.
Qed.

(** ** Runs of a schedule *)

Lemma advance_handler_keeps (c : rtos_call) (sys : system) (bits : EventBits_t) :
  s_mqtt_evtgrp_hdl (globals sys) = Some bits ->
  position sys <> Waiting \/ is_set_call c = false ->
  advance (Handler c) sys
  = Some (mkSystem (with_s_mqtt_evtgrp_hdl (Some (call_after c bits)) (globals sys))
            (position sys) (releases sys)).
Proof.
  intros Hh Hk. rewrite (advance_handler c sys bits Hh).
  destruct c; [|reflexivity].
  destruct (position sys); try reflexivity.
  destruct Hk as [Hk|Hk]; [contradiction Hk; reflexivity|discriminate Hk].
Qed.

Lemma advance_set_waiting (b : EventBits_t) (sys : system) (bits : EventBits_t) :
  s_mqtt_evtgrp_hdl (globals sys) = Some bits ->
  position sys = Waiting ->
  prvTestWaitCondition (Z.lor bits b) mqtt_start_wait_mask false = true ->
  advance (Handler (SetBits b)) sys
  = Some (mkSystem (with_s_mqtt_evtgrp_hdl (Some (Z.lor bits b)) (globals sys))
            (Holding (Z.lor bits b)) (S (releases sys))).
Proof.
  intros Hh Hp Hc. rewrite (advance_handler (SetBits b) sys bits Hh), Hp.
  cbn [call_after]. rewrite Hc. reflexivity.
Qed.

Lemma three_bits_condition (bits : EventBits_t) :
  three_bits bits ->
  prvTestWaitCondition bits mqtt_start_wait_mask false = false -> bits = 0.
Proof.
  unfold three_bits.
  intros [H|[H|[H|[H|[H|[H|[H|H]]]]]]] Hc; subst bits;
    try reflexivity; discriminate Hc.
Qed.

Lemma first_set_call_bits (calls : list rtos_call) (b : EventBits_t) :
  Forall handler_call calls ->
  first_set_call calls = Some b ->
  b = MQTT_EVTGRP_CONNECTED_BIT \/ b = MQTT_EVTGRP_DISCONNECTED_BIT \/
  b = MQTT_EVTGRP_ERROR_BIT.
Proof.
  induction calls as [|c calls IH]; intros Hall Hf; [discriminate|].
  inversion Hall as [|c' l' Hc Hrest]; subst.
  destruct c as [x|x]; cbn [first_set_call] in Hf.
  - inversion Hf; subst. apply handler_call_cases in Hc.
    destruct Hc as [H|[H|[H|[H|H]]]]; inversion H; subst; auto.
  - apply IH; assumption.
Qed.

Lemma calls_of_uninterrupted (events : list esp_mqtt_event_id_t) :
  calls_of (uninterrupted events) = flat_map handler_calls events.
Proof.
  unfold uninterrupted.
  induction (flat_map handler_calls events) as [|c calls IH]; [reflexivity|].
  cbn [map calls_of]. rewrite IH. reflexivity.
Qed.

Lemma latch_after_all_calls (events : list esp_mqtt_event_id_t) :
  forall bits : EventBits_t,
    fold_left (fun b c => call_after c b) (flat_map handler_calls events) bits
    = latch_after_all events bits.
Proof.
  induction events as [|e events IH]; intros bits; [reflexivity|].
  cbn [flat_map]. rewrite fold_left_app, call_after_handler.
  cbn [latch_after_all fold_left]. apply IH.
Qed.

(** Calls of the handler that the caller does not wait for. *)
Lemma exec_handler_calls (calls : list rtos_call) :
  forall (sys : system) (bits : EventBits_t),
    s_mqtt_evtgrp_hdl (globals sys) = Some bits ->
    position sys <> Waiting ->
    exec (map Handler calls) sys
    = Some (mkSystem
              (with_s_mqtt_evtgrp_hdl
                 (Some (fold_left (fun b c => call_after c b) calls bits)) (globals sys))
              (position sys) (releases sys)).
Proof.
  induction calls as [|c calls IH]; intros sys bits Hh Hp.
  - cbn [map exec fold_left].
    rewrite (with_s_mqtt_evtgrp_hdl_same _ _ Hh). destruct sys; reflexivity.
  - cbn [map exec fold_left].
    rewrite (advance_handler_keeps c sys bits Hh (or_introl Hp)).
    rewrite (IH (mkSystem (with_s_mqtt_evtgrp_hdl (Some (call_after c bits)) (globals sys))
                   (position sys) (releases sys)) (call_after c bits) eq_refl Hp).
    reflexivity.
Qed.

Lemma exec_uninterrupted (events : list esp_mqtt_event_id_t) (sys : system)
    (bits : EventBits_t) :
  s_mqtt_evtgrp_hdl (globals sys) = Some bits ->
  position sys <> Waiting ->
  exec (uninterrupted events) sys
  = Some (mkSystem
            (with_s_mqtt_evtgrp_hdl (Some (latch_after_all events bits)) (globals sys))
            (position sys) (releases sys)).
Proof.
  intros Hh Hp. unfold uninterrupted.
  rewrite (exec_handler_calls _ sys bits Hh Hp), latch_after_all_calls. reflexivity.
Qed.

(** A caller that has returned stays where it is. *)
Lemma exec_finished (schedule : list action) :
  forall (sys : system) (bits : EventBits_t) (r : esp_err_t) (st' : state),
    s_mqtt_evtgrp_hdl (globals sys) = Some bits ->
    three_bits bits ->
    Forall handler_call (calls_of schedule) ->
    position sys = Finished r st' ->
    exists sys' bits',
      exec schedule sys = Some sys' /\
      s_mqtt_evtgrp_hdl (globals sys') = Some bits' /\
      three_bits bits' /\
      releases sys' = releases sys /\
      position sys' = Finished r st'.
Proof.
  induction schedule as [|a schedule IH]; intros sys bits r st' Hh Hb Hcalls Hpos.
  - exists sys, bits. cbn [exec]. repeat split; auto.
  - cbn [exec]. destruct a as [c|]; cbn [calls_of] in Hcalls.
    + inversion Hcalls as [|c' l' Hc Hrest]; subst.
      assert (Hnw : position sys <> Waiting) by (rewrite Hpos; discriminate).
      rewrite (advance_handler_keeps c sys bits Hh (or_introl Hnw)).
      apply (IH (mkSystem (with_s_mqtt_evtgrp_hdl (Some (call_after c bits)) (globals sys))
                   (position sys) (releases sys)) (call_after c bits) r st' eq_refl
                (call_after_three_bits c bits Hc Hb) Hrest Hpos).
    + rewrite (advance_caller sys bits Hh), Hpos.
      apply (IH sys bits r st' Hh Hb Hcalls Hpos).
Qed.

(** Once the wait has its value, nothing changes it: the caller holds it
    until it runs, and then returns what the test of these bits gives. *)
Lemma exec_holding (schedule : list action) :
  forall (sys : system) (bits b : EventBits_t),
    s_mqtt_evtgrp_hdl (globals sys) = Some bits ->
    three_bits bits ->
    Forall handler_call (calls_of schedule) ->
    position sys = Holding b ->
    exists sys' bits',
      exec schedule sys = Some sys' /\
      s_mqtt_evtgrp_hdl (globals sys') = Some bits' /\
      three_bits bits' /\
      releases sys' = releases sys /\
      (position sys' = Holding b \/
       exists st',
         position sys' = Finished (spec_return_value (spec_first_satisfied b)) st' /\
         mqtt_connected st' = spec_connected_state (spec_first_satisfied b)).
Proof.
  induction schedule as [|a schedule IH]; intros sys bits b Hh Hb Hcalls Hpos.
  - exists sys, bits. cbn [exec]. repeat split; auto.
  - cbn [exec]. destruct a as [c|]; cbn [calls_of] in Hcalls.
    + inversion Hcalls as [|c' l' Hc Hrest]; subst.
      assert (Hnw : position sys <> Waiting) by (rewrite Hpos; discriminate).
      rewrite (advance_handler_keeps c sys bits Hh (or_introl Hnw)).
      apply (IH (mkSystem (with_s_mqtt_evtgrp_hdl (Some (call_after c bits)) (globals sys))
                   (position sys) (releases sys)) (call_after c bits) b eq_refl
                (call_after_three_bits c bits Hc Hb) Hrest Hpos).
    + rewrite (advance_caller sys bits Hh), Hpos.
      set (g := with_mqtt_connected (spec_connected_state (spec_first_satisfied b))
                  (globals sys)).
      destruct (exec_finished schedule
                  (mkSystem g (Finished (spec_return_value (spec_first_satisfied b)) g)
                     (releases sys))
                  bits _ g Hh Hb Hcalls eq_refl)
        as (sys' & bits' & He & Hh' & Hb' & Hr & Hp).
      exists sys', bits'. repeat split; try assumption.
      right. exists g. split; [exact Hp|reflexivity].
Qed.

(** A waiting caller is released by the first [xEventGroupSetBits] of the
    handler, with the bits of this call alone, and by no later one. *)
Lemma exec_waiting (schedule : list action) :
  forall sys : system,
    s_mqtt_evtgrp_hdl (globals sys) = Some 0 ->
    position sys = Waiting ->
    Forall handler_call (calls_of schedule) ->
    exists sys' bits',
      exec schedule sys = Some sys' /\
      s_mqtt_evtgrp_hdl (globals sys') = Some bits' /\
      three_bits bits' /\
      match first_set_call (calls_of schedule) with
      | None =>
          position sys' = Waiting /\ releases sys' = releases sys /\ bits' = 0
      | Some b =>
          releases sys' = S (releases sys) /\
          (position sys' = Holding b \/
           exists st',
             position sys'
             = Finished (spec_return_value (spec_first_satisfied b)) st' /\
             mqtt_connected st' = spec_connected_state (spec_first_satisfied b))
      end.
Proof.
  induction schedule as [|a schedule IH]; intros sys Hh Hpos Hcalls.
  - exists sys, 0. cbn [exec calls_of first_set_call].
    repeat split; try assumption. left. reflexivity.
  - cbn [exec]. destruct a as [c|]; cbn [calls_of] in Hcalls |- *.
    + inversion Hcalls as [|c' l' Hc Hrest]; subst.
      destruct c as [b|b]; cbn [first_set_call].
      * assert (Hmet : prvTestWaitCondition (Z.lor 0 b) mqtt_start_wait_mask false = true)
          by (apply (set_call_meets_condition b 0 Hc); left; reflexivity).
        rewrite (advance_set_waiting b sys 0 Hh Hpos Hmet).
        assert (H3 : three_bits (Z.lor 0 b)).
        { apply (call_after_three_bits (SetBits b) 0 Hc). left. reflexivity. }
        destruct (exec_holding schedule
                    (mkSystem (with_s_mqtt_evtgrp_hdl (Some (Z.lor 0 b)) (globals sys))
                       (Holding (Z.lor 0 b)) (S (releases sys)))
                    (Z.lor 0 b) (Z.lor 0 b) eq_refl H3 Hrest eq_refl)
          as (sys' & bits' & He & Hh' & Hb' & Hr & Hp).
        cbn [releases] in Hr. rewrite Z.lor_0_l in Hp.
        exists sys', bits'. repeat split; assumption.
      * rewrite (advance_handler_keeps (ClearBits b) sys 0 Hh (or_intror eq_refl)).
        cbn [call_after]. rewrite Z.ldiff_0_l.
        destruct (IH (mkSystem (with_s_mqtt_evtgrp_hdl (Some 0) (globals sys))
                        (position sys) (releases sys)) eq_refl Hpos Hrest)
          as (sys' & bits' & He & Hh' & Hb' & Hm).
        exists sys', bits'. repeat split; assumption.
    + rewrite (advance_caller sys 0 Hh), Hpos.
      apply IH; assumption.
Qed.

(** From the caller's arrival on, whatever the schedule: the run goes
    through, the group holds three bits at most, the caller is released
    once at most, and the value of its wait is not zero. *)
Lemma exec_arriving (schedule : list action) :
  forall (sys : system) (bits : EventBits_t),
    s_mqtt_evtgrp_hdl (globals sys) = Some bits ->
    three_bits bits ->
    position sys = Arriving ->
    Forall handler_call (calls_of schedule) ->
    exists sys' bits',
      exec schedule sys = Some sys' /\
      s_mqtt_evtgrp_hdl (globals sys') = Some bits' /\
      three_bits bits' /\
      (releases sys' = releases sys \/ releases sys' = S (releases sys)) /\
      (forall b, position sys' = Holding b -> three_bits b /\ b <> 0).
Proof.
  induction schedule as [|a schedule IH]; intros sys bits Hh Hb Hpos Hcalls.
  - exists sys, bits. cbn [exec]. repeat split; try assumption; auto;
      rewrite Hpos in *; discriminate.
  - cbn [exec]. destruct a as [c|]; cbn [calls_of] in Hcalls.
    + inversion Hcalls as [|c' l' Hc Hrest]; subst.
      assert (Hnw : position sys <> Waiting) by (rewrite Hpos; discriminate).
      rewrite (advance_handler_keeps c sys bits Hh (or_introl Hnw)).
      apply (IH (mkSystem (with_s_mqtt_evtgrp_hdl (Some (call_after c bits)) (globals sys))
                   (position sys) (releases sys)) (call_after c bits) eq_refl
                (call_after_three_bits c bits Hc Hb) Hpos Hrest).
    + rewrite (advance_caller sys bits Hh), Hpos.
      destruct (prvTestWaitCondition bits mqtt_start_wait_mask false) eqn:Hcond.
      * destruct (exec_holding schedule
                    (mkSystem (globals sys) (Holding bits) (releases sys))
                    bits bits Hh Hb Hcalls eq_refl)
          as (sys' & bits' & He & Hh' & Hb' & Hr & Hp).
        cbn [releases] in Hr.
        exists sys', bits'. repeat split; try assumption; auto;
          destruct Hp as [Hp|(st' & Hp & _)]; rewrite Hp in H;
          inversion H; subst; [exact Hb|].
        intros ->. discriminate Hcond.
      * pose proof (three_bits_condition bits Hb Hcond) as H0. subst bits.
        destruct (exec_waiting schedule
                    (mkSystem (globals sys) Waiting (releases sys)) Hh eq_refl Hcalls)
          as (sys' & bits' & He & Hh' & Hb' & Hm).
        cbn [releases] in Hm.
        exists sys', bits'.
        split; [exact He|]. split; [exact Hh'|]. split; [exact Hb'|].
        destruct (first_set_call (calls_of schedule)) as [b0|] eqn:Hfs.
        -- destruct Hm as (Hr & Hp). split; [right; exact Hr|].
           intros b Hhold.
           destruct Hp as [Hp|(st' & Hp & _)]; rewrite Hp in Hhold;
             inversion Hhold; subst.
           destruct (first_set_call_bits _ _ Hcalls Hfs) as [Hv|[Hv|Hv]];
             rewrite Hv; unfold three_bits; split; try discriminate;
             vm_compute; tauto.
        -- destruct Hm as (Hp & Hr & _). split; [left; exact Hr|].
           intros b Hhold. rewrite Hp in Hhold. discriminate.
Qed.

Lemma exec_waiting_then_caller (schedule : list action) (sys : system) :
  s_mqtt_evtgrp_hdl (globals sys) = Some 0 ->
  position sys = Waiting ->
  Forall handler_call (calls_of schedule) ->
  exists sys',
    exec (schedule ++ [Caller]) sys = Some sys' /\
    match first_set_call (calls_of schedule) with
    | None => position sys' = Waiting /\ releases sys' = releases sys
    | Some b =>
        releases sys' = S (releases sys) /\
        exists st',
          position sys' = Finished (spec_return_value (spec_first_satisfied b)) st' /\
          mqtt_connected st' = spec_connected_state (spec_first_satisfied b)
    end.
Proof.
  intros Hh Hpos Hcalls.
  destruct (exec_waiting schedule sys Hh Hpos Hcalls)
    as (sys1 & bits1 & He & Hh1 & Hb1 & Hm).
  rewrite exec_app, He. cbn [exec].
  rewrite (advance_caller sys1 bits1 Hh1).
  destruct (first_set_call (calls_of schedule)) as [b|].
  - destruct Hm as (Hr & [Hp|(st' & Hp & Hf)]); rewrite Hp.
    + eexists. split; [reflexivity|]. cbn [releases position].
      split; [exact Hr|]. eexists. split; reflexivity.
    + exists sys1. split; [reflexivity|]. split; [exact Hr|].
      exists st'. split; assumption.
  - destruct Hm as (Hp & Hr & _). rewrite Hp.
    exists sys1. split; [reflexivity|]. split; assumption.
Qed.

Lemma mqtt_start_tasks_eq (v : vendor) (schedule : list action) (st : state) :
  setup_succeeds v ->
  mqtt_start_tasks v schedule st
  = exec schedule
      (mkSystem (mkState (Some 0) (mqtt_connected st) (esp_mqtt_client_init v)
                   (lifecycle st ++ setup_calls)) Arriving 0).
Proof.
  intros (Hc & Hi & Hr & Hs). unfold mqtt_start_tasks.
  rewrite mqtt_start_setup_eq, Hc, Hr, Hs.
  destruct (esp_mqtt_client_init v); [reflexivity|contradiction].
Qed.

Lemma first_set_call_events (events : list esp_mqtt_event_id_t) :
  first_set_call (flat_map handler_calls events) =
  match find is_outcome_event events with
  | Some MQTT_EVENT_CONNECTED => Some MQTT_EVTGRP_CONNECTED_BIT
  | Some MQTT_EVENT_DISCONNECTED => Some MQTT_EVTGRP_DISCONNECTED_BIT
  | Some _ => Some MQTT_EVTGRP_ERROR_BIT
  | None => None
  end.
Proof.
  induction events as [|e events IH]; [reflexivity|].
  destruct e; cbn [flat_map handler_calls app find is_outcome_event first_set_call];
    try reflexivity; exact IH.
Qed.

Lemma existsb_outcome_find (events : list esp_mqtt_event_id_t) :
  existsb is_outcome_event events
  = match find is_outcome_event events with Some _ => true | None => false end.
Proof.
  induction events as [|e events IH]; [reflexivity|].
  cbn [existsb find]. destruct (is_outcome_event e); [reflexivity|exact IH].
Qed.

(** The caller calls the wait on the new, empty group and is put on the
    list; [schedule] follows, and then the caller is scheduled. *)
Lemma blocked_first (v : vendor) (events : list esp_mqtt_event_id_t)
    (schedule : list action) (st : state) :
  setup_succeeds v ->
  delivers schedule events ->
  exists sys,
    mqtt_start_tasks v (Caller :: schedule ++ [Caller]) st = Some sys /\
    match find is_outcome_event events with
    | None => position sys = Waiting /\ releases sys = 0%nat
    | Some e =>
        releases sys = 1%nat /\
        exists st',
          position sys
          = Finished
              (match e with
               | MQTT_EVENT_CONNECTED => ESP_OK
               | MQTT_EVENT_DISCONNECTED => MQTT_ERROR_TYPE_CONNECTION_REFUSED
               | _ => MQTT_ERROR_TYPE_NONE
               end) st' /\
          mqtt_connected st'
          = match e with MQTT_EVENT_CONNECTED => true | _ => false end
    end.
Proof.
  intros Hok Hd. rewrite (mqtt_start_tasks_eq v _ st Hok). cbn [exec].
  set (st1 := mkState (Some 0) (mqtt_connected st) (esp_mqtt_client_init v)
                (lifecycle st ++ setup_calls)).
  rewrite (advance_caller (mkSystem st1 Arriving 0) 0 eq_refl). cbn [position].
  change (prvTestWaitCondition 0 mqtt_start_wait_mask false) with false. cbn iota.
  assert (Hcalls : Forall handler_call (calls_of schedule)).
  { rewrite Hd. apply handler_calls_are_handler_calls. }
  destruct (exec_waiting_then_caller schedule (mkSystem st1 Waiting 0)
              eq_refl eq_refl Hcalls) as (sys & He & Hm).
  exists sys. split; [exact He|].
  rewrite Hd, first_set_call_events in Hm.
  pose proof (find_some is_outcome_event events) as Hfind.
  destruct (find is_outcome_event events) as [e|]; [|exact Hm].
  specialize (Hfind e eq_refl). destruct Hfind as [_ He'].
  destruct e; try discriminate He'; exact Hm.
Qed.

Lemma latch_value_three_bits (bits : EventBits_t) :
  latch_value bits -> three_bits bits.
Proof. unfold latch_value, three_bits. tauto. Qed.

Lemma exec_holding_then_caller (schedule : list action) (sys : system)
    (bits b : EventBits_t) :
  s_mqtt_evtgrp_hdl (globals sys) = Some bits ->
  three_bits bits ->
  Forall handler_call (calls_of schedule) ->
  position sys = Holding b ->
  exists sys' st',
    exec (schedule ++ [Caller]) sys = Some sys' /\
    position sys' = Finished (spec_return_value (spec_first_satisfied b)) st' /\
    mqtt_connected st' = spec_connected_state (spec_first_satisfied b) /\
    releases sys' = releases sys.
Proof.
  intros Hh Hb Hcalls Hpos.
  destruct (exec_holding schedule sys bits b Hh Hb Hcalls Hpos)
    as (sys1 & bits1 & He & Hh1 & _ & Hr & Hp).
  rewrite exec_app, He. cbn [exec]. rewrite (advance_caller sys1 bits1 Hh1).
  destruct Hp as [Hp|(st' & Hp & Hf)]; rewrite Hp.
  - eexists. eexists. split; [reflexivity|]. cbn [position releases].
    split; [reflexivity|]. split; [reflexivity|exact Hr].
  - exists sys1, st'. split; [reflexivity|]. repeat split; assumption.
Qed.

Lemma find_outcome_duplicate (l1 l2 : list esp_mqtt_event_id_t)
    (e : esp_mqtt_event_id_t) :
  find is_outcome_event (l1 ++ e :: e :: l2) = find is_outcome_event (l1 ++ e :: l2).
Proof.
  induction l1 as [|a l1 IH]; cbn [app find].
  - destruct (is_outcome_event e); reflexivity.
  - destruct (is_outcome_event a); [reflexivity|exact IH].
Qed.

(** C7: a second run of the handler on the same event changes nothing in
    the state, hence nothing in the event group.  A caller of [mqtt_start]
    that waits on its new group is taken off the list of waiting tasks
    exactly once when the handler runs on at least one Connected,
    Disconnected or Error event, however many events follow, duplicates
    among them, and however the calls of the handler and the moves of the
    caller interleave; it then returns.  Without such an event it is never
    released.  A duplicate of an event changes neither the number of
    releases nor what [mqtt_start] returns.  When such an event has been
    handled before the caller calls the wait, the caller is not put on the
    list at all and returns without any release; no run of [mqtt_start]
    has more than one release. *)
Theorem waiter_released_once :
  (forall e st st1,
      mqtt_event_handler e st = Next tt st1 ->
      mqtt_event_handler e st1 = Next tt st1)
  /\ (forall v events schedule st,
        setup_succeeds v -> delivers schedule events ->
        exists sys,
          mqtt_start_tasks v (Caller :: schedule ++ [Caller]) st = Some sys /\
          (existsb is_outcome_event events = true ->
           releases sys = 1%nat /\ exists r st', position sys = Finished r st') /\
          (existsb is_outcome_event events = false ->
           releases sys = 0%nat /\ position sys = Waiting))
  /\ (forall v l1 e l2 once twice st,
        setup_succeeds v ->
        delivers once (l1 ++ e :: l2) ->
        delivers twice (l1 ++ e :: e :: l2) ->
        exists sys1 sys2,
          mqtt_start_tasks v (Caller :: once ++ [Caller]) st = Some sys1 /\
          mqtt_start_tasks v (Caller :: twice ++ [Caller]) st = Some sys2 /\
          releases sys2 = releases sys1 /\
          match position sys1 with
          | Finished r1 st1 =>
              exists st2,
                position sys2 = Finished r1 st2 /\
                mqtt_connected st2 = mqtt_connected st1
          | p => position sys2 = p
          end)
  /\ (forall v pre events rest st,
        setup_succeeds v ->
        existsb is_outcome_event pre = true ->
        delivers rest events ->
        exists sys r st',
          mqtt_start_tasks v (uninterrupted pre ++ Caller :: rest ++ [Caller]) st
          = Some sys /\
          releases sys = 0%nat /\
          position sys = Finished r st')
  /\ (forall v events schedule st,
        delivers schedule events ->
        exists sys,
          mqtt_start_tasks v schedule st = Some sys /\ (releases sys <= 1)%nat).
Proof.
  split; [exact mqtt_event_handler_twice|]. split; [|split; [|split]].
  - intros v events schedule st Hok Hd.
    destruct (blocked_first v events schedule st Hok Hd) as (sys & He & Hm).
    exists sys. split; [exact He|].
    rewrite existsb_outcome_find.
    destruct (find is_outcome_event events) as [e|].
    + destruct Hm as (Hr & st' & Hp & _). split; [|discriminate].
      intros _. split; [exact Hr|]. eexists. eexists. exact Hp.
    + destruct Hm as (Hp & Hr). split; [discriminate|]. intros _. split; assumption.
  - intros v l1 e l2 once twice st Hok Hd1 Hd2.
    destruct (blocked_first v _ once st Hok Hd1) as (sys1 & He1 & Hm1).
    destruct (blocked_first v _ twice st Hok Hd2) as (sys2 & He2 & Hm2).
    rewrite find_outcome_duplicate in Hm2.
    exists sys1, sys2. split; [exact He1|]. split; [exact He2|].
    destruct (find is_outcome_event (l1 ++ e :: l2)) as [e0|].
    + destruct Hm1 as (Hr1 & st1 & Hp1 & Hf1).
      destruct Hm2 as (Hr2 & st2 & Hp2 & Hf2).
      split; [congruence|]. rewrite Hp1. exists st2. split; [exact Hp2|congruence].
    + destruct Hm1 as (Hp1 & Hr1). destruct Hm2 as (Hp2 & Hr2).
      split; [congruence|]. rewrite Hp1. exact Hp2.
  - intros v pre events rest st Hok Hpre Hd.
    rewrite (mqtt_start_tasks_eq v _ st Hok).
    set (st1 := mkState (Some 0) (mqtt_connected st) (esp_mqtt_client_init v)
                  (lifecycle st ++ setup_calls)).
    rewrite exec_app.
    rewrite (exec_uninterrupted pre (mkSystem st1 Arriving 0) 0 eq_refl)
      by discriminate.
    cbn [globals position releases exec].
    set (b0 := latch_after_all pre 0).
    assert (Hmet : prvTestWaitCondition b0 mqtt_start_wait_mask false = true).
    { unfold b0. rewrite wait_condition_after_all, Hpre. apply orb_true_r. }
    rewrite (advance_caller (mkSystem (with_s_mqtt_evtgrp_hdl (Some b0) st1) Arriving 0)
               b0 eq_refl).
    cbn [position globals releases]. rewrite Hmet.
    assert (H3 : three_bits b0).
    { apply latch_value_three_bits, latch_after_all_value. left. reflexivity. }
    assert (Hcalls : Forall handler_call (calls_of rest)).
    { rewrite Hd. apply handler_calls_are_handler_calls. }
    destruct (exec_holding_then_caller rest
                (mkSystem (with_s_mqtt_evtgrp_hdl (Some b0) st1) (Holding b0) 0) b0 b0
                eq_refl H3 Hcalls eq_refl) as (sys & st' & He & Hp & _ & Hr).
    exists sys. eexists. exists st'. split; [exact He|]. split; [exact Hr|exact Hp].
  - intros v events schedule st Hd. unfold mqtt_start_tasks.
    pose proof (mqtt_start_setup_cases v st) as Hsc.
    destruct (mqtt_start_setup v st) as [[] st1|r st1|st1|]; try contradiction.
    + destruct Hsc as (_ & Hh & _).
      assert (Hcalls : Forall handler_call (calls_of schedule)).
      { rewrite Hd. apply handler_calls_are_handler_calls. }
      destruct (exec_arriving schedule (mkSystem st1 Arriving 0) 0 Hh
                  (or_introl eq_refl) eq_refl Hcalls)
        as (sys & bits & He & _ & _ & Hr & _).
      exists sys. split; [exact He|]. cbn [releases] in Hr. lia.
    + eexists. split; [reflexivity|]. cbn [releases]. lia.
Qed.

Lemma waiter_released_once_witness :
  mqtt_event_handler MQTT_EVENT_CONNECTED fresh_group
  = Next tt (with_s_mqtt_evtgrp_hdl (Some MQTT_EVTGRP_CONNECTED_BIT) fresh_group) /\
  mqtt_event_handler MQTT_EVENT_CONNECTED
    (with_s_mqtt_evtgrp_hdl (Some MQTT_EVTGRP_CONNECTED_BIT) fresh_group)
  = Next tt (with_s_mqtt_evtgrp_hdl (Some MQTT_EVTGRP_CONNECTED_BIT) fresh_group) /\
  setup_succeeds all_ok /\
  delivers
    [Handler (SetBits MQTT_EVTGRP_CONNECTED_BIT); Caller;
     Handler (ClearBits MQTT_EVTGRP_DISCONNECTED_BIT);
     Handler (SetBits MQTT_EVTGRP_CONNECTED_BIT);
     Handler (ClearBits MQTT_EVTGRP_DISCONNECTED_BIT)]
    [MQTT_EVENT_CONNECTED; MQTT_EVENT_DATA; MQTT_EVENT_CONNECTED] /\
  existsb is_outcome_event [MQTT_EVENT_CONNECTED; MQTT_EVENT_DATA; MQTT_EVENT_CONNECTED]
  = true /\
  mqtt_start_tasks all_ok
    (Caller ::
     [Handler (SetBits MQTT_EVTGRP_CONNECTED_BIT); Caller;
      Handler (ClearBits MQTT_EVTGRP_DISCONNECTED_BIT);
      Handler (SetBits MQTT_EVTGRP_CONNECTED_BIT);
      Handler (ClearBits MQTT_EVTGRP_DISCONNECTED_BIT)] ++ [Caller]) initial_state
  = Some (mkSystem started (Finished ESP_OK started) 1) /\
  exists sys,
    mqtt_start_tasks all_ok
      (Caller ::
       [Handler (SetBits MQTT_EVTGRP_CONNECTED_BIT); Caller;
        Handler (ClearBits MQTT_EVTGRP_DISCONNECTED_BIT);
        Handler (SetBits MQTT_EVTGRP_CONNECTED_BIT);
        Handler (ClearBits MQTT_EVTGRP_DISCONNECTED_BIT)] ++ [Caller]) initial_state
    = Some sys /\
    (existsb is_outcome_event
       [MQTT_EVENT_CONNECTED; MQTT_EVENT_DATA; MQTT_EVENT_CONNECTED] = true ->
     releases sys = 1%nat /\ exists r st', position sys = Finished r st') /\
    (existsb is_outcome_event
       [MQTT_EVENT_CONNECTED; MQTT_EVENT_DATA; MQTT_EVENT_CONNECTED] = false ->
     releases sys = 0%nat /\ position sys = Waiting) /\
    existsb is_outcome_event [MQTT_EVENT_ERROR; MQTT_EVENT_ERROR] = true /\
    delivers [Handler (SetBits MQTT_EVTGRP_ERROR_BIT)] [MQTT_EVENT_ERROR] /\
    exists sys0 r st',
      mqtt_start_tasks all_ok
        (uninterrupted [MQTT_EVENT_ERROR; MQTT_EVENT_ERROR] ++
         Caller :: [Handler (SetBits MQTT_EVTGRP_ERROR_BIT)] ++ [Caller]) initial_state
      = Some sys0 /\
      releases sys0 = 0%nat /\
      position sys0 = Finished r st'.
Proof.
  destruct waiter_released_once as (Htwice & Honce & _ & Hbefore & _).
  assert (Hok : setup_succeeds all_ok).
  { unfold setup_succeeds. repeat split. discriminate. }
  split; [reflexivity|]. split.
  - apply (Htwice MQTT_EVENT_CONNECTED fresh_group). reflexivity.
  - split; [exact Hok|]. split; [reflexivity|]. split; [reflexivity|].
    split; [reflexivity|].
    destruct (Honce all_ok [MQTT_EVENT_CONNECTED; MQTT_EVENT_DATA; MQTT_EVENT_CONNECTED]
                [Handler (SetBits MQTT_EVTGRP_CONNECTED_BIT); Caller;
                 Handler (ClearBits MQTT_EVTGRP_DISCONNECTED_BIT);
                 Handler (SetBits MQTT_EVTGRP_CONNECTED_BIT);
                 Handler (ClearBits MQTT_EVTGRP_DISCONNECTED_BIT)]
                initial_state Hok eq_refl) as (sys & He & Hyes & Hno).
    exists sys. split; [exact He|]. split; [exact Hyes|]. split; [exact Hno|].
    split; [reflexivity|]. split; [reflexivity|].
    apply (Hbefore all_ok [MQTT_EVENT_ERROR; MQTT_EVENT_ERROR] [MQTT_EVENT_ERROR]
             [Handler (SetBits MQTT_EVTGRP_ERROR_BIT)] initial_state Hok);
      reflexivity.
Defined.

(** X4: when the caller of [mqtt_start] is on the list of waiting tasks
    before any event is handled, the first Connected, Disconnected or Error
    event handled afterwards decides, however the later calls of the
    handler and the moves of the caller interleave: [mqtt_start] returns
    ESP_OK with [mqtt_connected] true for Connected, and otherwise the
    value of the Disconnected or Error branch with [mqtt_connected] false. *)
Theorem first_outcome_event_releases (v : vendor)
    (events : list esp_mqtt_event_id_t) (schedule : list action) (st : state)
    (e : esp_mqtt_event_id_t) :
  setup_succeeds v ->
  delivers schedule events ->
  find is_outcome_event events = Some e ->
  exists sys st',
    mqtt_start_tasks v (Caller :: schedule ++ [Caller]) st = Some sys /\
    position sys
    = Finished
        (match e with
         | MQTT_EVENT_CONNECTED => ESP_OK
         | MQTT_EVENT_DISCONNECTED => MQTT_ERROR_TYPE_CONNECTION_REFUSED
         | _ => MQTT_ERROR_TYPE_NONE
         end) st' /\
    mqtt_connected st' = match e with MQTT_EVENT_CONNECTED => true | _ => false end.
Proof.
  intros Hok Hd Hfind.
  destruct (blocked_first v events schedule st Hok Hd) as (sys & He & Hm).
  rewrite Hfind in Hm. destruct Hm as (_ & st' & Hp & Hf).
  exists sys, st'. repeat split; assumption.
Qed.

Lemma first_outcome_event_releases_witness :
  setup_succeeds all_ok /\
  delivers
    [Handler (SetBits MQTT_EVTGRP_ERROR_BIT);
     Handler (SetBits MQTT_EVTGRP_DISCONNECTED_BIT);
     Handler (ClearBits MQTT_EVTGRP_CONNECTED_BIT); Caller]
    [MQTT_EVENT_BEFORE_CONNECT; MQTT_EVENT_ERROR; MQTT_EVENT_DISCONNECTED] /\
  find is_outcome_event
    [MQTT_EVENT_BEFORE_CONNECT; MQTT_EVENT_ERROR; MQTT_EVENT_DISCONNECTED]
  = Some MQTT_EVENT_ERROR /\
  mqtt_start_tasks all_ok
    (Caller ::
     [Handler (SetBits MQTT_EVTGRP_ERROR_BIT);
      Handler (SetBits MQTT_EVTGRP_DISCONNECTED_BIT);
      Handler (ClearBits MQTT_EVTGRP_CONNECTED_BIT); Caller] ++ [Caller]) initial_state
  = Some (mkSystem (mkState (Some 6) false (Some 1%nat) setup_calls)
            (Finished MQTT_ERROR_TYPE_NONE
               (mkState (Some 6) false (Some 1%nat) setup_calls)) 1) /\
  exists sys st',
    mqtt_start_tasks all_ok
      (Caller ::
       [Handler (SetBits MQTT_EVTGRP_ERROR_BIT);
        Handler (SetBits MQTT_EVTGRP_DISCONNECTED_BIT);
        Handler (ClearBits MQTT_EVTGRP_CONNECTED_BIT); Caller] ++ [Caller])
      initial_state = Some sys /\
    position sys = Finished MQTT_ERROR_TYPE_NONE st' /\
    mqtt_connected st' = false.
Proof.
  assert (Hok : setup_succeeds all_ok).
  { unfold setup_succeeds. repeat split. discriminate. }
  split; [exact Hok|]. split; [reflexivity|]. split; [reflexivity|].
  split; [reflexivity|].
  apply (first_outcome_event_releases all_ok
           [MQTT_EVENT_BEFORE_CONNECT; MQTT_EVENT_ERROR; MQTT_EVENT_DISCONNECTED]
           _ initial_state MQTT_EVENT_ERROR Hok); reflexivity.
Defined.


(** X2: when every handler run begun before the caller calls the wait has
    run to its end, and the last connect/disconnect-class event among them
    is Disconnected, [mqtt_start] returns
    MQTT_ERROR_TYPE_CONNECTION_REFUSED, which is not ESP_OK, with
    [mqtt_connected] false, whatever is handled afterwards and however it
    interleaves with the caller. *)
Theorem disconnected_before_wait_gives_refused (v : vendor)
    (pre events : list esp_mqtt_event_id_t) (rest : list action) (st : state) :
  setup_succeeds v ->
  last_link_event pre = Some MQTT_EVENT_DISCONNECTED ->
  delivers rest events ->
  exists sys st',
    mqtt_start_tasks v (uninterrupted pre ++ Caller :: rest ++ [Caller]) st = Some sys /\
    position sys = Finished MQTT_ERROR_TYPE_CONNECTION_REFUSED st' /\
    MQTT_ERROR_TYPE_CONNECTION_REFUSED <> ESP_OK /\
    mqtt_connected st' = false.
Proof.
  intros Hok Hlast Hd. rewrite (mqtt_start_tasks_eq v _ st Hok).
  set (st1 := mkState (Some 0) (mqtt_connected st) (esp_mqtt_client_init v)
                (lifecycle st ++ setup_calls)).
  rewrite exec_app.
  rewrite (exec_uninterrupted pre (mkSystem st1 Arriving 0) 0 eq_refl)
    by discriminate.
  cbn [globals position releases exec].
  set (b0 := latch_after_all pre 0).
  set (g := with_s_mqtt_evtgrp_hdl (Some b0) st1).
  pose proof (latch_follows_last_link_event pre 0) as Hbits.
  rewrite Hlast in Hbits. fold b0 in Hbits. destruct Hbits as [Hb0 Hb1].
  assert (Hmet : prvTestWaitCondition b0 mqtt_start_wait_mask false = true).
  { unfold prvTestWaitCondition. rewrite wait_mask_test, Hb0, Hb1. reflexivity. }
  assert (Hfirst : spec_first_satisfied b0 = Some Disconnected).
  { unfold spec_first_satisfied, spec_priority_order. cbn [find].
    unfold is_set. cbn [outcome_mask].
    rewrite connected_bit_test, disconnected_bit_test, Hb0, Hb1. reflexivity. }
  rewrite (advance_caller (mkSystem g Arriving 0) b0 eq_refl). cbn [position].
  rewrite Hmet.
  assert (H3 : three_bits b0).
  { apply latch_value_three_bits, latch_after_all_value. left. reflexivity. }
  assert (Hcalls : Forall handler_call (calls_of rest)).
  { rewrite Hd. apply handler_calls_are_handler_calls. }
  destruct (exec_holding_then_caller rest (mkSystem g (Holding b0) 0) b0 b0
              eq_refl H3 Hcalls eq_refl) as (sys & st' & He & Hp & Hf & _).
  rewrite Hfirst in Hp, Hf.
  exists sys, st'. split; [exact He|]. split; [exact Hp|].
  split; [discriminate|exact Hf].
Qed.

Lemma disconnected_before_wait_gives_refused_witness :
  setup_succeeds all_ok /\
  last_link_event [MQTT_EVENT_CONNECTED; MQTT_EVENT_DISCONNECTED]
  = Some MQTT_EVENT_DISCONNECTED /\
  delivers [Handler (SetBits MQTT_EVTGRP_CONNECTED_BIT); Caller;
            Handler (ClearBits MQTT_EVTGRP_DISCONNECTED_BIT)]
           [MQTT_EVENT_CONNECTED] /\
  exists sys st',
    mqtt_start_tasks all_ok
      (uninterrupted [MQTT_EVENT_CONNECTED; MQTT_EVENT_DISCONNECTED] ++
       Caller :: [Handler (SetBits MQTT_EVTGRP_CONNECTED_BIT); Caller;
                  Handler (ClearBits MQTT_EVTGRP_DISCONNECTED_BIT)] ++ [Caller])
      initial_state = Some sys /\
    position sys = Finished MQTT_ERROR_TYPE_CONNECTION_REFUSED st' /\
    MQTT_ERROR_TYPE_CONNECTION_REFUSED <> ESP_OK /\
    mqtt_connected st' = false.
Proof.
  assert (Hok : setup_succeeds all_ok).
  { unfold setup_succeeds. repeat split. discriminate. }
  split; [exact Hok|]. split; [reflexivity|]. split; [reflexivity|].
  apply (disconnected_before_wait_gives_refused all_ok
           [MQTT_EVENT_CONNECTED; MQTT_EVENT_DISCONNECTED] [MQTT_EVENT_CONNECTED]
           _ initial_state Hok); reflexivity.
Defined.

(** X15: between two handler runs the event group of a cycle holds one of
    0, 1, 2, 4, 5 and 6, the handler keeping these values.  Within a run
    the Connected and the Disconnected bit can be set together, and the
    caller scheduled then reads them so: under every interleaving the
    group holds a value from 0 to 7, no bit beyond the three, the value of
    the wait is never 0, and there is a schedule in which it is 3. *)
Theorem event_group_values_interleaved :
  (forall events st bits,
      s_mqtt_evtgrp_hdl st = Some bits ->
      latch_value bits ->
      exists bits',
        dispatch events st = Next tt (with_s_mqtt_evtgrp_hdl (Some bits') st) /\
        latch_value bits')
  /\ (forall v events schedule st,
        setup_succeeds v ->
        delivers schedule events ->
        exists sys bits,
          mqtt_start_tasks v schedule st = Some sys /\
          s_mqtt_evtgrp_hdl (globals sys) = Some bits /\
          three_bits bits /\
          (forall b, position sys = Holding b -> three_bits b /\ b <> 0))
  /\ (exists schedule,
        delivers schedule [MQTT_EVENT_DISCONNECTED; MQTT_EVENT_CONNECTED] /\
        mqtt_start_tasks all_ok schedule initial_state
        = Some (mkSystem (mkState (Some 1) false (Some 1%nat) setup_calls)
                  (Holding 3) 0)).
Proof.
  split; [|split].
  - intros events st bits Hh Hv. exists (latch_after_all events bits).
    split; [apply dispatch_live; exact Hh|].
    apply latch_after_all_value. exact Hv.
  - intros v events schedule st Hok Hd.
    rewrite (mqtt_start_tasks_eq v schedule st Hok).
    assert (Hcalls : Forall handler_call (calls_of schedule)).
    { rewrite Hd. apply handler_calls_are_handler_calls. }
    destruct (exec_arriving schedule
                (mkSystem (mkState (Some 0) (mqtt_connected st) (esp_mqtt_client_init v)
                             (lifecycle st ++ setup_calls)) Arriving 0)
                0 eq_refl (or_introl eq_refl) eq_refl Hcalls)
      as (sys & bits & He & Hh & Hb & _ & Hhold).
    exists sys, bits. repeat split; try assumption; apply (Hhold b); assumption.
  - exists [Handler (SetBits MQTT_EVTGRP_DISCONNECTED_BIT);
            Handler (ClearBits MQTT_EVTGRP_CONNECTED_BIT);
            Handler (SetBits MQTT_EVTGRP_CONNECTED_BIT); Caller;
            Handler (ClearBits MQTT_EVTGRP_DISCONNECTED_BIT)].
    split; reflexivity.
Qed.

Lemma event_group_values_interleaved_witness :
  (s_mqtt_evtgrp_hdl (mkState (Some 5) true (Some 1%nat) setup_calls) = Some 5 /\
   latch_value 5 /\
   exists bits',
     dispatch [MQTT_EVENT_DISCONNECTED; MQTT_EVENT_DATA]
       (mkState (Some 5) true (Some 1%nat) setup_calls)
     = Next tt (with_s_mqtt_evtgrp_hdl (Some bits')
                  (mkState (Some 5) true (Some 1%nat) setup_calls)) /\
     latch_value bits')
  /\ (setup_succeeds all_ok /\
      delivers [Handler (SetBits MQTT_EVTGRP_ERROR_BIT); Caller;
                Handler (SetBits MQTT_EVTGRP_CONNECTED_BIT);
                Handler (ClearBits MQTT_EVTGRP_DISCONNECTED_BIT)]
               [MQTT_EVENT_ERROR; MQTT_EVENT_CONNECTED] /\
      mqtt_start_tasks all_ok
        [Handler (SetBits MQTT_EVTGRP_ERROR_BIT); Caller;
         Handler (SetBits MQTT_EVTGRP_CONNECTED_BIT);
         Handler (ClearBits MQTT_EVTGRP_DISCONNECTED_BIT)] initial_state
      = Some (mkSystem (mkState (Some 5) false (Some 1%nat) setup_calls) (Holding 4) 0) /\
      exists sys bits,
        mqtt_start_tasks all_ok
          [Handler (SetBits MQTT_EVTGRP_ERROR_BIT); Caller;
           Handler (SetBits MQTT_EVTGRP_CONNECTED_BIT);
           Handler (ClearBits MQTT_EVTGRP_DISCONNECTED_BIT)] initial_state = Some sys /\
        s_mqtt_evtgrp_hdl (globals sys) = Some bits /\
        three_bits bits /\
        (forall b, position sys = Holding b -> three_bits b /\ b <> 0)).
Proof.
  destruct event_group_values_interleaved as (Hhandler & Htasks & _).
  assert (Hok : setup_succeeds all_ok).
  { unfold setup_succeeds. repeat split. discriminate. }
  split.
  - split; [reflexivity|].
    assert (Hv : latch_value 5) by (unfold latch_value; auto 10).
    split; [exact Hv|].
    apply (Hhandler [MQTT_EVENT_DISCONNECTED; MQTT_EVENT_DATA] _ 5);
      [reflexivity|exact Hv].
  - split; [exact Hok|]. split; [reflexivity|]. split; [reflexivity|].
    apply (Htasks all_ok [MQTT_EVENT_ERROR; MQTT_EVENT_CONNECTED] _ initial_state Hok).
    reflexivity.
Defined.

(** ** Where a Connected bit comes from *)

Lemma outcome_of_bits (b : EventBits_t) :
  (spec_connected_state (spec_first_satisfied b) = true ->
   spec_return_value (spec_first_satisfied b) = ESP_OK /\ Z.testbit b 0 = true)
  /\ (spec_return_value (spec_first_satisfied b) <> ESP_OK ->
      spec_connected_state (spec_first_satisfied b) = false).
Proof.
  unfold spec_first_satisfied, spec_priority_order. cbn [find].
  unfold is_set. cbn [outcome_mask].
  rewrite connected_bit_test, negb_involutive.
  destruct (Z.testbit b 0); cbn.
  - split; [auto|]. intros H. contradiction H. reflexivity.
  - destruct (negb (Z.land b MQTT_EVTGRP_DISCONNECTED_BIT =? 0));
      [|destruct (negb (Z.land b MQTT_EVTGRP_ERROR_BIT =? 0))];
      cbn; split; try discriminate; reflexivity.
Qed.

Lemma connected_bit_origin (c : rtos_call) (bits : EventBits_t)
    (acc : list rtos_call) :
  handler_call c ->
  (Z.testbit bits 0 = true -> In (SetBits MQTT_EVTGRP_CONNECTED_BIT) acc) ->
  Z.testbit (call_after c bits) 0 = true ->
  In (SetBits MQTT_EVTGRP_CONNECTED_BIT) (acc ++ [c]).
Proof.
  intros Hc Hacc. apply handler_call_cases in Hc.
  destruct Hc as [H|[H|[H|[H|H]]]]; subst c; cbn [call_after];
    rewrite ?Z.ldiff_spec, ?Z.lor_spec;
    try (intros _; apply in_or_app; right; left; reflexivity);
    change (Z.testbit 2 0) with false; change (Z.testbit 4 0) with false;
    change (Z.testbit 1 0) with true; cbn [negb];
    rewrite ?andb_true_r, ?orb_false_r, ?andb_false_r;
    try discriminate;
    intros Hb; apply in_or_app; left; apply Hacc; exact Hb.
Qed.

Lemma exec_connected_origin (schedule : list action) :
  forall (sys : system) (acc : list rtos_call) (bits : EventBits_t),
    s_mqtt_evtgrp_hdl (globals sys) = Some bits ->
    three_bits bits ->
    Forall handler_call (calls_of schedule) ->
    (Z.testbit bits 0 = true -> In (SetBits MQTT_EVTGRP_CONNECTED_BIT) acc) ->
    (forall b, position sys = Holding b -> Z.testbit b 0 = true ->
               In (SetBits MQTT_EVTGRP_CONNECTED_BIT) acc) ->
    (forall r st',
        position sys = Finished r st' ->
        (mqtt_connected st' = true ->
         r = ESP_OK /\ In (SetBits MQTT_EVTGRP_CONNECTED_BIT) acc) /\
        (r <> ESP_OK -> mqtt_connected st' = false)) ->
    forall sys',
      exec schedule sys = Some sys' ->
      forall r st',
        position sys' = Finished r st' ->
        (mqtt_connected st' = true ->
         r = ESP_OK /\
         In (SetBits MQTT_EVTGRP_CONNECTED_BIT) (acc ++ calls_of schedule)) /\
        (r <> ESP_OK -> mqtt_connected st' = false).
Proof.
  induction schedule as [|a schedule IH];
    intros sys acc bits Hh Hb Hcalls Hbit Hhold Hfin sys'.
  - cbn [exec calls_of]. intros H; inversion H; subst.
    rewrite app_nil_r. exact Hfin.
  - cbn [exec]. destruct a as [c|]; cbn [calls_of] in Hcalls |- *.
    + inversion Hcalls as [|c' l' Hc Hrest]; subst.
      replace (acc ++ c :: calls_of schedule)
        with ((acc ++ [c]) ++ calls_of schedule)
        by (rewrite <- app_assoc; reflexivity).
      pose proof (connected_bit_origin c bits acc Hc Hbit) as Hbit'.
      pose proof (call_after_three_bits c bits Hc Hb) as Hb'.
      assert (Hkeep :
        position sys <> Waiting \/ is_set_call c = false ->
        forall sys',
          exec (Handler c :: schedule) sys = Some sys' ->
          forall r st',
            position sys' = Finished r st' ->
            (mqtt_connected st' = true ->
             r = ESP_OK /\
             In (SetBits MQTT_EVTGRP_CONNECTED_BIT) ((acc ++ [c]) ++ calls_of schedule)) /\
            (r <> ESP_OK -> mqtt_connected st' = false)).
      { intros Hk. cbn [exec]. rewrite (advance_handler_keeps c sys bits Hh Hk).
        apply (IH (mkSystem (with_s_mqtt_evtgrp_hdl (Some (call_after c bits))
                               (globals sys)) (position sys) (releases sys))
                  (acc ++ [c]) (call_after c bits) eq_refl Hb' Hrest Hbit').
        - intros b Hp Ht. apply in_or_app. left. exact (Hhold b Hp Ht).
        - intros r st' Hp. destruct (Hfin r st' Hp) as [H1 H2].
          split; [|exact H2].
          intros Hf. destruct (H1 Hf) as [Hr Hin].
          split; [exact Hr|]. apply in_or_app. left. exact Hin. }
      destruct (position sys) eqn:Hpos;
        try (apply Hkeep; left; discriminate).
      destruct c as [b|b]; [|apply Hkeep; right; reflexivity].
      assert (Hmet : prvTestWaitCondition (Z.lor bits b) mqtt_start_wait_mask false
                     = true) by (apply set_call_meets_condition; assumption).
      rewrite (advance_set_waiting b sys bits Hh Hpos Hmet).
      apply (IH (mkSystem (with_s_mqtt_evtgrp_hdl (Some (Z.lor bits b)) (globals sys))
                   (Holding (Z.lor bits b)) (S (releases sys)))
                (acc ++ [SetBits b]) (Z.lor bits b) eq_refl Hb' Hrest Hbit').
      * intros b' Hp Ht. cbn [position] in Hp. inversion Hp; subst.
        apply Hbit'. exact Ht.
      * intros r st' Hp. discriminate Hp.
    + rewrite (advance_caller sys bits Hh).
      destruct (position sys) as [| |b|r0 st0] eqn:Hpos.
      * destruct (prvTestWaitCondition bits mqtt_start_wait_mask false).
        -- apply (IH (mkSystem (globals sys) (Holding bits) (releases sys))
                     acc bits Hh Hb Hcalls Hbit).
           ++ intros b Hp Ht. inversion Hp; subst. apply Hbit. exact Ht.
           ++ intros r st' Hp. discriminate Hp.
        -- apply (IH (mkSystem (globals sys) Waiting (releases sys))
                     acc bits Hh Hb Hcalls Hbit).
           ++ intros b Hp. discriminate Hp.
           ++ intros r st' Hp. discriminate Hp.
      * apply (IH sys acc bits Hh Hb Hcalls Hbit).
        -- intros b Hp. rewrite Hpos in Hp. discriminate Hp.
        -- intros r st' Hp. rewrite Hpos in Hp. discriminate Hp.
      * set (g := with_mqtt_connected (spec_connected_state (spec_first_satisfied b))
                    (globals sys)).
        apply (IH (mkSystem g (Finished (spec_return_value (spec_first_satisfied b)) g)
                     (releases sys)) acc bits Hh Hb Hcalls Hbit).
        -- intros b' Hp. discriminate Hp.
        -- intros r st' Hp. cbn [position] in Hp. inversion Hp; subst.
           destruct (outcome_of_bits b) as [H1 H2].
           split; [|exact H2].
           intros Hf. destruct (H1 Hf) as [Hr Ht].
           split; [exact Hr|]. apply (Hhold b eq_refl Ht).
      * apply (IH sys acc bits Hh Hb Hcalls Hbit).
        -- intros b Hp. rewrite Hpos in Hp. discriminate Hp.
        -- intros r st' Hp. rewrite Hpos in Hp. apply Hfin. exact Hp.
Qed.

Lemma connected_call_event (events : list esp_mqtt_event_id_t) :
  In (SetBits MQTT_EVTGRP_CONNECTED_BIT) (flat_map handler_calls events) ->
  In MQTT_EVENT_CONNECTED events.
Proof.
  rewrite in_flat_map. intros (e & He & Hc).
  destruct e; cbn [handler_calls In] in Hc;
    repeat (destruct Hc as [Hc|Hc]; [try discriminate Hc|]);
    try contradiction; exact He.
Qed.

(** X9: under every interleaving of the handler's calls and the caller's
    moves, when [mqtt_connected] is false before [mqtt_start] and true at
    its return, the return value is ESP_OK and a Connected event is among
    the events handled; so a return value other than ESP_OK comes with the
    flag false. *)
Theorem flag_set_needs_connected_event (v : vendor)
    (events : list esp_mqtt_event_id_t) (schedule : list action)
    (st st' : state) (sys : system) (r : esp_err_t) :
  mqtt_connected st = false ->
  delivers schedule events ->
  mqtt_start_tasks v schedule st = Some sys ->
  position sys = Finished r st' ->
  (mqtt_connected st' = true -> r = ESP_OK /\ In MQTT_EVENT_CONNECTED events)
  /\ (r <> ESP_OK -> mqtt_connected st' = false).
Proof.
  intros Hflag Hd. unfold mqtt_start_tasks.
  pose proof (mqtt_start_setup_cases v st) as Hsc.
  destruct (mqtt_start_setup v st) as [[] st1|r1 st1|st1|]; try contradiction.
  - destruct Hsc as (_ & Hh & _). intros He Hp.
    assert (Hcalls : Forall handler_call (calls_of schedule)).
    { rewrite Hd. apply handler_calls_are_handler_calls. }
    destruct (exec_connected_origin schedule (mkSystem st1 Arriving 0) [] 0 Hh
                (or_introl eq_refl) Hcalls) with (sys' := sys) (r := r) (st' := st')
      as [H1 H2]; try assumption.
    + discriminate.
    + intros b Hb. discriminate Hb.
    + intros r0 st0 Hb. discriminate Hb.
    + split; [|exact H2]. intros Hf. destruct (H1 Hf) as [Hr Hin].
      split; [exact Hr|]. cbn [app] in Hin. rewrite Hd in Hin.
      apply connected_call_event. exact Hin.
  - destruct Hsc as (_ & Hne & _ & _ & _ & Hf).
    intros H Hp; inversion H; subst. cbn [position] in Hp. inversion Hp; subst.
    rewrite Hf, Hflag. split; [discriminate|reflexivity].
Qed.

Lemma flag_set_needs_connected_event_witness :
  mqtt_connected initial_state = false /\
  delivers [Handler (SetBits MQTT_EVTGRP_DISCONNECTED_BIT);
            Handler (ClearBits MQTT_EVTGRP_CONNECTED_BIT);
            Handler (SetBits MQTT_EVTGRP_CONNECTED_BIT); Caller;
            Handler (ClearBits MQTT_EVTGRP_DISCONNECTED_BIT); Caller]
           [MQTT_EVENT_DISCONNECTED; MQTT_EVENT_CONNECTED] /\
  mqtt_start_tasks all_ok
    [Handler (SetBits MQTT_EVTGRP_DISCONNECTED_BIT);
     Handler (ClearBits MQTT_EVTGRP_CONNECTED_BIT);
     Handler (SetBits MQTT_EVTGRP_CONNECTED_BIT); Caller;
     Handler (ClearBits MQTT_EVTGRP_DISCONNECTED_BIT); Caller] initial_state
  = Some (mkSystem started (Finished ESP_OK started) 0) /\
  (mqtt_connected started = true ->
   ESP_OK = ESP_OK /\
   In MQTT_EVENT_CONNECTED [MQTT_EVENT_DISCONNECTED; MQTT_EVENT_CONNECTED]).
Proof.
  split; [reflexivity|]. split; [reflexivity|]. split; [reflexivity|].
  apply (proj1 (flag_set_needs_connected_event all_ok
                  [MQTT_EVENT_DISCONNECTED; MQTT_EVENT_CONNECTED]
                  [Handler (SetBits MQTT_EVTGRP_DISCONNECTED_BIT);
                   Handler (ClearBits MQTT_EVTGRP_CONNECTED_BIT);
                   Handler (SetBits MQTT_EVTGRP_CONNECTED_BIT); Caller;
                   Handler (ClearBits MQTT_EVTGRP_DISCONNECTED_BIT); Caller]
                  initial_state started
                  (mkSystem started (Finished ESP_OK started) 0) ESP_OK
                  eq_refl eq_refl eq_refl eq_refl)).
Defined.

(** ** mqtt_start as one of the schedules *)

Lemma calls_of_caller_after_each (world : list activity) :
  calls_of (caller_after_each world) = flat_map handler_calls (delivered world).
Proof.
  induction world as [|a world IH]; [reflexivity|].
  unfold caller_after_each in *. cbn [flat_map delivered].
  destruct a as [e|].
  - rewrite !calls_of_app, calls_of_uninterrupted, IH.
    cbn [flat_map calls_of app]. rewrite !app_nil_r. reflexivity.
  - cbn [app calls_of]. exact IH.
Qed.

Lemma exec_caller_after_each (world : list activity) :
  forall (flag : bool) (client : esp_mqtt_client_handle_t) (lc : list call) (n : nat),
    exists sys',
      exec (caller_after_each world)
        (mkSystem (mkState (Some 0) flag client lc) Waiting n) = Some sys' /\
      match released_with world 0 with
      | Some b =>
          position sys'
          = Finished (spec_return_value (spec_first_satisfied b))
              (mkState (Some b) (spec_connected_state (spec_first_satisfied b))
                 client lc)
      | None => sys' = mkSystem (mkState (Some 0) flag client lc) Waiting n
      end.
Proof.
  induction world as [|a world IH]; intros flag client lc n.
  - eexists. split; reflexivity.
  - unfold caller_after_each in *. cbn [flat_map released_with].
    change (prvTestWaitCondition 0 mqtt_start_wait_mask false) with false. cbn iota.
    assert (Hrest : Forall handler_call
                      (calls_of (caller_after_each world))).
    { rewrite calls_of_caller_after_each. apply handler_calls_are_handler_calls. }
    unfold caller_after_each in Hrest.
    destruct a as [e|]; [|apply IH].
    destruct (is_outcome_event e) eqn:He.
    + rewrite exec_app.
      destruct e; try discriminate He.
      * change (latch_after MQTT_EVENT_ERROR 0) with 4.
        rewrite (released_at_once world 4 eq_refl).
        destruct (exec_finished _
                    (mkSystem (mkState (Some 4) false client lc)
                       (Finished MQTT_ERROR_TYPE_NONE
                          (mkState (Some 4) false client lc)) (S n))
                    4 _ _ eq_refl (or_intror (or_intror (or_intror (or_intror
                      (or_introl eq_refl))))) Hrest eq_refl)
          as (sys' & bits' & Hex & _ & _ & _ & Hp).
        exists sys'. split; [exact Hex|exact Hp].
      * change (latch_after MQTT_EVENT_CONNECTED 0) with 1.
        rewrite (released_at_once world 1 eq_refl).
        destruct (exec_finished _
                    (mkSystem (mkState (Some 1) true client lc)
                       (Finished ESP_OK (mkState (Some 1) true client lc)) (S n))
                    1 _ _ eq_refl (or_intror (or_introl eq_refl)) Hrest eq_refl)
          as (sys' & bits' & Hex & _ & _ & _ & Hp).
        exists sys'. split; [exact Hex|exact Hp].
      * change (latch_after MQTT_EVENT_DISCONNECTED 0) with 2.
        rewrite (released_at_once world 2 eq_refl).
        destruct (exec_finished _
                    (mkSystem (mkState (Some 2) false client lc)
                       (Finished MQTT_ERROR_TYPE_CONNECTION_REFUSED
                          (mkState (Some 2) false client lc)) (S n))
                    2 _ _ eq_refl (or_intror (or_intror (or_introl eq_refl)))
                    Hrest eq_refl)
          as (sys' & bits' & Hex & _ & _ & _ & Hp).
        exists sys'. split; [exact Hex|exact Hp].
    + rewrite (latch_after_no_outcome e 0 He).
      destruct e; try discriminate He; apply IH.
Qed.

(** [mqtt_start] is the run of the two tasks in which no handler run is
    interrupted and the caller is scheduled after each: the same return
    value in the same state, or the same wait without end. *)
Lemma mqtt_start_as_schedule (v : vendor) (pre : list esp_mqtt_event_id_t)
    (world : list activity) (st : state) :
  setup_succeeds v ->
  exists sys,
    mqtt_start_tasks v (atomic_schedule pre world) st = Some sys /\
    match run (mqtt_start v pre world) st with
    | Returned r st' => position sys = Finished r st'
    | Blocked st' => position sys = Waiting /\ globals sys = st'
    | Aborted => False
    end.
Proof.
  intros Hok.
  rewrite (mqtt_start_tasks_eq v _ st Hok), (mqtt_start_eq v pre world st Hok).
  set (st1 := mkState (Some 0) (mqtt_connected st) (esp_mqtt_client_init v)
                (lifecycle st ++ setup_calls)).
  unfold atomic_schedule. rewrite exec_app.
  rewrite (exec_uninterrupted pre (mkSystem st1 Arriving 0) 0 eq_refl)
    by discriminate.
  cbn [globals position releases].
  set (b0 := latch_after_all pre 0).
  assert (H3 : three_bits b0).
  { apply latch_value_three_bits, latch_after_all_value. left. reflexivity. }
  assert (Hrest : Forall handler_call (calls_of (caller_after_each world))).
  { rewrite calls_of_caller_after_each. apply handler_calls_are_handler_calls. }
  cbn [app exec].
  rewrite (advance_caller (mkSystem (with_s_mqtt_evtgrp_hdl (Some b0) st1) Arriving 0)
             b0 eq_refl).
  cbn [position globals releases].
  destruct (prvTestWaitCondition b0 mqtt_start_wait_mask false) eqn:Hcond.
  - rewrite (released_at_once world b0 Hcond).
    rewrite (advance_caller
               (mkSystem (with_s_mqtt_evtgrp_hdl (Some b0) st1) (Holding b0) 0)
               b0 eq_refl).
    cbn [position globals releases].
    set (g := with_mqtt_connected (spec_connected_state (spec_first_satisfied b0))
                (with_s_mqtt_evtgrp_hdl (Some b0) st1)).
    destruct (exec_finished (caller_after_each world)
                (mkSystem g (Finished (spec_return_value (spec_first_satisfied b0)) g) 0)
                b0 _ g eq_refl H3 Hrest eq_refl)
      as (sys & bits' & Hex & _ & _ & _ & Hp).
    exists sys. split; [exact Hex|exact Hp].
  - pose proof (three_bits_condition b0 H3 Hcond) as Hz.
    rewrite (advance_caller
               (mkSystem (with_s_mqtt_evtgrp_hdl (Some b0) st1) Waiting 0) b0 eq_refl).
    cbn [position]. rewrite Hz.
    destruct (exec_caller_after_each world (mqtt_connected st)
                (esp_mqtt_client_init v) (lifecycle st ++ setup_calls) 0)
      as (sys & Hex & Hm).
    exists sys. split; [exact Hex|].
    pose proof (released_none_iff world 0) as Hnone.
    destruct (released_with world 0) as [b|]; [exact Hm|].
    subst sys. split; [reflexivity|]. cbn [globals].
    rewrite latch_after_all_app. fold b0. rewrite Hz.
    assert (H0 : latch_after_all (delivered world) 0 = 0).
    { apply three_bits_condition; [|apply Hnone; reflexivity].
      apply latch_value_three_bits, latch_after_all_value. left. reflexivity. }
    rewrite H0. reflexivity.
Qed.

(** C3, amended: [mqtt_connected] is written by [mqtt_start], at the test
    of the bits its wait has returned: true when the Connected bit is among
    them and false otherwise, for every value of the bits; when its setup
    fails [mqtt_start] leaves the flag as it was, and [mqtt_stop] does not
    write it. *)
Theorem mqtt_connected_written_at_outcome :
  (forall bits st,
      exists r,
        mqtt_start_link_bits bits st
        = Next r (with_mqtt_connected
                    (negb (Z.land bits MQTT_EVTGRP_CONNECTED_BIT =? 0)) st))
  /\ (forall v pre world st r st',
        run (mqtt_start v pre world) st = Returned r st' ->
        match mqtt_start_until_wait v pre world st with
        | Next bits _ =>
            mqtt_connected st' = negb (Z.land bits MQTT_EVTGRP_CONNECTED_BIT =? 0)
        | _ => mqtt_connected st' = mqtt_connected st
        end)
  /\ (forall v st r st',
        run (mqtt_stop v) st = Returned r st' -> mqtt_connected st' = mqtt_connected st).
Proof.
  split; [|split].
  - intros bits st. rewrite mqtt_start_link_bits_eq, link_bits_flag.
    eexists. reflexivity.
  - intros v pre world st r st'. unfold run. rewrite mqtt_start_unfold.
    pose proof (mqtt_start_until_wait_cases v pre world st) as Hc.
    destruct (mqtt_start_until_wait v pre world st) as [bits st1|r1 st1|st1|].
    + rewrite mqtt_start_link_bits_eq, link_bits_flag.
      intros H; inversion H; reflexivity.
    + destruct Hc as (_ & Hs).
      pose proof (mqtt_start_setup_cases v st) as Hsc. rewrite Hs in Hsc.
      intros H; inversion H; subst. tauto.
    + discriminate.
    + discriminate.
  - intros v st r st'. rewrite mqtt_stop_eq.
    destruct (_ =? _); [destruct (_ =? _); [destruct (_ =? _)|]|];
      intros H; inversion H; reflexivity.
Qed.

Lemma mqtt_connected_written_at_outcome_witness :
  run (mqtt_start all_ok [] [Deliver MQTT_EVENT_CONNECTED]) initial_state
  = Returned ESP_OK started /\
  mqtt_start_until_wait all_ok [] [Deliver MQTT_EVENT_CONNECTED] initial_state
  = Next MQTT_EVTGRP_CONNECTED_BIT
      (mkState (Some MQTT_EVTGRP_CONNECTED_BIT) false (Some 1%nat) setup_calls) /\
  mqtt_connected started
  = negb (Z.land MQTT_EVTGRP_CONNECTED_BIT MQTT_EVTGRP_CONNECTED_BIT =? 0) /\
  run (mqtt_start no_client [] []) started
  = Returned ESP_ERR_INVALID_STATE
      (mkState (Some 0) true None
         (setup_calls ++ [xEventGroupCreate_call; esp_mqtt_client_init_call])) /\
  mqtt_connected
    (mkState (Some 0) true None
       (setup_calls ++ [xEventGroupCreate_call; esp_mqtt_client_init_call]))
  = mqtt_connected started /\
  run (mqtt_stop stop_fails) started
  = Returned ESP_FAIL
      (mkState (Some MQTT_EVTGRP_CONNECTED_BIT) true (Some 1%nat)
         (setup_calls ++
          [esp_mqtt_client_disconnect_call; esp_mqtt_client_stop_call])) /\
  mqtt_connected
    (mkState (Some MQTT_EVTGRP_CONNECTED_BIT) true (Some 1%nat)
       (setup_calls ++
        [esp_mqtt_client_disconnect_call; esp_mqtt_client_stop_call]))
  = mqtt_connected started.
Proof.
  destruct mqtt_connected_written_at_outcome as (_ & Hstart & Hstop).
  split; [reflexivity|]. split; [reflexivity|]. split.
  - apply (Hstart all_ok [] [Deliver MQTT_EVENT_CONNECTED] initial_state ESP_OK started).
    reflexivity.
  - split; [reflexivity|]. split.
    + apply (Hstart no_client [] [] started ESP_ERR_INVALID_STATE). reflexivity.
    + split; [reflexivity|].
      apply (Hstop stop_fails started ESP_FAIL). reflexivity.
Defined.
